(** * lummi: the image scraper of [main.py]

    A shallow embedding of the three pieces of [main.py] that carry
    behaviour: [clean_filename], [download_image] and the two loops of
    [main] (scroll until the page height is stable, then download the
    image tags found on the page).

    Python values are modelled as follows.
    - A [str] is the list of its Unicode code points ([N]).
    - What Python takes from its character database ([\w] and [\s] of
      [re], [str.lower], [str.isupper]) is a record [unicode_db]; the
      program is parametric in it, and [py_ucd] is the table used by
      the closed examples.
    - [bytes] are lists of [byte].
    - The network, the file system, the clock and the log are a [world]
      that the functions thread through; what the remote server and
      the page answer is given by oracles indexed by the number of
      requests (reads) made so far. *)

From Stdlib Require Import ZArith NArith Ascii String Strings.Byte DecimalString List Bool Lia.
From stdpp Require Import base option list gmap.

Local Open Scope N_scope.

(** ** Python strings *)

Abbreviation str := (list N).

(** The code points of a string literal (one per character). *)
Definition py (s : string) : str :=
  List.map N_of_ascii (list_ascii_of_string s).

(** [str(n)] for an [int]. *)
Definition str_of_int (z : Z) : str :=
  py (NilZero.string_of_int (Z.to_int z)).

Definition SPACE : N := 0x20.
Definition UNDERSCORE : N := 0x5F.
Definition DOT : N := 0x2E.
Definition HYPHEN : N := 0x2D.
Definition CAPITAL_SIGMA : N := 0x3A3.
Definition FINAL_SIGMA : N := 0x3C2.
Definition SMALL_SIGMA : N := 0x3C3.

(** What the interpreter reads from the Unicode character database.
    [tolower] is the full lowercase mapping of one code point (it may
    give several), [final_sigma before after] tells whether a capital
    sigma standing between [before] and [after] is in final position. *)
Record unicode_db := {
  isalnum : N -> bool;
  isspace : N -> bool;
  isupper : N -> bool;
  tolower : N -> list N;
  final_sigma : list N -> list N -> bool
}.

Section Strings.

Context (U : unicode_db).

(** [s.replace(old, new)] for one-character [old] and [new]. *)
Definition replace_char (old new : N) (s : str) : str :=
  List.map (fun c => if c =? old then new else c) s.

(** [s.lower()]: every code point is replaced by its lowercase
    mapping; capital sigma alone depends on its context. *)
Fixpoint lower_from (before after : str) : str :=
  match after with
  | [] => []
  | c :: rest =>
      (if c =? CAPITAL_SIGMA
       then [if final_sigma U before rest then FINAL_SIGMA else SMALL_SIGMA]
       else tolower U c) ++ lower_from (before ++ [c]) rest
  end.

Definition lower (s : str) : str := lower_from [] s.

(** [\w]: alphanumeric or underscore. *)
Definition is_word (c : N) : bool := isalnum U c || (c =? UNDERSCORE).

(** The characters that the class [[^\w\s.-]] does not match. *)
Definition kept (c : N) : bool :=
  is_word c || isspace U c || (c =? DOT) || (c =? HYPHEN).

(** [re.sub(r'[^\w\s.-]', '', s)]: every match is one character and is
    replaced by the empty string. *)
Definition re_sub_strip (s : str) : str := List.filter kept s.

(** [main.py], line 45:
    [re.sub(r'[^\w\s.-]', '', name.replace(' ', '_').lower())[:50]] *)
Definition clean_filename (name : str) : str :=
  firstn 50 (re_sub_strip (lower (replace_char SPACE UNDERSCORE name))).

End Strings.

(** *** The character table of the examples

    Python's data for U+0000..U+00FF and for U+2102 (DOUBLE-STRUCK
    CAPITAL C: a letter of category Lu without lowercase mapping); the
    other code points occur in no example and are left unclassified. *)

Definition in_range (lo hi c : N) : bool := (lo <=? c) && (c <=? hi).

Definition DOUBLE_STRUCK_C : N := 0x2102.

Definition py_isupper (c : N) : bool :=
  in_range 0x41 0x5A c || in_range 0xC0 0xD6 c || in_range 0xD8 0xDE c
  || (c =? DOUBLE_STRUCK_C).

Definition py_isalnum (c : N) : bool :=
  in_range 0x30 0x39 c || in_range 0x41 0x5A c || in_range 0x61 0x7A c
  || (c =? 0xAA) || in_range 0xB2 0xB3 c || (c =? 0xB5)
  || in_range 0xB9 0xBA c || in_range 0xBC 0xBE c
  || in_range 0xC0 0xD6 c || in_range 0xD8 0xF6 c || in_range 0xF8 0xFF c
  || (c =? DOUBLE_STRUCK_C).

Definition py_isspace (c : N) : bool :=
  in_range 0x09 0x0D c || in_range 0x1C 0x20 c || (c =? 0x85) || (c =? 0xA0).

Definition py_tolower (c : N) : list N :=
  if in_range 0x41 0x5A c || in_range 0xC0 0xD6 c || in_range 0xD8 0xDE c
  then [c + 0x20] else [c].

Definition py_ucd : unicode_db := {|
  isalnum := py_isalnum;
  isspace := py_isspace;
  isupper := py_isupper;
  tolower := py_tolower;
  final_sigma := fun _ _ => false
|}.

(** ** The world outside the program *)

Local Open Scope nat_scope.

Abbreviation bytes := (list byte).

Inductive level := INFO | WARNING | ERROR.

(** The lines written to the log, by the call that writes them (the
    last one also shows the search prompt, which is left out). *)
Inductive log_record :=
| Downloaded (file_path : str)
| FailedStatus (url : str) (status_code : Z)
| ErrorDownloading (url : str) (e : str)
| FinishedScrolling
| Completed (downloaded : Z).

(** What the program does to the outside, in the order it does it.
    Durations are in milliseconds. *)
Inductive effect :=
| Get (url : str)
| Sleep (ms : N)
| Log (lv : level) (r : log_record)
| Print (line : str)
| ScrollToBottom
| ReadHeight.

Record world := {
  files : gmap (list N) (list byte);
  sent : nat;
  reads : nat;
  effects : list effect
}.

Definition emit (e : effect) (w : world) : world :=
  {| files := files w; sent := sent w; reads := reads w;
     effects := effects w ++ [e] |}.

Definition with_files (fs : gmap (list N) (list byte)) (w : world) : world :=
  {| files := fs; sent := sent w; reads := reads w; effects := effects w |}.

(** What happens while a body is saved: nothing, [open] raises, or an
    exception is raised (by [iter_content] or by [f.write]) once
    [written] chunks are in the file. *)
Inductive io_outcome :=
| IoOk
| OpenRaises (e : str)
| StreamRaises (written : nat) (e : str).

(** What one [session.get] meets. Only exceptions that derive from
    [Exception] are modelled: those are the ones [download_image]
    catches. *)
Inductive attempt_outcome :=
| GetRaises (e : str)
| Responds (status_code : Z) (content : bytes) (io : io_outcome).

(** The outcome of the request number [i] (over the whole run) when it
    asks for [url]. *)
Definition server := nat -> str -> attempt_outcome.

(** ** Configuration ([main.py], lines 19-23) *)

Definition DOWNLOAD_FOLDER : str := py "lummi_images".
Definition SCROLL_PAUSE : N := 2000.
Definition REQUEST_DELAY : N := 500.
Definition RETRY_ATTEMPTS : nat := 3.

(** ** Library calls *)

(** [os.path.join(a, p)] of [posixpath]. *)
Definition os_path_join (a p : str) : str :=
  match p with
  | 0x2F%N :: _ => p
  | _ => match last a with
         | None => a ++ p
         | Some 0x2F%N => a ++ p
         | Some _ => a ++ [0x2F%N] ++ p
         end
  end.

(** [response.iter_content(size)]: the body in pieces of [size] bytes,
    the last one possibly shorter. *)
Fixpoint chunks_of (fuel size : nat) (content : bytes) : list bytes :=
  match fuel with
  | O => []
  | S fuel' =>
      match content with
      | [] => []
      | _ :: _ => firstn size content :: chunks_of fuel' size (skipn size content)
      end
  end.

Definition iter_content (size : nat) (content : bytes) : list bytes :=
  chunks_of (length content) size content.

(** [open(path, 'wb')] creates or empties the file, [f.write] appends. *)
Definition open_wb (path : str) (fs : gmap (list N) (list byte)) : gmap (list N) (list byte) :=
  <[path := []]> fs.

Definition f_write (path : str) (chunk : bytes) (fs : gmap (list N) (list byte)) : gmap (list N) (list byte) :=
  alter (fun old => old ++ chunk) path fs.

Definition write_chunks (path : str) (chunks : list bytes) (fs : gmap (list N) (list byte)) : gmap (list N) (list byte) :=
  fold_left (fun fs' chunk => f_write path chunk fs') chunks (open_wb path fs).

Definition save (path : str) (chunks : list bytes) (w : world) : world :=
  with_files (write_chunks path chunks (files w)) w.

(** ** [download_image] ([main.py], lines 49-66) *)

(** How the body of the [try] ends. *)
Inductive completion :=
| Returns (b : bool)
| FallsThrough
| Raised (e : str).

Definition request (url : str) (w : world) : world :=
  emit (Get url)
    {| files := files w; sent := S (sent w); reads := reads w; effects := effects w |}.

(** Lines 53-62. *)
Definition try_body (sv : server) (url folder filename : str) (w : world)
  : completion * world :=
  let w1 := request url w in
  match sv (sent w) url with
  | GetRaises e => (Raised e, w1)
  | Responds status_code content io =>
      if (status_code =? 200)%Z then
        let file_path := os_path_join folder filename in
        match io with
        | OpenRaises e => (Raised e, w1)
        | StreamRaises written e =>
            (Raised e, save file_path (firstn written (iter_content 1024 content)) w1)
        | IoOk =>
            (Returns true,
             emit (Log INFO (Downloaded file_path))
               (save file_path (iter_content 1024 content) w1))
        end
      else (FallsThrough, emit (Log WARNING (FailedStatus url status_code)) w1)
  end.

(** One turn of the [for] loop: [Some b] when the function returns
    [b], [None] when the loop goes on. *)
Definition attempt (sv : server) (url folder filename : str) (w : world)
  : option bool * world :=
  match try_body sv url folder filename w with
  | (Returns b, w') => (Some b, w')
  | (FallsThrough, w') => (None, emit (Sleep REQUEST_DELAY) w')
  | (Raised e, w') =>
      (None, emit (Sleep REQUEST_DELAY) (emit (Log ERROR (ErrorDownloading url e)) w'))
  end.

(** [for attempt in range(n): ...; return False] *)
Fixpoint download_attempts (n : nat) (sv : server) (url folder filename : str)
  (w : world) : bool * world :=
  match n with
  | O => (false, w)
  | S n' =>
      match attempt sv url folder filename w with
      | (Some b, w') => (b, w')
      | (None, w') => download_attempts n' sv url folder filename w'
      end
  end.

Definition download_image (sv : server) (url folder filename : str) (w : world)
  : bool * world :=
  download_attempts RETRY_ATTEMPTS sv url folder filename w.

(** ** Scrolling until the height is stable ([main.py], lines 102-110) *)

(** The value of [document.body.scrollHeight] at the read number [i]. *)
Definition page := nat -> Z.

Definition read_height (h : page) (w : world) : Z * world :=
  (h (reads w),
   emit ReadHeight
     {| files := files w; sent := sent w; reads := S (reads w); effects := effects w |}).

(** The [while True] loop; [fuel] bounds the number of turns, and the
    result is [None] when the loop is still running after that many. *)
Fixpoint scroll_loop (fuel : nat) (h : page) (last_height : Z) (w : world)
  : option world :=
  match fuel with
  | O => None
  | S fuel' =>
      let w1 := emit (Sleep SCROLL_PAUSE) (emit ScrollToBottom w) in
      let '(new_height, w2) := read_height h w1 in
      if (new_height =? last_height)%Z then Some w2
      else scroll_loop fuel' h new_height w2
  end.

Definition scroll_to_end (fuel : nat) (h : page) (w : world) : option world :=
  let '(last_height, w1) := read_height h w in
  match scroll_loop fuel h last_height w1 with
  | Some w2 => Some (emit (Log INFO FinishedScrolling) w2)
  | None => None
  end.

Definition is_scroll (e : effect) : bool :=
  match e with ScrollToBottom => true | _ => false end.

(** The number of scroll/measure cycles performed so far. *)
Definition scroll_cycles (w : world) : nat :=
  length (List.filter is_scroll (effects w)).

(** ** The download loop ([main.py], lines 115-134) *)

(** An [img] tag, with the three attributes that [main] reads
    ([img.get] gives [None] for a missing attribute). *)
Record img_tag := {
  src : option str;
  data_fullsrc : option str;
  alt : option str
}.

Fixpoint starts_with (prefix s : str) : bool :=
  match prefix, s with
  | [], _ => true
  | _ :: _, [] => false
  | a :: prefix', b :: s' => (a =? b)%N && starts_with prefix' s'
  end.

(** [needle in hay] *)
Fixpoint contains (needle hay : str) : bool :=
  starts_with needle hay
  || match hay with
     | [] => false
     | _ :: hay' => contains needle hay'
     end.

(** [x or d], for [x] a string or [None]. *)
Definition py_or (x : option str) (d : str) : str :=
  match x with
  | Some (c :: s) => c :: s
  | _ => d
  end.

(** The negation of line 122, [not src or 'http' not in src]. *)
Definition has_http_src (img : img_tag) : bool :=
  match src img with
  | Some (c :: s) => contains (py "http") (c :: s)
  | _ => false
  end.

(** Line 126, [img.get('data-fullsrc') or src]. *)
Definition full_src (img : img_tag) : str :=
  py_or (data_fullsrc img) (py_or (src img) []).

Section Main.

Context (U : unicode_db) (sv : server).

(** Lines 126-130: the download of one tag that passed the filter. *)
Definition download_tag (img : img_tag) (downloaded : Z) (w : world) : bool * world :=
  let title := py_or (alt img) (py "image_" ++ str_of_int downloaded) in
  let filename := clean_filename U (title ++ py ".jpg") in
  download_image sv (full_src img) DOWNLOAD_FOLDER filename w.

(** Lines 119-131, one turn of the [for] loop; [None] is [break]. *)
Definition loop_body (max_images : Z) (img : img_tag) (downloaded : Z) (w : world)
  : option (Z * world) :=
  if (downloaded >=? max_images)%Z then None
  else if negb (has_http_src img) then Some (downloaded, w)
  else
    match download_tag img downloaded w with
    | (true, w') => Some ((downloaded + 1)%Z, w')
    | (false, w') => Some (downloaded, w')
    end.

Fixpoint download_loop (max_images : Z) (img_tags : list img_tag)
  (downloaded : Z) (w : world) : Z * world :=
  match img_tags with
  | [] => (downloaded, w)
  | img :: rest =>
      match loop_body max_images img downloaded w with
      | None => (downloaded, w)
      | Some (downloaded', w') => download_loop max_images rest downloaded' w'
      end
  end.

(** Line 133. *)
Definition summary (downloaded : Z) : str :=
  py "Downloaded " ++ str_of_int downloaded ++ py " images to " ++ DOWNLOAD_FOLDER.

(** Lines 115-134. *)
Definition download_all (max_images : Z) (img_tags : list img_tag) (w : world)
  : Z * world :=
  let w0 :=
    emit (Print (py "Found " ++ str_of_int (Z.of_nat (length img_tags))
                 ++ py " images. Downloading up to " ++ str_of_int max_images
                 ++ py "...")) w in
  let '(downloaded, w1) := download_loop max_images img_tags 0%Z w0 in
  (downloaded,
   emit (Log INFO (Completed downloaded)) (emit (Print (summary downloaded)) w1)).

(** The states the loop goes through: the tags still to visit, the
    counter and the world at the top of a turn. *)
Inductive loop_reaches (max_images : Z)
  : list img_tag * Z * world -> list img_tag * Z * world -> Prop :=
| reaches_here st : loop_reaches max_images st st
| reaches_next img rest d w d' w' st :
    loop_body max_images img d w = Some (d', w') ->
    loop_reaches max_images (rest, d', w') st ->
    loop_reaches max_images (img :: rest, d, w) st.

End Main.

(** ** Vocabulary of the properties *)

(** *** File names *)

(** The facts about lowercase mappings that the properties of
    [clean_filename] rest on. *)
Record lowercase_laws (U : unicode_db) : Prop := {
  tolower_no_space :
    forall c d, c <> SPACE -> In d (tolower U c) -> d <> SPACE;
  tolower_stable :
    forall c d, c <> CAPITAL_SIGMA -> In d (tolower U c) ->
                tolower U d = [d] /\ d <> CAPITAL_SIGMA;
  sigma_stable :
    tolower U FINAL_SIGMA = [FINAL_SIGMA] /\ tolower U SMALL_SIGMA = [SMALL_SIGMA];
  tolower_ascii :
    forall c, in_range 0x41 0x5A c = true -> tolower U c = [(c + 0x20)%N]
}.

(** At most 50 characters, each a word character (underscore
    included), a dot or a hyphen. *)
Definition word_dot_hyphen_only (U : unicode_db) (s : str) : Prop :=
  length s <= 50 /\
  Forall (fun c => is_word U c || (c =? DOT)%N || (c =? HYPHEN)%N = true) s.

(** Cleaning twice is cleaning once, and no character of the result is
    an uppercase one. *)
Definition idempotent_without_uppercase (U : unicode_db) (s : str) : Prop :=
  clean_filename U (clean_filename U s) = clean_filename U s /\
  Forall (fun c => isupper U c = false) (clean_filename U s).

Definition TAB : N := 0x09.

(** A character that [lower] leaves alone wherever it stands. *)
Definition lowered (U : unicode_db) (c : N) : Prop :=
  tolower U c = [c] /\ c <> CAPITAL_SIGMA.

(** *** Fetching *)

(** An attempt succeeds when the status is 200 and the whole body
    reaches the file. *)
Definition succeeds (o : attempt_outcome) : bool :=
  match o with
  | Responds status_code _ IoOk => (status_code =? 200)%Z
  | _ => false
  end.

(** The failures that leave the file system alone: the request raises,
    the status is not 200, or the file cannot be opened. *)
Definition fails_before_writing (o : attempt_outcome) : bool :=
  match o with
  | GetRaises _ => true
  | Responds status_code _ io =>
      negb (status_code =? 200)%Z
      || match io with OpenRaises _ => true | _ => false end
  end.

(** The attempt opens the file and an exception then cuts it short. *)
Definition breaks_off (o : attempt_outcome) : bool :=
  match o with
  | Responds status_code _ (StreamRaises _ _) => (status_code =? 200)%Z
  | _ => false
  end.

Definition is_log (e : effect) : bool :=
  match e with Log _ _ => true | _ => false end.

Definition without_log (es : list effect) : list effect :=
  List.filter (fun e => negb (is_log e)) es.

(** Two worlds that differ in their logs only. *)
Definition alike (w1 w2 : world) : Prop :=
  files w1 = files w2 /\ sent w1 = sent w2 /\ reads w1 = reads w2 /\
  without_log (effects w1) = without_log (effects w2).

(** A file is at the destination after the call exactly when the call
    returned [True]. *)
Definition file_iff_success (sv : server) (url folder filename : str) (w : world)
  : Prop :=
  is_Some (files (download_image sv url folder filename w).2
             !! os_path_join folder filename)
  <-> (download_image sv url folder filename w).1 = true.

(** A fetch whose first [k - 1] attempts fail and whose [k]-th attempt
    returns the success status makes [k] attempts, returns [True] and
    leaves the body of the [k]-th response at the destination. *)
Definition success_status_suffices (n k : nat) (sv : server)
  (url folder filename : str) (w : world) : Prop :=
  1 <= k <= n ->
  (forall i, i < k - 1 -> succeeds (sv (sent w + i) url) = false) ->
  forall (status_code : Z) (content : bytes) (io : io_outcome),
    sv (sent w + (k - 1)) url = Responds status_code content io ->
    status_code = 200%Z ->
    exists w', download_attempts n sv url folder filename w = (true, w') /\
               sent w' = sent w + k /\
               files w' !! os_path_join folder filename = Some content.

Definition world0 : world :=
  {| files := ∅; sent := 0; reads := 0; effects := [] |}.

Definition jpg : bytes := [xff; xd8; xff; xe0; x00; x10; x4a; x46; x49; x46].

Definition sv_ok : server := fun _ _ => Responds 200 jpg IoOk.

Definition sv_404 : server := fun _ _ => Responds 404 [] IoOk.

Definition sv_timeout : server := fun _ _ => GetRaises (py "Read timed out").

Definition sv_500_500_200 : server :=
  fun i _ =>
    match i with
    | 0 | 1 => Responds 500 [] IoOk
    | _ => Responds 200 jpg IoOk
    end.

(** Every answer is a 200 whose body of 1500 bytes breaks after the
    first chunk. *)
Definition sv_cut : server :=
  fun _ _ => Responds 200 (repeat x2a 1500)
               (StreamRaises 1 (py "Connection broken")).

Definition some_url : str := py "https://img.example/car.jpg".

(** *** Scrolling *)

(** The page's reads from this world on. *)
Definition heights_from (h : page) (w : world) : page :=
  fun i => h (reads w + i).

(** The sequence is constant from its [n]-th read on, and not from the
    read before that. *)
Definition becomes_constant_after (h : page) (n : nat) : Prop :=
  1 <= n /\
  (forall i, n - 1 <= i -> h i = h (n - 1)) /\
  (2 <= n -> h (n - 2) <> h (n - 1)).

(** The loop stops, after [n] cycles. *)
Definition stops_after (h : page) (w : world) (n : nat) : Prop :=
  exists fuel w', scroll_to_end fuel h w = Some w' /\
                  scroll_cycles w' = scroll_cycles w + n.

Definition page_of (hs : list Z) (final : Z) : page :=
  fun i => nth i hs final.

Definition page_growing : page := page_of [100; 200; 300]%Z 300%Z.

Definition page_stalling : page := page_of [100; 100; 200; 300]%Z 300%Z.

(** *** Downloading the tags *)

(** The loop that downloads every tag of a list once, without filter
    and without bound. *)
Fixpoint download_each (U : unicode_db) (sv : server) (img_tags : list img_tag)
  (downloaded : Z) (w : world) : Z * world :=
  match img_tags with
  | [] => (downloaded, w)
  | img :: rest =>
      match download_tag U sv img downloaded w with
      | (true, w') => download_each U sv rest (downloaded + 1)%Z w'
      | (false, w') => download_each U sv rest downloaded w'
      end
  end.

Definition is_saved (e : effect) : bool :=
  match e with Log INFO (Downloaded _) => true | _ => false end.

(** The number of downloads that succeeded so far: each one logs its
    file. *)
Definition successes (w : world) : nat :=
  length (List.filter is_saved (effects w)).

Definition requested (w : world) : list str :=
  omap (fun e => match e with Get url => Some url | _ => None end) (effects w).

(** The last line printed. *)
Definition printed (w : world) : option str :=
  last (omap (fun e => match e with Print line => Some line | _ => None end)
          (effects w)).

(** [url] is what [download_tag] asks for, for a tag of the list that
    passes the filter of line 122. *)
Definition fetched_from (img_tags : list img_tag) (url : str) : Prop :=
  exists img, In img img_tags /\ has_http_src img = true /\ full_src img = url.

(** The counter is never above the requested maximum. *)
Definition never_above_maximum (U : unicode_db) (sv : server) (max_images : Z)
  (img_tags : list img_tag) (w : world) : Prop :=
  forall rest d w',
    loop_reaches U sv max_images (img_tags, 0%Z, w) (rest, d, w') ->
    (d <= max_images)%Z.

Definition tag_car : img_tag :=
  {| src := Some (py "https://img.example/car.jpg");
     data_fullsrc := None;
     alt := Some (py "Red Car!! 2024") |}.

Definition tag_inline : img_tag :=
  {| src := Some (py "data:image/png;base64,iVBORw0KGgo=");
     data_fullsrc := None;
     alt := Some (py "logo") |}.

Definition tag_bare : img_tag :=
  {| src := None; data_fullsrc := Some (py "https://img.example/x.jpg"); alt := None |}.

Definition tag_proxied : img_tag :=
  {| src := Some (py "/proxy?u=http://img.example/sea.jpg");
     data_fullsrc := Some (py "https://img.example/sea_full.jpg");
     alt := None |}.

Definition tag_tree : img_tag :=
  {| src := Some (py "http://img.example/tree.jpg");
     data_fullsrc := Some [];
     alt := Some [] |}.

Definition five_tags : list img_tag :=
  [tag_car; tag_inline; tag_proxied; tag_bare; tag_tree].

From Stdlib Require DecimalZ.

(** ** [setup_driver], [main] and the script ([main.py], lines 26-43 and 68-145) *)

Definition MAX_IMAGES : Z := 50.
Definition HEADLESS : bool := true.

Inductive browser_kind := Chrome | Firefox.

(** The calls made to the browser driver. *)
Inductive driver_call :=
| StartDriver (kind : browser_kind) (arguments : list str)
| DriverGet (url : str)
| FindElement (css : str)
| SendKeys (keys : str)
| SendReturn
| ExecuteScript (script : str)
| PageSource
| DriverQuit.

(** What [main] does besides the effects of a [world]: questions asked
    on the terminal, the folder, the HTTP session, the driver, and its
    own log lines, as text. *)
Inductive program_event :=
| Asked (question : str)
| MakeDirs (path : str)
| NewSession (user_agent : str)
| Driver (c : driver_call)
| Logged (lv : level) (message : str)
| SessionClose.

(** What a run of [main] meets: the lines typed on the terminal, what
    [int] makes of a string (a value, or the message of its
    [ValueError]), the exception, if any, raised by [os.makedirs] and
    by the driver call number [i], the heights of the page, the [img]
    tags of its source, and the image server. *)
Record environment := {
  stdin : list str;
  int_of : str -> Z + str;
  makedirs_raises : option str;
  driver_raises : nat -> option str;
  heights : page;
  page_tags : list img_tag;
  answers : server
}.

(** The state of a run: the world, the events of [main] (each with the
    number of effects of the world that came before it), the number of
    driver calls made, and the lines not yet read. *)
Record execution := {
  outside : world;
  journal : list (nat * program_event);
  driver_calls : nat;
  unread : list str
}.

(** How a piece of the program ends: with a value, with an exception
    (its message), or not within the turns granted to the scroll
    loop. *)
Inductive result (A : Type) :=
| Ok (a : A)
| Raise (e : str)
| Running.

Arguments Ok {A} a.
Arguments Raise {A} e.
Arguments Running {A}.

Definition step (A : Type) : Type := execution -> result A * execution.

Definition ret {A} (a : A) : step A := fun ex => (Ok a, ex).

Definition raise {A} (e : str) : step A := fun ex => (Raise e, ex).

Definition bind {A B} (m : step A) (k : A -> step B) : step B :=
  fun ex =>
    match m ex with
    | (Ok a, ex') => k a ex'
    | (Raise e, ex') => (Raise e, ex')
    | (Running, ex') => (Running, ex')
    end.

Notation "'let*' x ':=' m 'in' k" := (bind m (fun x => k))
  (at level 10, x name, m at level 100, k at level 200, only parsing).
Notation "m '>>' k" := (bind m (fun _ => k))
  (at level 90, right associativity, only parsing).

(** [try: body except Exception as e: handler(e)] *)
Definition try_except {A} (body : step A) (handler : str -> step A) : step A :=
  fun ex =>
    match body ex with
    | (Raise e, ex') => handler e ex'
    | other => other
    end.

(** [try: body finally: final]: [final] runs when [body] ends, and an
    exception of [final] replaces the ending of [body]. *)
Definition try_finally {A} (body : step A) (final : step unit) : step A :=
  fun ex =>
    match body ex with
    | (Running, ex') => (Running, ex')
    | (ending, ex') =>
        match final ex' with
        | (Ok _, ex'') => (ending, ex'')
        | (Raise e, ex'') => (Raise e, ex'')
        | (Running, ex'') => (Running, ex'')
        end
    end.

Definition note (ev : program_event) : step unit :=
  fun ex =>
    (Ok tt,
     {| outside := outside ex;
        journal := journal ex ++ [(length (effects (outside ex)), ev)];
        driver_calls := driver_calls ex;
        unread := unread ex |}).

(** An action on the world. *)
Definition on_world (f : world -> world) : step unit :=
  fun ex =>
    (Ok tt,
     {| outside := f (outside ex); journal := journal ex;
        driver_calls := driver_calls ex; unread := unread ex |}).

Definition out (e : effect) : step unit := on_world (emit e).

Definition logging (lv : level) (message : str) : step unit :=
  note (Logged lv message).

(** [input(question)] *)
Definition input (question : str) : step str :=
  note (Asked question) >>
  fun ex =>
    match unread ex with
    | [] => (Raise (py "EOF when reading a line"), ex)
    | line :: rest =>
        (Ok line,
         {| outside := outside ex; journal := journal ex;
            driver_calls := driver_calls ex; unread := rest |})
    end.

(** A call to the driver: it is made, and it raises or not. *)
Definition call (env : environment) (c : driver_call) : step unit :=
  fun ex =>
    let ex' := {| outside := outside ex;
                  journal := journal ex ++ [(length (effects (outside ex)), Driver c)];
                  driver_calls := S (driver_calls ex);
                  unread := unread ex |} in
    match driver_raises env (driver_calls ex) with
    | Some e => (Raise e, ex')
    | None => (Ok tt, ex')
    end.

Fixpoint str_eqb (a b : str) : bool :=
  match a, b with
  | [], [] => true
  | x :: a', y :: b' => (x =? y)%N && str_eqb a' b'
  | _, _ => false
  end.

(** [setup_driver] ([main.py], lines 26-43). *)
Definition setup_driver (U : unicode_db) (env : environment) (browser : str)
  : step browser_kind :=
  if str_eqb (lower U browser) (py "chrome") then
    let arguments :=
      (if HEADLESS then [py "--headless"; py "--disable-gpu"] else [])
      ++ [py "--no-sandbox"; py "--disable-dev-shm-usage"] in
    call env (StartDriver Chrome arguments) >> ret Chrome
  else if str_eqb (lower U browser) (py "firefox") then
    let arguments := if HEADLESS then [py "--headless"] else [] in
    call env (StartDriver Firefox arguments) >> ret Firefox
  else raise (py "Unsupported browser. Use 'chrome' or 'firefox'.").

Definition SCROLL_SCRIPT : str := py "window.scrollTo(0, document.body.scrollHeight);".
Definition HEIGHT_SCRIPT : str := py "return document.body.scrollHeight".

(** [driver.execute_script("return document.body.scrollHeight")] *)
Definition measure (env : environment) : step Z :=
  call env (ExecuteScript HEIGHT_SCRIPT) >>
  fun ex =>
    let '(height, w) := read_height (heights env) (outside ex) in
    (Ok height,
     {| outside := w; journal := journal ex;
        driver_calls := driver_calls ex; unread := unread ex |}).

(** Lines 103-109, with the exceptions that the driver may raise. *)
Fixpoint scroll_turns (fuel : nat) (env : environment) (last_height : Z)
  : step unit :=
  match fuel with
  | O => fun ex => (Running, ex)
  | S fuel' =>
      call env (ExecuteScript SCROLL_SCRIPT) >>
      out ScrollToBottom >>
      out (Sleep SCROLL_PAUSE) >>
      let* new_height := measure env in
      if (new_height =? last_height)%Z then ret tt
      else scroll_turns fuel' env new_height
  end.

(** Lines 102-110. *)
Definition scroll (fuel : nat) (env : environment) : step unit :=
  let* last_height := measure env in
  scroll_turns fuel env last_height >>
  out (Log INFO FinishedScrolling).

Definition USER_AGENT : str :=
  py "Mozilla/5.0 (Windows NT 10.0; Win64; x64) AppleWebKit/537.36".

Definition SEARCH_BAR : str := py "input[placeholder*='Search']".

Definition NO_SEARCH_BAR : str :=
  py "Could not find search bar. Please check the CSS selector.".

(** Lines 90-99: [true] when the search was submitted, [false] when the
    handler ran (and [main] returns). *)
Definition search (env : environment) (prompt : str) : step bool :=
  try_except
    (call env (FindElement SEARCH_BAR) >>
     call env (SendKeys prompt) >>
     call env SendReturn >>
     logging INFO (py "Submitted search for: " ++ prompt) >>
     out (Sleep 3000) >>
     ret true)
    (fun e =>
       logging ERROR (py "Search bar error: " ++ e) >>
       out (Print NO_SEARCH_BAR) >>
       ret false).

(** [int(input(...) or MAX_IMAGES)] *)
Definition read_max_images (env : environment) : step Z :=
  let* answer :=
    input (py "Enter max number of images to download (default "
           ++ str_of_int MAX_IMAGES ++ py "): ") in
  match answer with
  | [] => ret MAX_IMAGES
  | _ :: _ =>
      match int_of env answer with
      | inl z => ret z
      | inr e => raise e
      end
  end.

(** [os.makedirs(DOWNLOAD_FOLDER, exist_ok=True)] *)
Definition makedirs (env : environment) (path : str) : step unit :=
  note (MakeDirs path) >>
  match makedirs_raises env with
  | Some e => raise e
  | None => ret tt
  end.

Definition LUMMI : str := py "https://www.lummi.ai".

(** The body of the [try] of [main] (lines 84-134) and its [finally]
    (lines 137-138). *)
Definition try_of_main (U : unicode_db) (env : environment) (fuel : nat)
  (prompt : str) (max_images : Z) : step unit :=
  call env (DriverGet LUMMI) >>
  logging INFO (py "Navigated to Lummi.ai") >>
  out (Sleep 2000) >>
  let* submitted := search env prompt in
  if submitted then
    scroll fuel env >>
    call env PageSource >>
    on_world (fun w => (download_all U (answers env) max_images (page_tags env) w).2)
  else ret tt.

Definition finally_of_main (env : environment) : step unit :=
  call env DriverQuit >> note SessionClose.

(** [main] ([main.py], lines 68-138). *)
Definition main (U : unicode_db) (env : environment) (fuel : nat) : step unit :=
  let* prompt := input (py "Enter your search prompt: ") in
  let* max_images := read_max_images env in
  let* answer := input (py "Enter browser (chrome/firefox, default chrome): ") in
  let browser := py_or (Some answer) (py "chrome") in
  makedirs env DOWNLOAD_FOLDER >>
  note (NewSession USER_AGENT) >>
  let* driver := setup_driver U env browser in
  try_finally (try_of_main U env fuel prompt max_images) (finally_of_main env).

(** Lines 140-145. *)
Definition script (U : unicode_db) (env : environment) (fuel : nat) : step unit :=
  try_except (main U env fuel)
    (fun e =>
       logging ERROR (py "Script failed: " ++ e) >>
       out (Print (py "An error occurred: " ++ e
                   ++ py ". Check lummi_scraper.log for details."))).

(** A run starts with nothing done and every line of the terminal
    still to read. *)
Definition boot (env : environment) (w : world) : execution :=
  {| outside := w; journal := []; driver_calls := 0; unread := stdin env |}.

(** ** Vocabulary of the further properties *)

Definition SLASH : N := 0x2F.

(** The sleeps taken so far, in milliseconds. *)
Definition naps (w : world) : list N :=
  omap (fun e => match e with Sleep ms => Some ms | _ => None end) (effects w).

(** [logging.basicConfig(filename='lummi_scraper.log', ...)] ([main.py],
    lines 15-16): every [logging] call appends one line to this file.
    A world keeps these lines as its [Log] effects, in the order in
    which they are written; its [files] are the other files. *)
Definition LOG_FILE : str := py "lummi_scraper.log".

(** The lines appended to [LOG_FILE] so far. *)
Definition logged (w : world) : list (level * log_record) :=
  omap (fun e => match e with Log lv r => Some (lv, r) | _ => None end) (effects w).

(** The events of [main], without their positions. *)
Definition story (ex : execution) : list program_event :=
  List.map snd (journal ex).

(** The driver calls made so far, in order. *)
Definition driver_story (ex : execution) : list driver_call :=
  omap (fun ev => match ev with Driver c => Some c | _ => None end) (story ex).

(** A page that is higher at every read. *)
Definition page_endless : page := fun i => Z.of_nat i.

(** An [int] for the examples: one or more digits 0 to 9. *)
Fixpoint digits_value (acc : Z) (s : str) : option Z :=
  match s with
  | [] => Some acc
  | c :: s' =>
      if in_range 0x30 0x39 c
      then digits_value (10 * acc + Z.of_N (c - 0x30)) s'
      else None
  end.

Definition int_of_digits (s : str) : Z + str :=
  match s with
  | [] => inr (py "invalid literal for int() with base 10: ''")
  | _ :: _ =>
      match digits_value 0 s with
      | Some z => inl z
      | None => inr (py "invalid literal for int() with base 10: '" ++ s ++ py "'")
      end
  end.

(** A run in which nothing goes wrong: a page that settles at its
    third read, and a server that answers every request. *)
Definition env_fine : environment :=
  {| stdin := [py "red car"; py "5"; []];
     int_of := int_of_digits;
     makedirs_raises := None;
     driver_raises := fun _ => None;
     heights := page_growing;
     page_tags := five_tags;
     answers := sv_ok |}.

(** The same, with a driver call that raises. *)
Definition env_failing_at (i : nat) (e : str) : environment :=
  {| stdin := [py "red car"; py "5"; []];
     int_of := int_of_digits;
     makedirs_raises := None;
     driver_raises := fun j => if Nat.eqb j i then Some e else None;
     heights := page_growing;
     page_tags := five_tags;
     answers := sv_ok |}.

(** The same as [env_fine], with other lines typed on the terminal. *)
Definition env_typing (lines : list str) : environment :=
  {| stdin := lines;
     int_of := int_of_digits;
     makedirs_raises := None;
     driver_raises := fun _ => None;
     heights := page_growing;
     page_tags := five_tags;
     answers := sv_ok |}.

(** A piece of the program adds to the events of [main] only events
    that satisfy [P], and leaves alone those that were there. *)
Definition adds (P : program_event -> Prop) {A} (m : step A) : Prop :=
  forall ex r ex',
    m ex = (r, ex') ->
    exists evs, story ex' = story ex ++ evs /\ Forall P evs.

(** Neither the end of the driver nor the end of the session. *)
Definition not_an_ending (ev : program_event) : Prop :=
  ev <> Driver DriverQuit /\ ev <> SessionClose.

(** A piece of the program leaves the network and the files alone. *)
Definition offline {A} (m : step A) : Prop :=
  forall ex r ex',
    m ex = (r, ex') ->
    files (outside ex') = files (outside ex) /\
    sent (outside ex') = sent (outside ex).

(** The state of a run of [main] when it enters its [try], for the
    answers [prompt], [max_answer] and [browser_answer], the browser
    [kind] and the options [arguments]. *)
Definition at_try (w : world) (rest : list str) (kind : browser_kind)
  (arguments : list str) : execution :=
  {| outside := w;
     journal :=
       List.map (fun ev => (length (effects w), ev))
         [Asked (py "Enter your search prompt: ");
          Asked (py "Enter max number of images to download (default 50): ");
          Asked (py "Enter browser (chrome/firefox, default chrome): ");
          MakeDirs DOWNLOAD_FOLDER;
          NewSession USER_AGENT;
          Driver (StartDriver kind arguments)];
     driver_calls := 1;
     unread := rest |}.

(** The window is lost at the driver call number 8, a scroll of the
    second cycle. *)
Definition env_window_lost : environment :=
  env_failing_at 8 (py "no such window").

(** The search bar is not on the page: the driver call number 2,
    [find_element], raises. *)
Definition env_no_search_bar : environment :=
  env_failing_at 2 (py "no such element").

(** A browser that is not supported is asked for. *)
Definition env_safari : environment :=
  env_typing [py "red car"; py "5"; py "Safari"].

Definition HEADLESS_CHROME : list str :=
  [py "--headless"; py "--disable-gpu"; py "--no-sandbox";
   py "--disable-dev-shm-usage"].

(** The lowercase of an ASCII letter; other characters as they are. *)
Definition ascii_fold (c : N) : N :=
  if in_range 0x41 0x5A c then (c + 0x20)%N else c.

Definition UNSUPPORTED : str := py "Unsupported browser. Use 'chrome' or 'firefox'.".

(** The same as [env_fine], on a page that never settles. *)
Definition env_endless : environment :=
  {| stdin := [py "red car"; py "5"; []];
     int_of := int_of_digits;
     makedirs_raises := None;
     driver_raises := fun _ => None;
     heights := page_endless;
     page_tags := five_tags;
     answers := sv_ok |}.

(** Two servers that fail twice, each in its own way, and then answer. *)
Definition sv_404_404_200 : server :=
  fun i _ =>
    match i with
    | 0 | 1 => Responds 404 [] IoOk
    | _ => Responds 200 jpg IoOk
    end.

Definition sv_timeout_refused_200 : server :=
  fun i _ =>
    match i with
    | 0 => GetRaises (py "Read timed out")
    | 1 => Responds 200 jpg (OpenRaises (py "Permission denied"))
    | _ => Responds 200 jpg IoOk
    end.

Definition tag_car_again : img_tag :=
  {| src := Some (py "https://img.example/car_rear.jpg");
     data_fullsrc := None;
     alt := Some (py "Red Car!! 2024") |}.
(** * Properties *)

(** ** [clean_filename] *)

Section CleanFilename.

Context (U : unicode_db).

Lemma clean_filename_length name : length (clean_filename U name) <= 50.
Proof. unfold clean_filename. rewrite length_firstn. lia. Qed.

Lemma Forall_firstn {A} (P : A -> Prop) n l : Forall P l -> Forall P (firstn n l).
Proof.
  intros H. revert n. induction H as [|x l Hx _ IH]; intros [|n]; simpl;
    constructor; auto.
Qed.

Lemma Forall_filter_true {A} (f : A -> bool) l :
  Forall (fun x => f x = true) (List.filter f l).
Proof.
  induction l as [|x l IH]; simpl; [constructor|].
  destruct (f x) eqn:E; [constructor|]; auto.
Qed.

Lemma Forall_filter_keeps {A} (P : A -> Prop) f l :
  Forall P l -> Forall P (List.filter f l).
Proof.
  induction 1 as [|x l Hx _ IH]; simpl; [constructor|].
  destruct (f x); [constructor|]; auto.
Qed.

Lemma filter_all {A} (f : A -> bool) l :
  Forall (fun x => f x = true) l -> List.filter f l = l.
Proof.
  induction 1 as [|x l Hx _ IH]; simpl; [reflexivity|]. now rewrite Hx, IH.
Qed.

Lemma clean_filename_kept name :
  Forall (fun c => kept U c = true) (clean_filename U name).
Proof.
  unfold clean_filename, re_sub_strip.
  apply Forall_firstn, Forall_filter_true.
Qed.

Lemma replace_char_without old new s :
  Forall (fun c => c <> old) s -> replace_char old new s = s.
Proof.
  induction 1 as [|c s Hc _ IH]; simpl; [reflexivity|].
  destruct (N.eqb_spec c old); [contradiction|]. now rewrite IH.
Qed.

Lemma replace_char_removes old new s :
  new <> old -> Forall (fun c => c <> old) (replace_char old new s).
Proof.
  intros Hne. induction s as [|c s IH]; simpl; constructor; auto.
  destruct (N.eqb_spec c old); auto.
Qed.

Lemma lower_from_no_space before s :
  (forall c d, c <> SPACE -> In d (tolower U c) -> d <> SPACE) ->
  Forall (fun c => c <> SPACE) s ->
  Forall (fun c => c <> SPACE) (lower_from U before s).
Proof.
  intros Hlaw Hs. revert before.
  induction Hs as [|c s Hc _ IH]; intros before; simpl; [constructor|].
  apply List.Forall_app. split; [|apply IH].
  destruct (c =? CAPITAL_SIGMA)%N.
  - constructor; [|constructor]. destruct (final_sigma U before s); discriminate.
  - apply List.Forall_forall. intros d Hd. eapply Hlaw; eauto.
Qed.

Lemma lower_from_lowered before s :
  lowercase_laws U -> Forall (lowered U) (lower_from U before s).
Proof.
  intros [_ Hst [Hf Hs] _]. revert before.
  induction s as [|c s IH]; intros before; simpl; [constructor|].
  apply List.Forall_app. split; [|apply IH].
  destruct (N.eqb_spec c CAPITAL_SIGMA) as [_|Hne].
  - constructor; [|constructor].
    destruct (final_sigma U before s); split; auto; discriminate.
  - apply List.Forall_forall. intros d Hd. exact (Hst c d Hne Hd).
Qed.

Lemma lower_from_fixed before s :
  Forall (lowered U) s -> lower_from U before s = s.
Proof.
  intros Hs. revert before.
  induction Hs as [|c s [Hc Hne] _ IH]; intros before; simpl; [reflexivity|].
  destruct (N.eqb_spec c CAPITAL_SIGMA); [contradiction|].
  rewrite Hc, IH. reflexivity.
Qed.

Lemma clean_filename_no_space name :
  (forall c d, c <> SPACE -> In d (tolower U c) -> d <> SPACE) ->
  Forall (fun c => c <> SPACE) (clean_filename U name).
Proof.
  intros Hlaw. unfold clean_filename, re_sub_strip, lower.
  apply Forall_firstn, Forall_filter_keeps, lower_from_no_space; [exact Hlaw|].
  apply replace_char_removes. discriminate.
Qed.

Lemma clean_filename_lowered name :
  lowercase_laws U -> Forall (lowered U) (clean_filename U name).
Proof.
  intros Hlaws. unfold clean_filename, re_sub_strip, lower.
  now apply Forall_firstn, Forall_filter_keeps, lower_from_lowered.
Qed.

Lemma clean_filename_idempotent name :
  lowercase_laws U ->
  clean_filename U (clean_filename U name) = clean_filename U name.
Proof.
  intros Hlaws.
  pose proof (clean_filename_length name) as Hlen.
  pose proof (clean_filename_kept name) as Hkept.
  pose proof (clean_filename_lowered name Hlaws) as Hlow.
  pose proof (clean_filename_no_space name (tolower_no_space U Hlaws)) as Hsp.
  set (t := clean_filename U name) in *.
  unfold clean_filename at 1. unfold re_sub_strip, lower.
  rewrite (replace_char_without _ _ t Hsp).
  rewrite (lower_from_fixed [] t Hlow).
  rewrite (filter_all _ t Hkept).
  apply firstn_all2. exact Hlen.
Qed.

End CleanFilename.

(** The table of the examples obeys the laws. *)

Ltac ranges :=
  unfold in_range in *;
  repeat match goal with
         | H : _ || _ = true |- _ => apply orb_true_iff in H; destruct H
         | H : _ && _ = true |- _ => apply andb_true_iff in H; destruct H
         | H : _ || _ = false |- _ => apply orb_false_iff in H; destruct H
         | H : _ && _ = false |- _ => apply andb_false_iff in H; destruct H
         | H : (_ <=? _)%N = true |- _ => apply N.leb_le in H
         | H : (_ <=? _)%N = false |- _ => apply N.leb_gt in H
         | H : (_ =? _)%N = true |- _ => apply N.eqb_eq in H
         | H : (_ =? _)%N = false |- _ => apply N.eqb_neq in H
         end.

Lemma py_tolower_cases c :
  (py_tolower c = [(c + 0x20)%N] /\
   ((0x41 <= c <= 0x5A) \/ (0xC0 <= c <= 0xD6) \/ (0xD8 <= c <= 0xDE))%N) \/
  (py_tolower c = [c] /\
   ~ ((0x41 <= c <= 0x5A) \/ (0xC0 <= c <= 0xD6) \/ (0xD8 <= c <= 0xDE))%N).
Proof.
  unfold py_tolower.
  destruct (in_range 0x41 0x5A c || in_range 0xC0 0xD6 c || in_range 0xD8 0xDE c)
    eqn:E; [left|right]; (split; [reflexivity|]); ranges; lia.
Qed.

Lemma py_ucd_laws : lowercase_laws py_ucd.
Proof.
  split; simpl.
  - intros c d Hc Hd.
    destruct (py_tolower_cases c) as [[E R]|[E R]]; rewrite E in Hd;
      destruct Hd as [<-|[]]; unfold SPACE in *; lia.
  - intros c d Hc Hd.
    destruct (py_tolower_cases c) as [[E R]|[E R]]; rewrite E in Hd;
      destruct Hd as [<-|[]];
      (split; [|unfold CAPITAL_SIGMA in *; lia]).
    + destruct (py_tolower_cases (c + 0x20)) as [[E' R']|[E' R']];
        [lia|exact E'].
    + exact E.
  - split; reflexivity.
  - intros c Hc.
    destruct (py_tolower_cases c) as [[E R]|[E R]]; [exact E|ranges; lia].
Qed.

(** C4, as stated, fails on a title with a tab: the tab is kept, and it
    is neither a word character nor a dot nor a hyphen. *)
Lemma clean_filename_keeps_tab :
  ~ word_dot_hyphen_only py_ucd
      (clean_filename py_ucd (py "a" ++ [TAB] ++ py "b")).
Proof.
  intros [_ H]. unfold clean_filename in H.
  inversion H as [|a s _ Htail]; subst.
  inversion Htail as [|tab s' Htab _]; subst.
  vm_compute in Htab. discriminate Htab.
Qed.

(** C4 (amended): for every title, the file name has at most 50
    characters, and each of them is a word character (underscore
    included), a dot, a hyphen, or a whitespace character other than
    the space (a tab, a newline and the like are kept by the
    pattern). *)
Theorem clean_filename_charset U name :
  (forall c d, c <> SPACE -> In d (tolower U c) -> d <> SPACE) ->
  length (clean_filename U name) <= 50 /\
  Forall (fun c => is_word U c || (c =? DOT)%N || (c =? HYPHEN)%N
                   || (isspace U c && negb (c =? SPACE)%N) = true)
         (clean_filename U name).
Proof.
  intros Hlaw. split; [apply clean_filename_length|].
  pose proof (clean_filename_kept U name) as Hk.
  pose proof (clean_filename_no_space U name Hlaw) as Hs.
  induction Hk as [|c s Hc _ IH]; [constructor|].
  apply Forall_cons_iff in Hs as [Hne Hs]. constructor; [|auto].
  unfold kept in Hc. apply N.eqb_neq in Hne. rewrite Hne.
  destruct (is_word U c), (isspace U c), (c =? DOT)%N, (c =? HYPHEN)%N;
    simpl in *; congruence.
Qed.

Lemma clean_filename_charset_witness :
  (forall c d, c <> SPACE -> In d (tolower py_ucd c) -> d <> SPACE) /\
  length (clean_filename py_ucd (py "Sea  view" ++ [TAB] ++ py "(1).JPG")) <= 50 /\
  Forall (fun c => is_word py_ucd c || (c =? DOT)%N || (c =? HYPHEN)%N
                   || (isspace py_ucd c && negb (c =? SPACE)%N) = true)
         (clean_filename py_ucd (py "Sea  view" ++ [TAB] ++ py "(1).JPG")).
Proof.
  split; [exact (tolower_no_space py_ucd py_ucd_laws)|].
  apply (clean_filename_charset py_ucd (py "Sea  view" ++ [TAB] ++ py "(1).JPG")).
  exact (tolower_no_space py_ucd py_ucd_laws).
Defined.

(** C8: the title "Red Car!! 2024", with ".jpg" appended as [main]
    does, is cleaned to "red_car_2024.jpg". *)
Theorem red_car_filename :
  clean_filename py_ucd (py "Red Car!! 2024" ++ py ".jpg") = py "red_car_2024.jpg"
  /\ clean_filename py_ucd (py "Red Car!! 2024.jpg") = py "red_car_2024.jpg".
Proof. split; reflexivity. Qed.

(** C9, as stated, fails on the one-letter title U+2102: the letter is
    uppercase, has no lowercase form, and is kept. *)
Lemma clean_filename_keeps_uppercase :
  ~ idempotent_without_uppercase py_ucd [DOUBLE_STRUCK_C].
Proof.
  intros [_ H]. inversion H as [|c s Hc _]; subst.
  vm_compute in Hc. discriminate Hc.
Qed.

(** C9 (amended): [clean_filename] is idempotent, and no character of
    its output is changed by lowercasing; in particular none is one of
    A to Z. (An uppercase letter without a lowercase form is kept.) *)
Theorem clean_filename_idempotent_lowercase U name :
  lowercase_laws U ->
  clean_filename U (clean_filename U name) = clean_filename U name /\
  Forall (fun c => tolower U c = [c] /\ in_range 0x41 0x5A c = false)
         (clean_filename U name).
Proof.
  intros Hlaws. split; [now apply clean_filename_idempotent|].
  eapply List.Forall_impl; [|apply (clean_filename_lowered U name Hlaws)].
  intros c [Hc _]. split; [exact Hc|].
  destruct (in_range 0x41 0x5A c) eqn:E; [|reflexivity].
  rewrite (tolower_ascii U Hlaws c E) in Hc. injection Hc. lia.
Qed.

Lemma clean_filename_idempotent_lowercase_witness :
  lowercase_laws py_ucd /\
  clean_filename py_ucd (clean_filename py_ucd (py "Red Car!! 2024.jpg"))
  = clean_filename py_ucd (py "Red Car!! 2024.jpg") /\
  Forall (fun c => tolower py_ucd c = [c] /\ in_range 0x41 0x5A c = false)
         (clean_filename py_ucd (py "Red Car!! 2024.jpg")).
Proof.
  split; [exact py_ucd_laws|].
  exact (clean_filename_idempotent_lowercase py_ucd (py "Red Car!! 2024.jpg")
           py_ucd_laws).
Defined.

(** ** [download_image] *)

Lemma concat_chunks_of fuel size (content : bytes) :
  0 < size -> length content <= fuel ->
  concat (chunks_of fuel size content) = content.
Proof.
  intros Hsize. revert content.
  induction fuel as [|fuel IH]; intros content Hlen.
  - destruct content; [reflexivity|simpl in Hlen; lia].
  - destruct content as [|b content]; [reflexivity|].
    cbn [chunks_of concat]. rewrite IH.
    + apply firstn_skipn.
    + rewrite length_skipn. simpl in *. lia.
Qed.

Lemma concat_iter_content (content : bytes) :
  concat (iter_content 1024 content) = content.
Proof. apply concat_chunks_of; lia. Qed.

Lemma write_after (path : str) (chunks : list bytes) (written : bytes)
  (fs : gmap (list N) (list byte)) :
  fold_left (fun fs' chunk => f_write path chunk fs') chunks (<[path := written]> fs)
  = <[path := written ++ concat chunks]> fs.
Proof.
  revert written. induction chunks as [|chunk chunks IH]; intros written; simpl.
  - now rewrite app_nil_r.
  - unfold f_write at 2. rewrite alter_insert_eq, IH, app_assoc. reflexivity.
Qed.

Lemma write_chunks_insert (path : str) (chunks : list bytes)
  (fs : gmap (list N) (list byte)) :
  write_chunks path chunks fs = <[path := concat chunks]> fs.
Proof. unfold write_chunks, open_wb. apply write_after. Qed.

Lemma attempt_success (sv : server) (url folder filename : str) (w : world)
  (content : bytes) :
  sv (sent w) url = Responds 200 content IoOk ->
  exists w', attempt sv url folder filename w = (Some true, w') /\
             sent w' = S (sent w) /\
             files w' = <[os_path_join folder filename := content]> (files w).
Proof.
  intros Ho. unfold attempt, try_body. rewrite Ho. simpl.
  eexists; split; [reflexivity|]. simpl. split; [reflexivity|].
  rewrite write_chunks_insert, concat_iter_content. reflexivity.
Qed.

Lemma attempt_failure (sv : server) (url folder filename : str) (w : world) :
  succeeds (sv (sent w) url) = false ->
  exists w', attempt sv url folder filename w = (None, w') /\
             sent w' = S (sent w).
Proof.
  intros Ho. unfold attempt, try_body.
  destruct (sv (sent w) url) as [e|status_code content io]; simpl in *.
  - eexists; split; reflexivity.
  - destruct (status_code =? 200)%Z.
    + destruct io; [discriminate| |]; eexists; split; reflexivity.
    + eexists; split; reflexivity.
Qed.

Lemma attempt_failure_before_writing (sv : server) (url folder filename : str)
  (w : world) :
  fails_before_writing (sv (sent w) url) = true ->
  exists lv r,
    attempt sv url folder filename w
    = (None, emit (Sleep REQUEST_DELAY) (emit (Log lv r) (request url w))).
Proof.
  intros Ho. unfold attempt, try_body.
  destruct (sv (sent w) url) as [e|status_code content io]; simpl in *.
  - do 2 eexists; reflexivity.
  - destruct (status_code =? 200)%Z; simpl in Ho.
    + destruct io; try discriminate. do 2 eexists; reflexivity.
    + do 2 eexists; reflexivity.
Qed.

Lemma without_log_app es es' :
  without_log (es ++ es') = without_log es ++ without_log es'.
Proof. unfold without_log. apply List.filter_app. Qed.

(** C1: when every one of [n] attempts fails (the request raises, the
    status is not 200, or the body cannot be saved), the fetch makes
    exactly [n] requests and returns [False]. *)
Theorem always_failing_fetch (n : nat) (sv : server) (url folder filename : str)
  (w : world) :
  (forall i, i < n -> succeeds (sv (sent w + i) url) = false) ->
  exists w', download_attempts n sv url folder filename w = (false, w') /\
             sent w' = sent w + n.
Proof.
  revert w. induction n as [|n IH]; intros w Hfail; simpl.
  - eexists; split; [reflexivity|lia].
  - destruct (attempt_failure sv url folder filename w) as (w1 & -> & Hsent).
    { specialize (Hfail 0). rewrite Nat.add_0_r in Hfail. apply Hfail. lia. }
    destruct (IH w1) as (w' & -> & Hsent').
    { intros i Hi. rewrite Hsent. specialize (Hfail (S i)).
      rewrite Nat.add_succ_r in Hfail. apply Hfail. lia. }
    eexists; split; [reflexivity|lia].
Qed.

Lemma always_failing_fetch_witness :
  (forall i, i < RETRY_ATTEMPTS -> succeeds (sv_404 (sent world0 + i) some_url) = false) /\
  exists w', download_image sv_404 some_url DOWNLOAD_FOLDER (py "car.jpg") world0
             = (false, w') /\ sent w' = sent world0 + RETRY_ATTEMPTS.
Proof.
  split; [intros i _; reflexivity|].
  apply (always_failing_fetch RETRY_ATTEMPTS sv_404 some_url DOWNLOAD_FOLDER
           (py "car.jpg") world0).
  intros i _; reflexivity.
Defined.

(** C2 (amended): when the first [k - 1] attempts fail and the [k]-th,
    with [k <= n], is answered by a 200 whose body is streamed and
    written to the destination without an exception, the fetch makes
    exactly [k] requests, returns [True], and the file at the
    destination is the body of that [k]-th response. (The status alone
    does not make the attempt a success: a 200 whose body breaks off
    is caught and retried like any other failure.) *)
Theorem fetch_succeeds_on_kth (n k : nat) (sv : server) (url folder filename : str)
  (w : world) (content : bytes) :
  1 <= k <= n ->
  (forall i, i < k - 1 -> succeeds (sv (sent w + i) url) = false) ->
  sv (sent w + (k - 1)) url = Responds 200 content IoOk ->
  exists w', download_attempts n sv url folder filename w = (true, w') /\
             sent w' = sent w + k /\
             files w' !! os_path_join folder filename = Some content.
Proof.
  revert k w. induction n as [|n IH]; intros k w Hk Hfail Hok; [lia|].
  simpl. destruct (decide (k = 1)) as [->|Hk1].
  - simpl in Hok. rewrite Nat.add_0_r in Hok.
    destruct (attempt_success sv url folder filename w content Hok)
      as (w1 & -> & Hsent & Hfiles).
    eexists; split; [reflexivity|]. split; [lia|].
    rewrite Hfiles. apply lookup_insert_eq.
  - destruct (attempt_failure sv url folder filename w) as (w1 & -> & Hsent).
    { specialize (Hfail 0). rewrite Nat.add_0_r in Hfail. apply Hfail. lia. }
    destruct (IH (k - 1) w1) as (w' & -> & Hsent' & Hfile).
    + lia.
    + intros i Hi. rewrite Hsent. specialize (Hfail (S i)).
      rewrite Nat.add_succ_r in Hfail. apply Hfail. lia.
    + rewrite Hsent. replace (S (sent w) + (k - 1 - 1)) with (sent w + (k - 1)) by lia.
      exact Hok.
    + eexists; split; [reflexivity|]. split; [lia|exact Hfile].
Qed.

Lemma fetch_succeeds_on_kth_witness :
  1 <= 3 <= RETRY_ATTEMPTS /\
  (forall i, i < 3 - 1 -> succeeds (sv_500_500_200 (sent world0 + i) some_url) = false) /\
  sv_500_500_200 (sent world0 + (3 - 1)) some_url = Responds 200 jpg IoOk /\
  exists w', download_image sv_500_500_200 some_url DOWNLOAD_FOLDER (py "car.jpg") world0
             = (true, w') /\
             sent w' = sent world0 + 3 /\
             files w' !! os_path_join DOWNLOAD_FOLDER (py "car.jpg") = Some jpg.
Proof.
  assert (H1 : 1 <= 3 <= RETRY_ATTEMPTS) by (unfold RETRY_ATTEMPTS; lia).
  assert (H2 : forall i, i < 3 - 1 ->
                 succeeds (sv_500_500_200 (sent world0 + i) some_url) = false).
  { intros [|[|i]] Hi; [reflexivity|reflexivity|simpl in Hi; lia]. }
  assert (H3 : sv_500_500_200 (sent world0 + (3 - 1)) some_url = Responds 200 jpg IoOk)
    by reflexivity.
  split; [exact H1|]. split; [exact H2|]. split; [exact H3|].
  exact (fetch_succeeds_on_kth RETRY_ATTEMPTS 3 sv_500_500_200 some_url
           DOWNLOAD_FOLDER (py "car.jpg") world0 jpg H1 H2 H3).
Defined.

Lemma attempt_cut (sv : server) (url folder filename : str) (w : world)
  (content : bytes) (written : nat) (e : str) :
  sv (sent w) url = Responds 200 content (StreamRaises written e) ->
  exists w', attempt sv url folder filename w = (None, w') /\
             sent w' = S (sent w) /\
             files w' = <[os_path_join folder filename :=
                            concat (firstn written (iter_content 1024 content))]>
                          (files w).
Proof.
  intros Ho. unfold attempt, try_body. rewrite Ho. simpl.
  eexists; split; [reflexivity|]. simpl. split; [reflexivity|].
  apply write_chunks_insert.
Qed.

Lemma always_cut (n : nat) (sv : server) (url folder filename : str) (w : world)
  (content : bytes) (written : nat) (e : str) :
  (forall i, sv i url = Responds 200 content (StreamRaises written e)) ->
  1 <= n ->
  exists w', download_attempts n sv url folder filename w = (false, w') /\
             files w' !! os_path_join folder filename
             = Some (concat (firstn written (iter_content 1024 content))).
Proof.
  intros Hcut. revert w. induction n as [|n IH]; intros w Hn; [lia|].
  simpl.
  destruct (attempt_cut sv url folder filename w content written e (Hcut _))
    as (w1 & -> & _ & Hfiles).
  destruct n as [|n].
  - simpl. eexists; split; [reflexivity|]. rewrite Hfiles. apply lookup_insert_eq.
  - apply IH. lia.
Qed.

(** A body of 1500 bytes cut after its first chunk, three times over:
    the call returns [False] and leaves the first 1024 bytes behind. *)
Lemma partial_file_remains :
  exists w', download_image sv_cut some_url DOWNLOAD_FOLDER (py "car.jpg") world0
             = (false, w') /\
             files w' !! os_path_join DOWNLOAD_FOLDER (py "car.jpg")
             = Some (repeat x2a 1024).
Proof.
  destruct (always_cut RETRY_ATTEMPTS sv_cut some_url DOWNLOAD_FOLDER (py "car.jpg")
              world0 (repeat x2a 1500) 1 (py "Connection broken"))
    as (w' & Hrun & Hfile); [reflexivity|unfold RETRY_ATTEMPTS; lia|].
  exists w'. split; [exact Hrun|]. rewrite Hfile. vm_compute. reflexivity.
Qed.

(** C2, as stated, fails: the first attempt returns the status 200,
    yet its body breaks off while it is written, and so do the two
    attempts that follow; the fetch makes three requests, not one, and
    returns [False]. *)
Lemma success_status_is_not_success :
  ~ success_status_suffices RETRY_ATTEMPTS 1 sv_cut some_url DOWNLOAD_FOLDER
      (py "car.jpg") world0.
Proof.
  intros H.
  destruct (H ltac:(unfold RETRY_ATTEMPTS; lia) ltac:(intros i Hi; lia)
              200%Z (repeat x2a 1500) (StreamRaises 1 (py "Connection broken"))
              eq_refl eq_refl) as (w' & Hrun & _).
  destruct partial_file_remains as (w'' & Hcut & _).
  unfold download_image in Hcut. rewrite Hrun in Hcut. discriminate Hcut.
Qed.

(** C3, as stated, fails: a fetch whose every attempt is cut while the
    body is written returns [False] and leaves a partial file. *)
Lemma failed_fetch_leaves_partial_file :
  ~ file_iff_success sv_cut some_url DOWNLOAD_FOLDER (py "car.jpg") world0.
Proof.
  unfold file_iff_success.
  destruct partial_file_remains as (w' & Hrun & Hfile). rewrite Hrun.
  cbn [fst snd]. intros [H _].
  assert (Hret : false = true) by (apply H; rewrite Hfile; eauto).
  discriminate Hret.
Qed.

Lemma attempt_uncut (sv : server) (url folder filename : str) (w : world) :
  breaks_off (sv (sent w) url) = false ->
  (exists w', attempt sv url folder filename w = (Some true, w') /\
              is_Some (files w' !! os_path_join folder filename)) \/
  (exists w', attempt sv url folder filename w = (None, w') /\
              sent w' = S (sent w) /\ files w' = files w).
Proof.
  intros Ho.
  destruct (sv (sent w) url) as [e|status_code content io] eqn:E.
  - right. unfold attempt, try_body. rewrite E. eexists; repeat split.
  - destruct (Z.eqb_spec status_code 200) as [->|Hne].
    + destruct io as [|e|written e]; [| |discriminate Ho].
      * left. destruct (attempt_success sv url folder filename w content E)
          as (w' & Hrun & _ & Hfiles).
        exists w'. split; [exact Hrun|]. rewrite Hfiles, lookup_insert_eq. eauto.
      * right. unfold attempt, try_body. rewrite E. eexists; repeat split.
    + right. unfold attempt, try_body. rewrite E.
      apply Z.eqb_neq in Hne. rewrite Hne. eexists; repeat split.
Qed.

Lemma file_iff_success_attempts (n : nat) (sv : server) (url folder filename : str)
  (w : world) :
  files w !! os_path_join folder filename = None ->
  (forall i, i < n -> breaks_off (sv (sent w + i) url) = false) ->
  is_Some (files (download_attempts n sv url folder filename w).2
             !! os_path_join folder filename)
  <-> (download_attempts n sv url folder filename w).1 = true.
Proof.
  revert w. induction n as [|n IH]; intros w Hnone Huncut; simpl.
  - rewrite Hnone. split; [intros [x Hx]|]; discriminate.
  - destruct (attempt_uncut sv url folder filename w) as
      [(w' & -> & Hsome)|(w' & -> & Hsent & Hfiles)].
    + specialize (Huncut 0). rewrite Nat.add_0_r in Huncut. apply Huncut. lia.
    + simpl. tauto.
    + apply IH.
      * now rewrite Hfiles.
      * intros i Hi. rewrite Hsent. specialize (Huncut (S i)).
        rewrite Nat.add_succ_r in Huncut. apply Huncut. lia.
Qed.

(** C3 (amended): when no file was at the destination before the call
    and no attempt is cut short once the file is open, a file is at
    the destination after the call if and only if the call returned
    [True]. (An attempt cut short while the body is written leaves a
    partial file, whatever the call returns.) *)
Theorem file_iff_success_when_uncut (sv : server) (url folder filename : str)
  (w : world) :
  files w !! os_path_join folder filename = None ->
  (forall i, i < RETRY_ATTEMPTS -> breaks_off (sv (sent w + i) url) = false) ->
  file_iff_success sv url folder filename w.
Proof. intros Hnone Huncut. now apply file_iff_success_attempts. Qed.

Lemma file_iff_success_when_uncut_witness :
  files world0 !! os_path_join DOWNLOAD_FOLDER (py "car.jpg") = None /\
  (forall i, i < RETRY_ATTEMPTS ->
             breaks_off (sv_500_500_200 (sent world0 + i) some_url) = false) /\
  file_iff_success sv_500_500_200 some_url DOWNLOAD_FOLDER (py "car.jpg") world0.
Proof.
  assert (H1 : files world0 !! os_path_join DOWNLOAD_FOLDER (py "car.jpg") = None)
    by reflexivity.
  assert (H2 : forall i, i < RETRY_ATTEMPTS ->
                 breaks_off (sv_500_500_200 (sent world0 + i) some_url) = false).
  { intros [|[|i]] _; reflexivity. }
  split; [exact H1|]. split; [exact H2|].
  exact (file_iff_success_when_uncut sv_500_500_200 some_url DOWNLOAD_FOLDER
           (py "car.jpg") world0 H1 H2).
Defined.

Lemma failed_attempt_retries (n : nat) (sv : server) (url folder filename : str)
  (w : world) :
  succeeds (sv (sent w) url) = false ->
  exists w',
    attempt sv url folder filename w = (None, w') /\
    sent w' = S (sent w) /\
    without_log (effects w')
    = without_log (effects w) ++ [Get url; Sleep REQUEST_DELAY] /\
    (breaks_off (sv (sent w) url) = false -> files w' = files w) /\
    download_attempts (S n) sv url folder filename w
    = download_attempts n sv url folder filename w'.
Proof.
  intros Ho. simpl. unfold attempt, try_body.
  destruct (sv (sent w) url) as [e|status_code content io]; simpl in *.
  - eexists. split; [reflexivity|]. simpl.
    rewrite <- !app_assoc, without_log_app. auto.
  - destruct (status_code =? 200)%Z; [destruct io; [discriminate| |]|];
      (eexists; split; [reflexivity|]); simpl;
      rewrite <- !app_assoc, without_log_app; repeat split; auto; discriminate.
Qed.

(** C6: an attempt that fails is handled in one way whatever the
    failure is (a status other than 200, an exception raised by the
    request or while the body is saved): one request, one log line, a
    sleep of [REQUEST_DELAY], and then the attempts that remain. Two
    failures differ in the log line only, and in the partial file when
    one of them is cut short after the file was opened. *)
Theorem failures_are_retried_alike (n : nat) (sv1 sv2 : server)
  (url folder filename : str) (w : world) :
  succeeds (sv1 (sent w) url) = false ->
  succeeds (sv2 (sent w) url) = false ->
  exists w1 w2,
    attempt sv1 url folder filename w = (None, w1) /\
    attempt sv2 url folder filename w = (None, w2) /\
    sent w1 = S (sent w) /\ sent w2 = S (sent w) /\
    without_log (effects w1)
    = without_log (effects w) ++ [Get url; Sleep REQUEST_DELAY] /\
    without_log (effects w2) = without_log (effects w1) /\
    (breaks_off (sv1 (sent w) url) = false -> files w1 = files w) /\
    (breaks_off (sv2 (sent w) url) = false -> files w2 = files w) /\
    download_attempts (S n) sv1 url folder filename w
    = download_attempts n sv1 url folder filename w1 /\
    download_attempts (S n) sv2 url folder filename w
    = download_attempts n sv2 url folder filename w2.
Proof.
  intros H1 H2.
  destruct (failed_attempt_retries n sv1 url folder filename w H1)
    as (w1 & Hrun1 & Hsent1 & Heff1 & Hfiles1 & Hnext1).
  destruct (failed_attempt_retries n sv2 url folder filename w H2)
    as (w2 & Hrun2 & Hsent2 & Heff2 & Hfiles2 & Hnext2).
  exists w1, w2. rewrite Heff1, Heff2. repeat (split; [assumption || reflexivity|]).
  assumption.
Qed.

Lemma failures_are_retried_alike_witness :
  succeeds (sv_404 (sent world0) some_url) = false /\
  succeeds (sv_timeout (sent world0) some_url) = false /\
  exists w1 w2,
    attempt sv_404 some_url DOWNLOAD_FOLDER (py "car.jpg") world0 = (None, w1) /\
    attempt sv_timeout some_url DOWNLOAD_FOLDER (py "car.jpg") world0 = (None, w2) /\
    sent w1 = S (sent world0) /\ sent w2 = S (sent world0) /\
    without_log (effects w1)
    = without_log (effects world0) ++ [Get some_url; Sleep REQUEST_DELAY] /\
    without_log (effects w2) = without_log (effects w1) /\
    (breaks_off (sv_404 (sent world0) some_url) = false -> files w1 = files world0) /\
    (breaks_off (sv_timeout (sent world0) some_url) = false -> files w2 = files world0) /\
    download_attempts 3 sv_404 some_url DOWNLOAD_FOLDER (py "car.jpg") world0
    = download_attempts 2 sv_404 some_url DOWNLOAD_FOLDER (py "car.jpg") w1 /\
    download_attempts 3 sv_timeout some_url DOWNLOAD_FOLDER (py "car.jpg") world0
    = download_attempts 2 sv_timeout some_url DOWNLOAD_FOLDER (py "car.jpg") w2.
Proof.
  split; [reflexivity|]. split; [reflexivity|].
  exact (failures_are_retried_alike 2 sv_404 sv_timeout some_url DOWNLOAD_FOLDER
           (py "car.jpg") world0 eq_refl eq_refl).
Defined.

Lemma attempt_alike (sv1 sv2 : server) (url folder filename : str) (w1 w2 : world) :
  alike w1 w2 ->
  sv1 (sent w1) url = sv2 (sent w2) url \/
  (fails_before_writing (sv1 (sent w1) url) = true /\
   fails_before_writing (sv2 (sent w2) url) = true) ->
  (attempt sv1 url folder filename w1).1 = (attempt sv2 url folder filename w2).1 /\
  alike (attempt sv1 url folder filename w1).2 (attempt sv2 url folder filename w2).2.
Proof.
  intros (Hfiles & Hsent & Hreads & Heff) [Hsame|[Hf1 Hf2]].
  - unfold attempt, try_body. rewrite Hsame.
    destruct (sv2 (sent w2) url) as [e|status_code content io]; simpl.
    + unfold alike; simpl. rewrite <- !app_assoc, !without_log_app, Heff. auto.
    + destruct (status_code =? 200)%Z; [destruct io|]; simpl;
        unfold alike; simpl;
        rewrite <- ?app_assoc, !without_log_app, ?Hfiles, Heff; auto.
  - destruct (attempt_failure_before_writing sv1 url folder filename w1 Hf1)
      as (lv1 & r1 & ->).
    destruct (attempt_failure_before_writing sv2 url folder filename w2 Hf2)
      as (lv2 & r2 & ->).
    split; [reflexivity|]. unfold alike; simpl.
    rewrite <- !app_assoc, !without_log_app, Heff. auto.
Qed.

(** Over the whole loop: exchanging failures for other failures in the
    answers changes the log and nothing else. *)
Lemma download_attempts_alike (n : nat) (sv1 sv2 : server)
  (url folder filename : str) (w1 w2 : world) :
  alike w1 w2 ->
  (forall i, sv1 i url = sv2 i url \/
             (fails_before_writing (sv1 i url) = true /\
              fails_before_writing (sv2 i url) = true)) ->
  (download_attempts n sv1 url folder filename w1).1
  = (download_attempts n sv2 url folder filename w2).1 /\
  alike (download_attempts n sv1 url folder filename w1).2
        (download_attempts n sv2 url folder filename w2).2.
Proof.
  intros Hw Hsv. revert w1 w2 Hw.
  induction n as [|n IH]; intros w1 w2 Hw; simpl; [auto|].
  assert (Hi := Hsv (sent w1)).
  assert (Hs : sent w1 = sent w2) by apply Hw.
  rewrite Hs in Hi at 2 4.
  destruct (attempt_alike sv1 sv2 url folder filename w1 w2 Hw Hi) as [Hret Hw'].
  destruct (attempt sv1 url folder filename w1) as [[b1|] w1'],
           (attempt sv2 url folder filename w2) as [[b2|] w2'];
    simpl in *; try discriminate.
  - injection Hret as ->. auto.
  - apply IH. exact Hw'.
Qed.

(** ** Scrolling *)

Lemma scroll_cycles_emit (e : effect) (w : world) :
  scroll_cycles (emit e w) = scroll_cycles w + (if is_scroll e then 1 else 0).
Proof.
  unfold scroll_cycles. simpl. rewrite List.filter_app, length_app. simpl.
  destruct (is_scroll e); reflexivity.
Qed.

(** Closes a goal on two heights with a hypothesis on the same two
    heights, their indices written differently. *)
Ltac reindex H :=
  match goal with
  | |- ?h ?a <> ?h ?b =>
      match type of H with
      | ?h ?a' <> ?h ?b' =>
          let Ea := fresh in let Eb := fresh in let Heq := fresh in
          assert (Ea : a = a') by lia; assert (Eb : b = b') by lia;
          intros Heq; apply H; congruence
      end
  | |- ?h ?a = ?h ?b =>
      match type of H with
      | ?h ?a' = ?h ?b' =>
          let Ea := fresh in let Eb := fresh in
          assert (Ea : a = a') by lia; assert (Eb : b = b') by lia;
          congruence
      end
  end.

(** The loop entered with [last_height] stops at the first read that
    equals the one before it: after [k] reads that differ, the turn
    number [k + 1] is the last. *)
Lemma scroll_loop_stops (k : nat) :
  forall (fuel : nat) (h : page) (last_height : Z) (w : world),
    let before := fun j => match j with
                           | O => last_height
                           | S j' => h (reads w + j')
                           end in
    k < fuel ->
    (forall j, j < k -> h (reads w + j) <> before j) ->
    h (reads w + k) = before k ->
    exists w', scroll_loop fuel h last_height w = Some w' /\
               scroll_cycles w' = scroll_cycles w + S k /\
               reads w' = reads w + S k.
Proof.
  induction k as [|k IH]; intros fuel h last_height w before Hfuel Hdiff Hsame;
    (destruct fuel as [|fuel]; [lia|]); simpl.
  - rewrite Nat.add_0_r in Hsame. simpl in Hsame.
    rewrite Hsame, Z.eqb_refl. eexists; split; [reflexivity|].
    unfold scroll_cycles; simpl.
    rewrite !List.filter_app, !length_app. simpl. lia.
  - assert (H0 := Hdiff 0 ltac:(lia)). rewrite Nat.add_0_r in H0. simpl in H0.
    apply Z.eqb_neq in H0. rewrite H0.
    match goal with |- context [scroll_loop fuel h _ ?w1] => set (w2 := w1) end.
    destruct (IH fuel h (h (reads w)) w2) as (w' & Hrun & Hcycles & Hreads).
    + lia.
    + intros j Hj. specialize (Hdiff (S j) ltac:(lia)).
      subst w2; simpl. rewrite Nat.add_succ_r in Hdiff. simpl in Hdiff.
      destruct j as [|j]; simpl.
      * rewrite Nat.add_0_r in *. exact Hdiff.
      * rewrite Nat.add_succ_r in *. exact Hdiff.
    + subst w2; simpl. rewrite Nat.add_succ_r in Hsame. simpl in Hsame.
      destruct k as [|k]; simpl.
      * rewrite Nat.add_0_r in *. exact Hsame.
      * rewrite Nat.add_succ_r in *. exact Hsame.
    + exists w'. split; [exact Hrun|].
      rewrite Hcycles, Hreads. subst w2. unfold scroll_cycles; simpl.
      rewrite !List.filter_app, !length_app. simpl. lia.
Qed.

(** C5, as stated, fails on a height that stalls before it has
    finished growing: 100, 100, 200, 300, 300, ... is constant from its
    fourth read on, and the loop stops after one cycle. *)
Lemma scroller_stops_at_first_stall :
  becomes_constant_after (heights_from page_stalling world0) 4 /\
  ~ stops_after page_stalling world0 4.
Proof.
  split.
  - split; [lia|]. split.
    + intros [|[|[|[|[|i]]]]] Hi; simpl in Hi; try lia; reflexivity.
    + intros _. discriminate.
  - intros (fuel & w' & Hrun & Hcycles).
    destruct fuel as [|fuel]; [discriminate Hrun|].
    injection Hrun as <-. vm_compute in Hcycles. discriminate Hcycles.
Qed.

(** C5 (amended): when each of the reads up to the [n]-th differs from
    the read before it and the read after the [n]-th equals the
    [n]-th, the loop stops, after exactly [n] scroll/measure cycles
    and [n + 1] reads. (The loop stops at the first read that equals
    the one before it, whatever the height does later.) *)
Theorem scroller_stops_after (n fuel : nat) (h : page) (w : world) :
  1 <= n <= fuel ->
  (forall i, 1 <= i < n -> heights_from h w i <> heights_from h w (i - 1)) ->
  heights_from h w n = heights_from h w (n - 1) ->
  exists w', scroll_to_end fuel h w = Some w' /\
             scroll_cycles w' = scroll_cycles w + n /\
             reads w' = reads w + n + 1.
Proof.
  unfold heights_from. intros Hn Hdiff Hsame.
  destruct n as [|k]; [lia|].
  unfold scroll_to_end, read_height.
  match goal with |- context [scroll_loop fuel h _ ?x] => set (w1 := x) end.
  destruct (scroll_loop_stops k fuel h (h (reads w)) w1) as (w' & Hrun & Hc & Hr).
  - lia.
  - intros j Hj. specialize (Hdiff (S j) ltac:(lia)). subst w1; simpl.
    destruct j as [|j]; reindex Hdiff.
  - subst w1; simpl. destruct k as [|k]; reindex Hsame.
  - rewrite Hrun. eexists; split; [reflexivity|].
    rewrite scroll_cycles_emit. simpl. rewrite Hc, Hr. subst w1.
    unfold scroll_cycles; simpl. rewrite !List.filter_app, !length_app. simpl. lia.
Qed.

Lemma scroller_stops_after_witness :
  1 <= 3 <= 5 /\
  (forall i, 1 <= i < 3 ->
             heights_from page_growing world0 i
             <> heights_from page_growing world0 (i - 1)) /\
  heights_from page_growing world0 3 = heights_from page_growing world0 (3 - 1) /\
  exists w', scroll_to_end 5 page_growing world0 = Some w' /\
             scroll_cycles w' = scroll_cycles world0 + 3 /\
             reads w' = reads world0 + 3 + 1.
Proof.
  assert (H1 : 1 <= 3 <= 5) by lia.
  assert (H2 : forall i, 1 <= i < 3 ->
                 heights_from page_growing world0 i
                 <> heights_from page_growing world0 (i - 1)).
  { intros [|[|[|i]]] Hi; try lia; discriminate. }
  assert (H3 : heights_from page_growing world0 3
               = heights_from page_growing world0 (3 - 1)) by reflexivity.
  split; [exact H1|]. split; [exact H2|]. split; [exact H3|].
  exact (scroller_stops_after 3 5 page_growing world0 H1 H2 H3).
Defined.

(** ** The download loop *)

Lemma attempt_effects (sv : server) (url folder filename : str) (w : world) :
  match (attempt sv url folder filename w).1 with
  | Some b => b = true /\
              successes (attempt sv url folder filename w).2 = S (successes w)
  | None => successes (attempt sv url folder filename w).2 = successes w
  end /\
  requested (attempt sv url folder filename w).2 = requested w ++ [url].
Proof.
  unfold attempt, try_body, successes, requested.
  destruct (sv (sent w) url) as [e|status_code content io]; simpl.
  - rewrite <- !app_assoc, List.filter_app, omap_app, length_app. simpl.
    split; [lia|reflexivity].
  - destruct (status_code =? 200)%Z; [destruct io|]; simpl;
      rewrite <- ?app_assoc, List.filter_app, omap_app, length_app; simpl;
      (split; [try split; try reflexivity; lia|reflexivity]).
Qed.

Lemma download_attempts_effects (n : nat) (sv : server) (url folder filename : str)
  (w : world) :
  successes (download_attempts n sv url folder filename w).2
  = successes w + (if (download_attempts n sv url folder filename w).1 then 1 else 0)
  /\ exists k, requested (download_attempts n sv url folder filename w).2
               = requested w ++ repeat url k.
Proof.
  revert w. induction n as [|n IH]; intros w; simpl.
  - split; [lia|]. exists 0. simpl. now rewrite app_nil_r.
  - destruct (attempt_effects sv url folder filename w) as [Hs Hr].
    destruct (attempt sv url folder filename w) as [[b|] w1]; simpl in *.
    + destruct Hs as [-> Hs]. split; [lia|]. exists 1. exact Hr.
    + destruct (IH w1) as [Hs1 [k Hr1]]. rewrite Hs1, Hs. split; [reflexivity|].
      exists (S k). rewrite Hr1, Hr, <- app_assoc. reflexivity.
Qed.

Lemma download_attempts_first_try (n : nat) (sv : server) (url folder filename : str)
  (w : world) :
  succeeds (sv (sent w) url) = true ->
  (download_attempts (S n) sv url folder filename w).1 = true /\
  requested (download_attempts (S n) sv url folder filename w).2
  = requested w ++ [url].
Proof.
  intros Hok. pose proof (attempt_effects sv url folder filename w) as [_ Hr].
  simpl. unfold attempt, try_body in *.
  destruct (sv (sent w) url) as [e|status_code content io]; [discriminate|].
  simpl in Hok. destruct io; try discriminate. rewrite Hok in *. simpl in *.
  split; [reflexivity|exact Hr].
Qed.

Section Loop.

Context (U : unicode_db) (sv : server).

Lemma download_each_effects (img_tags : list img_tag) (d : Z) (w : world) :
  (Z.of_nat (successes (download_each U sv img_tags d w).2)
   = Z.of_nat (successes w) + ((download_each U sv img_tags d w).1 - d))%Z.
Proof.
  revert d w. induction img_tags as [|img rest IH]; intros d w; simpl; [lia|].
  unfold download_tag, download_image.
  match goal with
  | |- context [download_attempts ?n ?s ?u ?f ?g ?x] =>
      destruct (download_attempts_effects n s u f g x) as [Hs _];
      destruct (download_attempts n s u f g x) as [[|] w1]
  end; simpl in Hs; rewrite IH, Hs; lia.
Qed.

Lemma download_each_all_succeed (img_tags : list img_tag) (d : Z) (w : world) :
  (forall i url, succeeds (sv i url) = true) ->
  (download_each U sv img_tags d w).1 = (d + Z.of_nat (length img_tags))%Z /\
  requested (download_each U sv img_tags d w).2
  = requested w ++ List.map full_src img_tags.
Proof.
  intros Hok. revert d w.
  induction img_tags as [|img rest IH]; intros d w; simpl.
  - split; [lia|now rewrite app_nil_r].
  - unfold download_tag, download_image, RETRY_ATTEMPTS.
    match goal with
    | |- context [download_attempts (S ?n) ?s ?u ?f ?g ?x] =>
        destruct (download_attempts_first_try n s u f g x (Hok _ _)) as [Ht Hr];
        destruct (download_attempts (S n) s u f g x) as [ok w1]
    end; simpl in Ht, Hr; subst ok.
    destruct (IH (d + 1)%Z w1) as [Hd Hreq]. rewrite Hd, Hreq, Hr, <- app_assoc.
    split; [lia|reflexivity].
Qed.

Lemma download_loop_each (max_images : Z) (img_tags : list img_tag) (d : Z)
  (w : world) :
  (d + Z.of_nat (length (List.filter has_http_src img_tags)) < max_images)%Z ->
  download_loop U sv max_images img_tags d w
  = download_each U sv (List.filter has_http_src img_tags) d w.
Proof.
  revert d w. induction img_tags as [|img rest IH]; intros d w Hmax; simpl;
    [reflexivity|].
  unfold loop_body. simpl in Hmax.
  destruct (has_http_src img) eqn:Hsrc; simpl in *.
  - destruct (Z.geb_spec d max_images) as [Hge|Hlt]; [lia|].
    destruct (download_tag U sv img d w) as [[|] w1]; apply IH; lia.
  - destruct (Z.geb_spec d max_images) as [Hge|Hlt]; [lia|]. apply IH. lia.
Qed.

End Loop.

Lemma printed_summary (d : Z) (w : world) :
  printed (emit (Log INFO (Completed d)) (emit (Print (summary d)) w))
  = Some (summary d).
Proof.
  unfold printed. simpl. rewrite <- app_assoc, omap_app. simpl.
  apply last_snoc.
Qed.

(** C7: when the requested maximum is above the number of tags whose
    [src] is present and contains "http", the loop is the loop that
    downloads each of these tags once, in order; the count that is
    printed ("Downloaded <count> images to lummi_images") is the
    number of downloads that succeeded; and when every request
    succeeds the count is the number of these tags, each address
    having been requested once. *)
Theorem downloads_each_valid_image_once (U : unicode_db) (sv : server)
  (max_images : Z) (img_tags : list img_tag) (w : world) :
  (Z.of_nat (length (List.filter has_http_src img_tags)) < max_images)%Z ->
  (forall w0, download_loop U sv max_images img_tags 0%Z w0
              = download_each U sv (List.filter has_http_src img_tags) 0%Z w0) /\
  printed (download_all U sv max_images img_tags w).2
  = Some (py "Downloaded " ++ str_of_int (download_all U sv max_images img_tags w).1
          ++ py " images to lummi_images") /\
  (download_all U sv max_images img_tags w).1
  = (Z.of_nat (successes (download_all U sv max_images img_tags w).2)
     - Z.of_nat (successes w))%Z /\
  ((forall i url, succeeds (sv i url) = true) ->
   (download_all U sv max_images img_tags w).1
   = Z.of_nat (length (List.filter has_http_src img_tags)) /\
   requested (download_all U sv max_images img_tags w).2
   = requested w ++ List.map full_src (List.filter has_http_src img_tags)).
Proof.
  intros Hmax.
  assert (Hloop : forall w0, download_loop U sv max_images img_tags 0%Z w0
            = download_each U sv (List.filter has_http_src img_tags) 0%Z w0).
  { intros w0. apply download_loop_each. lia. }
  split; [exact Hloop|].
  unfold download_all. rewrite Hloop.
  match goal with
  | |- context [download_each U sv ?l 0%Z ?x] =>
      pose proof (download_each_effects U sv l 0%Z x) as Hs;
      pose proof (download_each_all_succeed U sv l 0%Z x) as Hall;
      destruct (download_each U sv l 0%Z x) as [d w1]
  end.
  cbn [fst snd] in *. split; [apply printed_summary|]. split.
  - unfold successes in *. simpl in *.
    rewrite !List.filter_app in *. simpl in *. rewrite !app_nil_r in *.
    lia.
  - intros Hok. destruct (Hall Hok) as [Hd Hreq]. split; [lia|].
    unfold requested in *. simpl in *.
    rewrite <- !app_assoc, !omap_app in *. simpl in *.
    rewrite !app_nil_r in *. exact Hreq.
Qed.

Lemma downloads_each_valid_image_once_witness :
  (Z.of_nat (length (List.filter has_http_src five_tags)) < 5)%Z /\
  length (List.filter has_http_src five_tags) = 3 /\
  (forall i url, succeeds (sv_ok i url) = true) /\
  (download_all py_ucd sv_ok 5 five_tags world0).1 = 3%Z /\
  printed (download_all py_ucd sv_ok 5 five_tags world0).2
  = Some (py "Downloaded 3 images to lummi_images") /\
  requested (download_all py_ucd sv_ok 5 five_tags world0).2
  = [py "https://img.example/car.jpg";
     py "https://img.example/sea_full.jpg";
     py "http://img.example/tree.jpg"].
Proof.
  assert (Hmax : (Z.of_nat (length (List.filter has_http_src five_tags)) < 5)%Z)
    by (vm_compute; reflexivity).
  assert (Hok : forall i url, succeeds (sv_ok i url) = true)
    by (intros i url; reflexivity).
  destruct (downloads_each_valid_image_once py_ucd sv_ok 5 five_tags world0 Hmax)
    as (_ & Hprint & _ & Hall).
  destruct (Hall Hok) as [Hd Hreq].
  split; [exact Hmax|]. split; [reflexivity|]. split; [exact Hok|].
  split; [exact Hd|]. split.
  - rewrite Hprint, Hd. reflexivity.
  - exact Hreq.
Defined.

Lemma starts_with_spec (prefix s : str) :
  starts_with prefix s = true <-> exists post, s = prefix ++ post.
Proof.
  revert s. induction prefix as [|a prefix IH]; intros s; simpl.
  - split; [eauto|reflexivity].
  - destruct s as [|b s].
    + split; [discriminate|intros [post H]; discriminate H].
    + rewrite andb_true_iff, N.eqb_eq, IH. split.
      * intros [-> [post ->]]. eauto.
      * intros [post H]. injection H as -> ->. eauto.
Qed.

Lemma contains_spec (needle hay : str) :
  contains needle hay = true <-> exists pre post, hay = pre ++ needle ++ post.
Proof.
  induction hay as [|c hay IH]; simpl.
  - rewrite orb_false_r, starts_with_spec. split.
    + intros [post H]. exists [], post. exact H.
    + intros (pre & post & H). destruct pre as [|? ?]; [eauto|discriminate H].
  - rewrite orb_true_iff, starts_with_spec, IH. split.
    + intros [[post H]|(pre & post & H)].
      * exists [], post. exact H.
      * exists (c :: pre), post. now rewrite H.
    + intros (pre & post & H). destruct pre as [|c' pre].
      * left. eauto.
      * right. injection H as _ H. eauto.
Qed.

(** The filter of line 122 lets a tag through exactly when its [src]
    is there and has "http" somewhere in it. *)
Lemma has_http_src_spec (img : img_tag) :
  has_http_src img = true <->
  exists pre post, src img = Some (pre ++ py "http" ++ post).
Proof.
  unfold has_http_src. destruct (src img) as [[|c s]|].
  - split; [discriminate|]. intros (pre & post & H).
    destruct pre; discriminate H.
  - rewrite contains_spec. split; intros (pre & post & H); exists pre, post;
      congruence.
  - split; [discriminate|]. intros (pre & post & H). discriminate H.
Qed.

Section LoopInvariant.

Context (U : unicode_db) (sv : server) (max_images : Z).

(** A tag that fails the filter is passed over: unless the loop
    breaks, the counter and the world stay as they are. *)
Lemma loop_body_skips (img : img_tag) (d : Z) (w : world) :
  has_http_src img = false ->
  loop_body U sv max_images img d w
  = if (d >=? max_images)%Z then None else Some (d, w).
Proof. intros Hsrc. unfold loop_body. now rewrite Hsrc. Qed.

Lemma loop_body_step (img : img_tag) (d d' : Z) (w w' : world) :
  loop_body U sv max_images img d w = Some (d', w') ->
  (d < max_images)%Z /\ (d <= d' <= d + 1)%Z /\
  ((has_http_src img = false /\ d' = d /\ w' = w) \/
   (has_http_src img = true /\
    exists k, requested w' = requested w ++ repeat (full_src img) k)).
Proof.
  unfold loop_body.
  destruct (Z.geb_spec d max_images) as [Hge|Hlt]; [discriminate|].
  destruct (has_http_src img) eqn:Hsrc; simpl.
  - unfold download_tag, download_image.
    match goal with
    | |- context [download_attempts ?n ?s ?u ?f ?g ?x] =>
        destruct (download_attempts_effects n s u f g x) as [_ [k Hreq]];
        destruct (download_attempts n s u f g x) as [[|] w1]
    end; simpl in Hreq; intros H; injection H as <- <-;
      (split; [lia|]); (split; [lia|]); right; eauto.
  - intros H; injection H as <- <-. split; [lia|]. split; [lia|]. left. auto.
Qed.

Lemma loop_reaches_invariant (st st' : list img_tag * Z * world) :
  loop_reaches U sv max_images st st' ->
  (st.1.2 <= st'.1.2)%Z /\
  (st'.1.2 <= Z.max st.1.2 max_images)%Z /\
  exists urls, requested st'.2 = requested st.2 ++ urls /\
               Forall (fetched_from st.1.1) urls.
Proof.
  induction 1 as [st|img rest d w d' w' st Hbody Hreach IH]; simpl in *.
  - split; [lia|]. split; [lia|]. exists []. now rewrite app_nil_r.
  - destruct IH as (Hle & Hmax & urls & Hreq & Hurls).
    destruct (loop_body_step img d d' w w' Hbody) as (Hlt & Hd & Hcase).
    split; [lia|]. split; [lia|].
    assert (Hrest : Forall (fetched_from (img :: rest)) urls).
    { eapply List.Forall_impl; [|exact Hurls].
      intros url (img' & Hin & Hsrc & Hurl). exists img'. simpl. auto. }
    destruct Hcase as [(_ & _ & ->)|(Hsrc & k & Hk)].
    + exists urls. auto.
    + exists (repeat (full_src img) k ++ urls). split.
      * rewrite Hreq, Hk, <- app_assoc. reflexivity.
      * apply List.Forall_app. split; [|exact Hrest].
        apply List.Forall_forall. intros url Hin. apply repeat_spec in Hin.
        exists img. simpl. auto.
Qed.

End LoopInvariant.

(** C10, as stated, fails when the requested maximum is negative: the
    counter starts at 0, which is above it. *)
Lemma counter_above_negative_maximum :
  ~ never_above_maximum py_ucd sv_ok (-1) five_tags world0.
Proof.
  intros H. specialize (H five_tags 0%Z world0 (reaches_here _ _ _ _)). lia.
Qed.

(** C10 (amended): at any point of the loop, every address requested so
    far is that of a tag whose [src] is present and has "http"
    somewhere in it; a tag without such a [src] is passed over with
    the counter and the world unchanged; and the counter is at least 0
    and, when the requested maximum is not negative, at most that
    maximum. *)
Theorem loop_fetches_filtered_tags_within_maximum (U : unicode_db) (sv : server)
  (max_images : Z) (img_tags rest : list img_tag) (d : Z) (w w' : world) :
  loop_reaches U sv max_images (img_tags, 0%Z, w) (rest, d, w') ->
  (exists urls,
     requested w' = requested w ++ urls /\
     Forall (fun url =>
               exists img pre post,
                 In img img_tags /\ src img = Some (pre ++ py "http" ++ post) /\
                 full_src img = url) urls) /\
  (forall img d0 w0,
     (forall pre post, src img <> Some (pre ++ py "http" ++ post)) ->
     loop_body U sv max_images img d0 w0
     = if (d0 >=? max_images)%Z then None else Some (d0, w0)) /\
  (0 <= d)%Z /\
  ((0 <= max_images)%Z -> (d <= max_images)%Z).
Proof.
  intros Hreach.
  destruct (loop_reaches_invariant U sv max_images _ _ Hreach)
    as (Hle & Hmax & urls & Hreq & Hurls); simpl in *.
  split; [|split; [|split; [lia|lia]]].
  - exists urls. split; [exact Hreq|].
    eapply List.Forall_impl; [|exact Hurls].
    intros url (img & Hin & Hsrc & Hurl).
    apply has_http_src_spec in Hsrc as (pre & post & Hsrc).
    exists img, pre, post. auto.
  - intros img d0 w0 Hsrc. apply loop_body_skips.
    destruct (has_http_src img) eqn:E; [|reflexivity].
    apply has_http_src_spec in E as (pre & post & E). now apply Hsrc in E.
Qed.

Lemma loop_fetches_filtered_tags_within_maximum_witness :
  loop_reaches py_ucd sv_ok 5 (five_tags, 0%Z, world0)
    ([tag_proxied; tag_bare; tag_tree], 1%Z,
     (download_tag py_ucd sv_ok tag_car 0 world0).2) /\
  (exists urls,
     requested (download_tag py_ucd sv_ok tag_car 0 world0).2
     = requested world0 ++ urls /\
     Forall (fun url =>
               exists img pre post,
                 In img five_tags /\ src img = Some (pre ++ py "http" ++ post) /\
                 full_src img = url) urls) /\
  (0 <= 1)%Z /\ ((0 <= 5)%Z -> (1 <= 5)%Z).
Proof.
  assert (Hreach : loop_reaches py_ucd sv_ok 5 (five_tags, 0%Z, world0)
            ([tag_proxied; tag_bare; tag_tree], 1%Z,
             (download_tag py_ucd sv_ok tag_car 0 world0).2)).
  { apply reaches_next with (d' := 1%Z)
                            (w' := (download_tag py_ucd sv_ok tag_car 0 world0).2);
      [|eapply reaches_next; [|apply reaches_here]].
    - unfold loop_body. change (has_http_src tag_car) with true.
      change (0 >=? 5)%Z with false. cbn [negb].
      assert (Ht : (download_tag py_ucd sv_ok tag_car 0 world0).1 = true)
        by (apply (download_attempts_first_try 2); reflexivity).
      destruct (download_tag py_ucd sv_ok tag_car 0 world0) as [ok w1].
      simpl in Ht. subst ok. reflexivity.
    - reflexivity. }
  split; [exact Hreach|].
  destruct (loop_fetches_filtered_tags_within_maximum py_ucd sv_ok 5 five_tags
              [tag_proxied; tag_bare; tag_tree] 1%Z world0
              (download_tag py_ucd sv_ok tag_car 0 world0).2 Hreach)
    as (Hurls & _ & Hpos & Hmax).
  split; [exact Hurls|]. split; [exact Hpos|exact Hmax].
Defined.

(** ** Checks on concrete inputs *)

Example str_of_int_examples :
  str_of_int 42 = py "42" /\ str_of_int 0 = py "0" /\ str_of_int (-7) = py "-7".
Proof. repeat split; reflexivity. Qed.

Example os_path_join_examples :
  os_path_join DOWNLOAD_FOLDER (py "car.jpg") = py "lummi_images/car.jpg" /\
  os_path_join (py "lummi_images/") (py "car.jpg") = py "lummi_images/car.jpg" /\
  os_path_join DOWNLOAD_FOLDER (py "/tmp/car.jpg") = py "/tmp/car.jpg".
Proof. repeat split; reflexivity. Qed.

Example iter_content_sizes :
  List.map (@length byte) (iter_content 1024 (repeat x2a 1500)) = [1024; 476].
Proof. vm_compute. reflexivity. Qed.

Example filter_of_five_tags :
  List.map has_http_src five_tags = [true; false; true; false; true].
Proof. reflexivity. Qed.

(** A title of 50 characters or more uses up the 50 characters, and
    the extension is cut off. *)
Example long_title_loses_extension :
  clean_filename py_ucd (repeat 0x61%N 60 ++ py ".jpg") = repeat 0x61%N 50.
Proof. reflexivity. Qed.

(** A tag without [alt] is named after the counter. *)
Example untitled_tag_filename :
  clean_filename py_ucd (py_or (alt tag_tree) (py "image_" ++ str_of_int 2) ++ py ".jpg")
  = py "image_2.jpg".
Proof. reflexivity. Qed.

(** On a page whose height changes at every read, the loop is still
    running after any number of turns. *)
Lemma scroll_loop_runs_on (fuel : nat) :
  forall (h : page) (last_height : Z) (w : world),
    h (reads w) <> last_height ->
    (forall i, h (S i) <> h i) ->
    scroll_loop fuel h last_height w = None.
Proof.
  induction fuel as [|fuel IH]; intros h last_height w Hfirst Hnext; simpl;
    [reflexivity|].
  apply Z.eqb_neq in Hfirst. rewrite Hfirst. apply IH; [|exact Hnext].
  simpl. apply Hnext.
Qed.

(** * Further properties *)

(** ** [download_image]: files and accounting *)

Lemma attempt_other_files (sv : server) (url folder filename : str) (w : world)
  (p : str) :
  p <> os_path_join folder filename ->
  files (attempt sv url folder filename w).2 !! p = files w !! p.
Proof.
  intros Hp. unfold attempt, try_body.
  destruct (sv (sent w) url) as [e|status_code content io]; simpl; [reflexivity|].
  destruct (status_code =? 200)%Z; [destruct io|]; simpl; try reflexivity;
    rewrite write_chunks_insert; now apply lookup_insert_ne.
Qed.

Lemma download_attempts_other_files (n : nat) (sv : server)
  (url folder filename : str) (w : world) (p : str) :
  p <> os_path_join folder filename ->
  files (download_attempts n sv url folder filename w).2 !! p = files w !! p.
Proof.
  intros Hp. revert w. induction n as [|n IH]; intros w; simpl; [reflexivity|].
  pose proof (attempt_other_files sv url folder filename w p Hp) as Ha.
  destruct (attempt sv url folder filename w) as [[b|] w1]; simpl in *.
  - exact Ha.
  - now rewrite IH.
Qed.

Lemma attempt_logged (sv : server) (url folder filename : str) (w : world) :
  exists lv r,
    logged (attempt sv url folder filename w).2 = logged w ++ [(lv, r)] /\
    sent (attempt sv url folder filename w).2 = S (sent w) /\
    match (attempt sv url folder filename w).1 with
    | Some b => b = true /\ lv = INFO
    | None => lv = WARNING \/ lv = ERROR
    end.
Proof.
  unfold attempt, try_body, logged.
  destruct (sv (sent w) url) as [e|status_code content io]; simpl.
  - do 2 eexists. rewrite <- !app_assoc, !omap_app. simpl.
    rewrite ?app_nil_r. split; [reflexivity|]. split; [reflexivity|]. now right.
  - destruct (status_code =? 200)%Z; [destruct io|]; simpl;
      do 2 eexists; rewrite <- ?app_assoc, !omap_app; simpl; rewrite ?app_nil_r;
      (split; [reflexivity|]); (split; [reflexivity|]); auto.
Qed.

Lemma download_attempts_logged (n : nat) (sv : server)
  (url folder filename : str) (w : world) :
  exists l,
    logged (download_attempts n sv url folder filename w).2 = logged w ++ l /\
    sent (download_attempts n sv url folder filename w).2 = sent w + length l /\
    ((download_attempts n sv url folder filename w).1 = false ->
     Forall (fun x => x.1 = WARNING \/ x.1 = ERROR) l).
Proof.
  revert w. induction n as [|n IH]; intros w; simpl.
  - exists []. rewrite app_nil_r. split; [reflexivity|]. split; [simpl; lia|].
    constructor.
  - destruct (attempt_logged sv url folder filename w) as (lv & r & Hlog & Hsent & Hlv).
    destruct (attempt sv url folder filename w) as [[b|] w1]; simpl in *.
    + exists [(lv, r)]. split; [exact Hlog|]. split; [simpl; lia|].
      intros ->. destruct Hlv as [Hb _]. discriminate Hb.
    + destruct (IH w1) as (l & Hl & Hs & Hfail).
      exists ((lv, r) :: l). rewrite Hl, Hlog, <- app_assoc. simpl.
      split; [reflexivity|]. split; [lia|].
      intros Hret. constructor; [exact Hlv|exact (Hfail Hret)].
Qed.



Lemma attempt_accounting (sv : server) (url folder filename : str) (w : world) :
  sent (attempt sv url folder filename w).2 = S (sent w) /\
  requested (attempt sv url folder filename w).2 = requested w ++ [url] /\
  naps (attempt sv url folder filename w).2
  = naps w ++ match (attempt sv url folder filename w).1 with
              | Some _ => []
              | None => [REQUEST_DELAY]
              end /\
  (attempt sv url folder filename w).1 <> Some false.
Proof.
  unfold attempt, try_body, requested, naps.
  destruct (sv (sent w) url) as [e|status_code content io]; simpl.
  - rewrite <- !app_assoc, !omap_app. simpl. repeat split; discriminate.
  - destruct (status_code =? 200)%Z; [destruct io|]; simpl;
      rewrite <- ?app_assoc, !omap_app; simpl; rewrite ?app_nil_r;
      repeat split; discriminate.
Qed.

Lemma download_attempts_accounting (n : nat) (sv : server)
  (url folder filename : str) (w : world) :
  exists k,
    k <= n /\
    sent (download_attempts n sv url folder filename w).2 = sent w + k /\
    requested (download_attempts n sv url folder filename w).2
    = requested w ++ repeat url k /\
    naps (download_attempts n sv url folder filename w).2
    = naps w ++ repeat REQUEST_DELAY
                  (if (download_attempts n sv url folder filename w).1
                   then k - 1 else k) /\
    (if (download_attempts n sv url folder filename w).1 then 1 <= k else k = n).
Proof.
  revert w. induction n as [|n IH]; intros w; simpl.
  - exists 0. simpl. rewrite !app_nil_r. repeat split; lia.
  - destruct (attempt_accounting sv url folder filename w)
      as (Hsent & Hreq & Hnaps & Hret).
    destruct (attempt sv url folder filename w) as [[b|] w1]; simpl in *.
    + destruct b; [|congruence]. exists 1. simpl.
      rewrite Hsent, Hreq, Hnaps. repeat split; lia.
    + destruct (IH w1) as (k & Hk & Hs & Hr & Hn & Hok).
      exists (S k). rewrite Hs, Hr, Hn, Hsent, Hreq, Hnaps, <- !app_assoc.
      split; [lia|]. split; [lia|]. split; [reflexivity|].
      destruct (download_attempts n sv url folder filename w1).1.
      * split; [|lia]. destruct k as [|k]; [lia|]. simpl.
        now rewrite Nat.sub_0_r.
      * split; [reflexivity|lia].
Qed.

(** X2: a call of [download_image] sends between 1 and
    [RETRY_ATTEMPTS] requests, all for the same address; it sleeps
    [REQUEST_DELAY] after each failed attempt and at no other time
    (so also after the last attempt of a call that fails, and never
    after a success); and a call that fails has used all its
    attempts. *)
Theorem download_image_accounting (sv : server) (url folder filename : str)
  (w : world) :
  exists k,
    1 <= k <= RETRY_ATTEMPTS /\
    sent (download_image sv url folder filename w).2 = sent w + k /\
    requested (download_image sv url folder filename w).2
    = requested w ++ repeat url k /\
    naps (download_image sv url folder filename w).2
    = naps w ++ repeat REQUEST_DELAY
                  (if (download_image sv url folder filename w).1
                   then k - 1 else k) /\
    ((download_image sv url folder filename w).1 = false -> k = RETRY_ATTEMPTS).
Proof.
  unfold download_image.
  destruct (download_attempts_accounting RETRY_ATTEMPTS sv url folder filename w)
    as (k & Hk & Hs & Hr & Hn & Hok).
  exists k. split; [|split; [exact Hs|split; [exact Hr|split; [exact Hn|]]]].
  - destruct (download_attempts RETRY_ATTEMPTS sv url folder filename w).1;
      unfold RETRY_ATTEMPTS in *; lia.
  - intros Hf. rewrite Hf in Hok. exact Hok.
Qed.

Lemma download_attempts_without_writing (n : nat) (sv : server)
  (url folder filename : str) (w : world) :
  (forall i, i < n -> fails_before_writing (sv (sent w + i) url) = true) ->
  (download_attempts n sv url folder filename w).1 = false /\
  files (download_attempts n sv url folder filename w).2 = files w.
Proof.
  revert w. induction n as [|n IH]; intros w Hfail; simpl; [auto|].
  destruct (attempt_failure_before_writing sv url folder filename w)
    as (lv & r & ->).
  { specialize (Hfail 0). rewrite Nat.add_0_r in Hfail. apply Hfail. lia. }
  destruct (IH (emit (Sleep REQUEST_DELAY) (emit (Log lv r) (request url w))))
    as [Hret Hfiles].
  { intros i Hi. simpl. specialize (Hfail (S i)).
    rewrite Nat.add_succ_r in Hfail. apply Hfail. lia. }
  split; [exact Hret|]. rewrite Hfiles. reflexivity.
Qed.

(** X3: when every attempt fails before the destination is opened (the
    request raises, the status is not 200, or [open] raises), the call
    returns [False] and every file other than the log file is as it
    was, a file that was at the destination included; the log file has
    one more line for each of the [RETRY_ATTEMPTS] attempts, a warning
    or an error. *)
Theorem failed_download_keeps_files (sv : server) (url folder filename : str)
  (w : world) :
  (forall i, i < RETRY_ATTEMPTS ->
             fails_before_writing (sv (sent w + i) url) = true) ->
  (download_image sv url folder filename w).1 = false /\
  (forall p, p <> LOG_FILE ->
             files (download_image sv url folder filename w).2 !! p = files w !! p) /\
  exists l,
    logged (download_image sv url folder filename w).2 = logged w ++ l /\
    length l = RETRY_ATTEMPTS /\
    Forall (fun x => x.1 = WARNING \/ x.1 = ERROR) l.
Proof.
  intros Hfail. unfold download_image.
  destruct (download_attempts_without_writing RETRY_ATTEMPTS sv url folder
              filename w Hfail) as [Hret Hfiles].
  split; [exact Hret|]. split; [intros p _; now rewrite Hfiles|].
  destruct (download_attempts_logged RETRY_ATTEMPTS sv url folder filename w)
    as (l & Hl & Hs & Hlv).
  destruct (download_attempts_accounting RETRY_ATTEMPTS sv url folder filename w)
    as (k & _ & Hk & _ & _ & Hn).
  rewrite Hret in Hn. exists l. split; [exact Hl|]. split; [lia|exact (Hlv Hret)].
Qed.

Lemma failed_download_keeps_files_witness :
  (forall i, i < RETRY_ATTEMPTS ->
             fails_before_writing (sv_timeout (sent world0 + i) some_url) = true) /\
  (download_image sv_timeout some_url DOWNLOAD_FOLDER (py "car.jpg") world0).1 = false /\
  (forall p, p <> LOG_FILE ->
             files (download_image sv_timeout some_url DOWNLOAD_FOLDER
                      (py "car.jpg") world0).2 !! p
             = files world0 !! p) /\
  exists l,
    logged (download_image sv_timeout some_url DOWNLOAD_FOLDER (py "car.jpg") world0).2
    = logged world0 ++ l /\
    length l = RETRY_ATTEMPTS /\
    Forall (fun x => x.1 = WARNING \/ x.1 = ERROR) l.
Proof.
  assert (H : forall i, i < RETRY_ATTEMPTS ->
                fails_before_writing (sv_timeout (sent world0 + i) some_url) = true)
    by (intros i _; reflexivity).
  split; [exact H|].
  exact (failed_download_keeps_files sv_timeout some_url DOWNLOAD_FOLDER
           (py "car.jpg") world0 H).
Defined.

(** ** File names and paths *)

Lemma os_path_join_relative (a p : str) :
  (forall t, p <> SLASH :: t) ->
  os_path_join a p
  = match last a with
    | None => a ++ p
    | Some c => if (c =? SLASH)%N then a ++ p else a ++ [SLASH] ++ p
    end.
Proof.
  intros Hp.
  assert (Hlast : match last a with
                  | None => a ++ p
                  | Some 0x2F%N => a ++ p
                  | Some _ => a ++ [0x2F%N] ++ p
                  end
                  = match last a with
                    | None => a ++ p
                    | Some c => if (c =? SLASH)%N then a ++ p else a ++ [SLASH] ++ p
                    end).
  { destruct (last a) as [c|]; [|reflexivity].
    destruct (N.eqb_spec c SLASH) as [->|Hc]; [reflexivity|].
    destruct c as [|q]; [reflexivity|].
    repeat (match goal with
            | |- context [match ?q with xI _ => _ | xO _ => _ | xH => _ end] =>
                destruct q
            end; try reflexivity).
    exfalso. apply Hc. reflexivity. }
  unfold os_path_join. destruct p as [|c t]; [exact Hlast|].
  destruct (N.eqb_spec c SLASH) as [->|Hc]; [exfalso; apply (Hp t); reflexivity|].
  destruct c as [|q]; [exact Hlast|].
  repeat (match goal with
          | |- context [match ?q with xI _ => _ | xO _ => _ | xH => _ end] =>
              destruct q
          end; try exact Hlast).
  exfalso. apply Hc. reflexivity.
Qed.

Lemma clean_filename_no_slash (U : unicode_db) (name : str) :
  kept U SLASH = false -> ~ In SLASH (clean_filename U name).
Proof.
  intros Hslash Hin. pose proof (clean_filename_kept U name) as Hk.
  rewrite List.Forall_forall in Hk. apply Hk in Hin. congruence.
Qed.

Lemma destination_in_folder (U : unicode_db) (name : str) :
  kept U SLASH = false ->
  os_path_join DOWNLOAD_FOLDER (clean_filename U name)
  = DOWNLOAD_FOLDER ++ [SLASH] ++ clean_filename U name.
Proof.
  intros Hslash. rewrite os_path_join_relative; [reflexivity|].
  intros t Ht. apply (clean_filename_no_slash U name Hslash). rewrite Ht. now left.
Qed.

Lemma replace_char_app (old new : N) (a b : str) :
  replace_char old new (a ++ b) = replace_char old new a ++ replace_char old new b.
Proof. unfold replace_char. apply List.map_app. Qed.

Lemma lower_from_app (U : unicode_db) (a b before : str) :
  exists x, lower_from U before (a ++ b) = x ++ lower_from U (before ++ a) b.
Proof.
  revert before. induction a as [|c a IH]; intros before; simpl.
  - exists []. now rewrite app_nil_r.
  - destruct (IH (before ++ [c])) as [x Hx]. rewrite Hx, <- app_assoc. simpl.
    eexists. rewrite app_assoc. reflexivity.
Qed.

Lemma clean_filename_with_extension (U : unicode_db) (title : str) :
  Forall (fun c => tolower U c = [c] /\ kept U c = true) (py ".jpg") ->
  exists stem, clean_filename U (title ++ py ".jpg") = firstn 50 (stem ++ py ".jpg").
Proof.
  intros Hjpg.
  assert (Hlow : Forall (lowered U) (py ".jpg")).
  { assert (Hne : Forall (fun c => c <> CAPITAL_SIGMA) (py ".jpg"))
      by (repeat constructor; discriminate).
    pose proof (List.Forall_and Hjpg Hne) as Hboth.
    eapply List.Forall_impl; [|exact Hboth]. intros c [[Hc _] Hs]. split; auto. }
  assert (Hkept : Forall (fun c => kept U c = true) (py ".jpg")).
  { eapply List.Forall_impl; [|exact Hjpg]. intros c [_ Hc]. exact Hc. }
  unfold clean_filename, re_sub_strip, lower.
  rewrite replace_char_app.
  change (replace_char SPACE UNDERSCORE (py ".jpg")) with (py ".jpg").
  destruct (lower_from_app U (replace_char SPACE UNDERSCORE title) (py ".jpg") [])
    as [x ->].
  rewrite (lower_from_fixed U _ (py ".jpg") Hlow).
  rewrite List.filter_app, (filter_all _ (py ".jpg") Hkept).
  eexists. reflexivity.
Qed.

(** X4: for the names that [main] builds, [clean_filename] of a title
    followed by ".jpg": when the slash is not kept by the pattern and
    the four characters of ".jpg" are kept and unchanged by lowercasing
    (as in Python's tables), the name has no slash and between 4 and 50
    characters, so it is not empty, not "." and not "..", and the
    destination that [os.path.join] of [posixpath] builds from it is
    the folder, a slash and the name: one path component below the
    download folder. ([clean_filename] alone does not give this: it
    leaves ".." as it is and makes "!!" empty.) *)
Theorem clean_filename_stays_in_folder (U : unicode_db) (title : str) :
  kept U SLASH = false ->
  Forall (fun c => tolower U c = [c] /\ kept U c = true) (py ".jpg") ->
  ~ In SLASH (clean_filename U (title ++ py ".jpg")) /\
  4 <= length (clean_filename U (title ++ py ".jpg")) <= 50 /\
  clean_filename U (title ++ py ".jpg") <> [] /\
  clean_filename U (title ++ py ".jpg") <> py "." /\
  clean_filename U (title ++ py ".jpg") <> py ".." /\
  os_path_join DOWNLOAD_FOLDER (clean_filename U (title ++ py ".jpg"))
  = DOWNLOAD_FOLDER ++ [SLASH] ++ clean_filename U (title ++ py ".jpg").
Proof.
  intros Hslash Hjpg.
  assert (Hlen : 4 <= length (clean_filename U (title ++ py ".jpg")) <= 50).
  { split; [|apply clean_filename_length].
    destruct (clean_filename_with_extension U title Hjpg) as [stem ->].
    rewrite length_firstn, length_app.
    change (length (py ".jpg")) with 4. lia. }
  split; [now apply clean_filename_no_slash|]. split; [exact Hlen|].
  split; [|split; [|split]].
  - intros E. rewrite E in Hlen. simpl in Hlen. lia.
  - intros E. rewrite E in Hlen. vm_compute in Hlen. lia.
  - intros E. rewrite E in Hlen. vm_compute in Hlen. lia.
  - now apply destination_in_folder.
Qed.

Lemma clean_filename_stays_in_folder_witness :
  kept py_ucd SLASH = false /\
  Forall (fun c => tolower py_ucd c = [c] /\ kept py_ucd c = true) (py ".jpg") /\
  ~ In SLASH (clean_filename py_ucd (py "../.." ++ py ".jpg")) /\
  4 <= length (clean_filename py_ucd (py "../.." ++ py ".jpg")) <= 50 /\
  clean_filename py_ucd (py "../.." ++ py ".jpg") <> [] /\
  clean_filename py_ucd (py "../.." ++ py ".jpg") <> py "." /\
  clean_filename py_ucd (py "../.." ++ py ".jpg") <> py ".." /\
  os_path_join DOWNLOAD_FOLDER (clean_filename py_ucd (py "../.." ++ py ".jpg"))
  = DOWNLOAD_FOLDER ++ [SLASH] ++ clean_filename py_ucd (py "../.." ++ py ".jpg").
Proof.
  assert (H1 : kept py_ucd SLASH = false) by reflexivity.
  assert (H2 : Forall (fun c => tolower py_ucd c = [c] /\ kept py_ucd c = true)
                 (py ".jpg")) by (repeat constructor).
  split; [exact H1|]. split; [exact H2|].
  exact (clean_filename_stays_in_folder py_ucd (py "../..") H1 H2).
Defined.

(** X5: when the four characters of ".jpg" are kept by the pattern and
    unchanged by lowercasing (as in Python's tables), the name made
    from a title and ".jpg" is never empty, and it ends with ".jpg"
    whenever it is shorter than 50 characters; the extension can only
    be lost to the cut at 50. *)
Theorem filename_keeps_extension (U : unicode_db) (title : str) :
  Forall (fun c => tolower U c = [c] /\ kept U c = true) (py ".jpg") ->
  clean_filename U (title ++ py ".jpg") <> [] /\
  (length (clean_filename U (title ++ py ".jpg")) < 50 ->
   exists stem, clean_filename U (title ++ py ".jpg") = stem ++ py ".jpg").
Proof.
  intros Hjpg.
  assert (Hlow : Forall (lowered U) (py ".jpg")).
  { assert (Hne : Forall (fun c => c <> CAPITAL_SIGMA) (py ".jpg"))
      by (repeat constructor; discriminate).
    pose proof (List.Forall_and Hjpg Hne) as Hboth.
    eapply List.Forall_impl; [|exact Hboth]. intros c [[Hc _] Hs]. split; auto. }
  assert (Hkept : Forall (fun c => kept U c = true) (py ".jpg")).
  { eapply List.Forall_impl; [|exact Hjpg]. intros c [_ Hc]. exact Hc. }
  unfold clean_filename, re_sub_strip, lower.
  rewrite replace_char_app.
  change (replace_char SPACE UNDERSCORE (py ".jpg")) with (py ".jpg").
  destruct (lower_from_app U (replace_char SPACE UNDERSCORE title) (py ".jpg") [])
    as [x ->].
  rewrite (lower_from_fixed U _ (py ".jpg") Hlow).
  rewrite List.filter_app, (filter_all _ (py ".jpg") Hkept).
  set (stem := List.filter (kept U) x).
  assert (Hlen : length (stem ++ py ".jpg") = length stem + 4)
    by (rewrite length_app; reflexivity).
  split.
  - destruct stem; discriminate.
  - rewrite length_firstn. intros Hshort.
    exists stem. apply firstn_all2. lia.
Qed.

Lemma filename_keeps_extension_witness :
  Forall (fun c => tolower py_ucd c = [c] /\ kept py_ucd c = true) (py ".jpg") /\
  clean_filename py_ucd (py "Red Car!! 2024" ++ py ".jpg") <> [] /\
  (length (clean_filename py_ucd (py "Red Car!! 2024" ++ py ".jpg")) < 50 ->
   exists stem,
     clean_filename py_ucd (py "Red Car!! 2024" ++ py ".jpg") = stem ++ py ".jpg").
Proof.
  assert (H : Forall (fun c => tolower py_ucd c = [c] /\ kept py_ucd c = true)
                (py ".jpg")) by (repeat constructor).
  split; [exact H|].
  exact (filename_keeps_extension py_ucd (py "Red Car!! 2024") H).
Defined.

(** ** The download loop: files, bounds and budget *)

Section LoopFiles.

Context (U : unicode_db) (sv : server).

Lemma download_loop_files (max_images : Z) (img_tags : list img_tag) (d : Z)
  (w : world) (p : str) :
  files (download_loop U sv max_images img_tags d w).2 !! p = files w !! p \/
  exists name, p = os_path_join DOWNLOAD_FOLDER (clean_filename U name).
Proof.
  revert d w. induction img_tags as [|img rest IH]; intros d w; simpl; [auto|].
  unfold loop_body.
  destruct (d >=? max_images)%Z; [auto|].
  destruct (has_http_src img); simpl; [|apply IH].
  unfold download_tag.
  set (name := py_or (alt img) (py "image_" ++ str_of_int d) ++ py ".jpg").
  destruct (decide (p = os_path_join DOWNLOAD_FOLDER (clean_filename U name)))
    as [->|Hp]; [right; eauto|].
  pose proof (download_attempts_other_files RETRY_ATTEMPTS sv (full_src img)
                DOWNLOAD_FOLDER (clean_filename U name) w p Hp) as Hframe.
  fold (download_image sv (full_src img) DOWNLOAD_FOLDER (clean_filename U name) w)
    in Hframe.
  destruct (download_image sv (full_src img) DOWNLOAD_FOLDER
              (clean_filename U name) w) as [[|] w1]; simpl in Hframe;
    rewrite <- Hframe; apply IH.
Qed.

End LoopFiles.

(** X6: when the slash is neither alphanumeric nor whitespace, every
    file other than the log file that the download loop creates or
    changes has a path made of "lummi_images/" and a name of at most 50
    characters without a slash. (The log file is changed as well: the
    loop logs each attempt and its summary.) *)
Theorem download_all_writes_in_folder (U : unicode_db) (sv : server)
  (max_images : Z) (img_tags : list img_tag) (w : world) (p : str) :
  kept U SLASH = false ->
  p <> LOG_FILE ->
  files (download_all U sv max_images img_tags w).2 !! p <> files w !! p ->
  exists name, p = py "lummi_images/" ++ name /\
               ~ In SLASH name /\ length name <= 50.
Proof.
  intros Hslash _ Hchanged. unfold download_all in Hchanged.
  match type of Hchanged with
  | context [download_loop U sv max_images img_tags 0%Z ?x] =>
      destruct (download_loop_files U sv max_images img_tags 0%Z x p)
        as [Hsame|[name ->]];
      [destruct (download_loop U sv max_images img_tags 0%Z x) as [d w1];
       simpl in *; congruence|]
  end.
  exists (clean_filename U name). split; [|split].
  - rewrite (destination_in_folder U name Hslash). reflexivity.
  - now apply clean_filename_no_slash.
  - apply clean_filename_length.
Qed.

Lemma download_all_writes_in_folder_witness :
  kept py_ucd SLASH = false /\
  py "lummi_images/red_car_2024.jpg" <> LOG_FILE /\
  files (download_all py_ucd sv_ok 5 five_tags world0).2
    !! py "lummi_images/red_car_2024.jpg"
  <> files world0 !! py "lummi_images/red_car_2024.jpg" /\
  exists name, py "lummi_images/red_car_2024.jpg" = py "lummi_images/" ++ name /\
               ~ In SLASH name /\ length name <= 50.
Proof.
  assert (H1 : kept py_ucd SLASH = false) by reflexivity.
  assert (H2 : files (download_all py_ucd sv_ok 5 five_tags world0).2
                 !! py "lummi_images/red_car_2024.jpg"
               <> files world0 !! py "lummi_images/red_car_2024.jpg")
    by (vm_compute; discriminate).
  assert (H3 : py "lummi_images/red_car_2024.jpg" <> LOG_FILE)
    by (vm_compute; discriminate).
  split; [exact H1|]. split; [exact H3|]. split; [exact H2|].
  exact (download_all_writes_in_folder py_ucd sv_ok 5 five_tags world0
           (py "lummi_images/red_car_2024.jpg") H1 H3 H2).
Defined.

(** X7: with a requested maximum of 0 or less the loop breaks at its
    first turn: nothing is requested, no file is touched, and the
    summary reports 0 images. *)
Theorem nonpositive_maximum_downloads_nothing (U : unicode_db) (sv : server)
  (max_images : Z) (img_tags : list img_tag) (w : world) :
  (max_images <= 0)%Z ->
  (download_all U sv max_images img_tags w).1 = 0%Z /\
  sent (download_all U sv max_images img_tags w).2 = sent w /\
  requested (download_all U sv max_images img_tags w).2 = requested w /\
  files (download_all U sv max_images img_tags w).2 = files w /\
  printed (download_all U sv max_images img_tags w).2
  = Some (py "Downloaded 0 images to lummi_images").
Proof.
  intros Hmax. unfold download_all.
  assert (Hloop : forall w0, download_loop U sv max_images img_tags 0%Z w0 = (0%Z, w0)).
  { intros w0. destruct img_tags as [|img rest]; [reflexivity|]. simpl.
    unfold loop_body. destruct (Z.geb_spec 0 max_images); [reflexivity|lia]. }
  rewrite Hloop. cbn [fst snd]. split; [reflexivity|]. split; [reflexivity|].
  split; [|split; [reflexivity|apply printed_summary]].
  unfold requested. simpl. rewrite <- !app_assoc, omap_app. simpl.
  apply app_nil_r.
Qed.

Lemma nonpositive_maximum_downloads_nothing_witness :
  (-1 <= 0)%Z /\
  (download_all py_ucd sv_ok (-1) five_tags world0).1 = 0%Z /\
  sent (download_all py_ucd sv_ok (-1) five_tags world0).2 = sent world0 /\
  requested (download_all py_ucd sv_ok (-1) five_tags world0).2 = requested world0 /\
  files (download_all py_ucd sv_ok (-1) five_tags world0).2 = files world0 /\
  printed (download_all py_ucd sv_ok (-1) five_tags world0).2
  = Some (py "Downloaded 0 images to lummi_images").
Proof.
  assert (H : (-1 <= 0)%Z) by lia.
  split; [exact H|].
  exact (nonpositive_maximum_downloads_nothing py_ucd sv_ok (-1) five_tags world0 H).
Defined.

Section LoopBudget.

Context (U : unicode_db) (sv : server).

Lemma download_tag_first_try (img : img_tag) (d : Z) (w : world) :
  (forall i url, succeeds (sv i url) = true) ->
  (download_tag U sv img d w).1 = true /\
  requested (download_tag U sv img d w).2 = requested w ++ [full_src img].
Proof.
  intros Hok. unfold download_tag, download_image, RETRY_ATTEMPTS.
  apply download_attempts_first_try. apply Hok.
Qed.

Lemma download_loop_all_succeed (max_images : Z) (img_tags : list img_tag)
  (d : Z) (w : world) :
  (forall i url, succeeds (sv i url) = true) ->
  (d <= max_images)%Z ->
  (download_loop U sv max_images img_tags d w).1
  = (d + Z.of_nat (Nat.min (Z.to_nat (max_images - d))
                     (length (List.filter has_http_src img_tags))))%Z /\
  requested (download_loop U sv max_images img_tags d w).2
  = requested w
    ++ List.map full_src
         (firstn (Z.to_nat (max_images - d)) (List.filter has_http_src img_tags)).
Proof.
  intros Hok. revert d w.
  induction img_tags as [|img rest IH]; intros d w Hd; simpl.
  - rewrite Nat.min_0_r, firstn_nil. simpl. rewrite app_nil_r. split; [lia|reflexivity].
  - unfold loop_body.
    destruct (Z.geb_spec d max_images) as [Hge|Hlt].
    + replace (max_images - d)%Z with 0%Z by lia. simpl. rewrite app_nil_r.
      split; [lia|reflexivity].
    + destruct (has_http_src img) eqn:Hsrc; simpl; [|apply IH; lia].
      destruct (download_tag_first_try img d w Hok) as [Ht Hr].
      destruct (download_tag U sv img d w) as [ok w1]; simpl in Ht, Hr; subst ok.
      destruct (IH (d + 1)%Z w1) as [Hcount Hreq]; [lia|].
      rewrite Hcount, Hreq, Hr, <- app_assoc.
      replace (Z.to_nat (max_images - d)) with (S (Z.to_nat (max_images - (d + 1))))
        by lia.
      simpl. split; [lia|reflexivity].
Qed.

End LoopBudget.

(** X8: when every request succeeds and the requested maximum is not
    negative, the loop downloads the first [max_images] tags that pass
    the filter, in document order (all of them when there are fewer),
    each with one request, and the count is the smaller of the maximum
    and the number of such tags. *)
Theorem downloads_first_images_up_to_maximum (U : unicode_db) (sv : server)
  (max_images : Z) (img_tags : list img_tag) (w : world) :
  (forall i url, succeeds (sv i url) = true) ->
  (0 <= max_images)%Z ->
  (download_all U sv max_images img_tags w).1
  = Z.min max_images (Z.of_nat (length (List.filter has_http_src img_tags))) /\
  requested (download_all U sv max_images img_tags w).2
  = requested w
    ++ List.map full_src
         (firstn (Z.to_nat max_images) (List.filter has_http_src img_tags)).
Proof.
  intros Hok Hmax. unfold download_all.
  match goal with
  | |- context [download_loop U sv max_images img_tags 0%Z ?x] =>
      destruct (download_loop_all_succeed U sv max_images img_tags 0%Z x Hok Hmax)
        as [Hcount Hreq];
      destruct (download_loop U sv max_images img_tags 0%Z x) as [d w1]
  end.
  cbn [fst snd] in *. rewrite Z.sub_0_r in *. split; [lia|].
  unfold requested in *. simpl in *.
  rewrite <- !app_assoc, !omap_app in *. simpl in *.
  rewrite !app_nil_r in *. exact Hreq.
Qed.

Lemma downloads_first_images_up_to_maximum_witness :
  (forall i url, succeeds (sv_ok i url) = true) /\
  (0 <= 2)%Z /\
  (download_all py_ucd sv_ok 2 five_tags world0).1 = 2%Z /\
  requested (download_all py_ucd sv_ok 2 five_tags world0).2
  = [py "https://img.example/car.jpg"; py "https://img.example/sea_full.jpg"].
Proof.
  assert (H1 : forall i url, succeeds (sv_ok i url) = true)
    by (intros i url; reflexivity).
  assert (H2 : (0 <= 2)%Z) by lia.
  split; [exact H1|]. split; [exact H2|].
  exact (downloads_first_images_up_to_maximum py_ucd sv_ok 2 five_tags world0 H1 H2).
Defined.

Section LoopAccounting.

Context (U : unicode_db) (sv : server).



End LoopAccounting.


(** ** Scrolling: accounting and pages that never settle *)

Lemma naps_emit (e : effect) (w : world) :
  naps (emit e w)
  = naps w ++ match e with Sleep ms => [ms] | _ => [] end.
Proof. unfold naps. simpl. rewrite omap_app. destruct e; reflexivity. Qed.

Lemma scroll_turn (h : page) (w : world) :
  let w2 := (read_height h (emit (Sleep SCROLL_PAUSE) (emit ScrollToBottom w))).2 in
  scroll_cycles w2 = scroll_cycles w + 1 /\
  reads w2 = S (reads w) /\
  naps w2 = naps w ++ [SCROLL_PAUSE] /\
  files w2 = files w /\ sent w2 = sent w.
Proof.
  unfold scroll_cycles, naps. simpl.
  rewrite !List.filter_app, !omap_app, !length_app. simpl.
  rewrite ?app_nil_r. repeat split; lia.
Qed.

Lemma scroll_loop_accounting (fuel : nat) :
  forall (h : page) (last_height : Z) (w w' : world),
    scroll_loop fuel h last_height w = Some w' ->
    exists n,
      1 <= n <= fuel /\
      scroll_cycles w' = scroll_cycles w + n /\
      reads w' = reads w + n /\
      naps w' = naps w ++ repeat SCROLL_PAUSE n /\
      files w' = files w /\ sent w' = sent w /\
      h (reads w + n - 1)
      = match n with
        | 1 => last_height
        | _ => h (reads w + n - 2)
        end.
Proof.
  induction fuel as [|fuel IH]; intros h last_height w w' Hrun; [discriminate|].
  cbn [scroll_loop] in Hrun.
  destruct (scroll_turn h w) as (Hc1 & Hr1 & Hn1 & Hf1 & Hs1).
  destruct (read_height h (emit (Sleep SCROLL_PAUSE) (emit ScrollToBottom w)))
    as [new_height w2] eqn:Hread.
  assert (Hnew : new_height = h (reads w)) by (injection Hread as <- _; reflexivity).
  cbn [snd] in *. subst new_height.
  destruct (Z.eqb_spec (h (reads w)) last_height) as [Heq|Hne].
  - injection Hrun as <-. exists 1. rewrite Hc1, Hr1, Hn1, Hf1, Hs1.
    replace (reads w + 1 - 1) with (reads w) by lia.
    repeat split; try lia; auto.
  - apply IH in Hrun as (n & Hn & Hc & Hr & Hnaps & Hfiles & Hsent & Hlast).
    exists (S n). rewrite Hc, Hr, Hnaps, Hfiles, Hsent, Hc1, Hr1, Hn1, Hf1, Hs1.
    rewrite Hr1 in Hlast.
    split; [lia|]. split; [lia|]. split; [lia|].
    split; [now rewrite <- app_assoc|]. split; [reflexivity|]. split; [reflexivity|].
    replace (reads w + S n - 1) with (S (reads w) + n - 1) by lia.
    rewrite Hlast. destruct n as [|[|n]]; [lia| |].
    + f_equal. lia.
    + f_equal. lia.
Qed.

(** X10: a run of the scroll loop that ends has made at least one
    cycle, one read more than cycles, and has slept [SCROLL_PAUSE] in
    each cycle; even a page that does not change costs one scroll and
    one pause. Its last two reads are equal, and it has sent no request
    and touched no file. *)
Theorem scroll_to_end_accounting (fuel : nat) (h : page) (w w' : world) :
  scroll_to_end fuel h w = Some w' ->
  exists n,
    1 <= n <= fuel /\
    scroll_cycles w' = scroll_cycles w + n /\
    reads w' = reads w + n + 1 /\
    naps w' = naps w ++ repeat SCROLL_PAUSE n /\
    h (reads w + n) = h (reads w + n - 1) /\
    files w' = files w /\ sent w' = sent w.
Proof.
  unfold scroll_to_end. intros Hrun.
  destruct (read_height h w) as [last_height w1] eqn:Hread.
  assert (Hw1 : scroll_cycles w1 = scroll_cycles w /\ reads w1 = S (reads w) /\
                naps w1 = naps w /\ files w1 = files w /\ sent w1 = sent w).
  { injection Hread as _ <-. unfold scroll_cycles, naps. simpl.
    rewrite List.filter_app, omap_app, length_app. simpl.
    rewrite ?app_nil_r. repeat split; lia. }
  destruct Hw1 as (Hc1 & Hr1 & Hn1 & Hf1 & Hs1).
  destruct (scroll_loop fuel h last_height w1) as [w2|] eqn:Hloop; [|discriminate].
  apply scroll_loop_accounting in Hloop
    as (n & Hn & Hc & Hr & Hnaps & Hfiles & Hsent & Hlast).
  injection Hrun as <-. exists n.
  rewrite scroll_cycles_emit, naps_emit. simpl.
  rewrite Hc, Hr, Hnaps, Hfiles, Hsent, Hc1, Hr1, Hn1, Hf1, Hs1, app_nil_r.
  rewrite Hr1 in Hlast.
  split; [lia|]. split; [lia|]. split; [lia|]. split; [reflexivity|].
  split; [|split; reflexivity].
  replace (reads w + n) with (S (reads w) + n - 1) by lia. rewrite Hlast.
  destruct n as [|[|n]]; [lia| |].
  - injection Hread as <- _. f_equal. lia.
  - f_equal. lia.
Qed.

Lemma scroll_to_end_accounting_witness :
  exists w',
    scroll_to_end 5 page_growing world0 = Some w' /\
    exists n,
      1 <= n <= 5 /\
      scroll_cycles w' = scroll_cycles world0 + n /\
      reads w' = reads world0 + n + 1 /\
      naps w' = naps world0 ++ repeat SCROLL_PAUSE n /\
      page_growing (reads world0 + n) = page_growing (reads world0 + n - 1) /\
      files w' = files world0 /\ sent w' = sent world0.
Proof.
  destruct (scroll_to_end 5 page_growing world0) as [w'|] eqn:Hrun;
    [|vm_compute in Hrun; discriminate Hrun].
  exists w'. split; [reflexivity|].
  exact (scroll_to_end_accounting 5 page_growing world0 w' Hrun).
Defined.

Lemma scroll_loop_endless (fuel : nat) :
  forall (h : page) (last_height : Z) (w : world),
    h (reads w) <> last_height ->
    (forall i, h (reads w + S i) <> h (reads w + i)) ->
    scroll_loop fuel h last_height w = None.
Proof.
  induction fuel as [|fuel IH]; intros h last_height w Hfirst Hnext;
    [reflexivity|].
  cbn [scroll_loop]. unfold read_height. cbn [emit reads].
  apply Z.eqb_neq in Hfirst. rewrite Hfirst. apply IH; cbn [emit reads].
  - specialize (Hnext 0). rewrite Nat.add_0_r in Hnext.
    replace (S (reads w)) with (reads w + 1) by lia. exact Hnext.
  - intros i. specialize (Hnext (S i)).
    replace (S (reads w) + S i) with (reads w + S (S i)) by lia.
    replace (S (reads w) + i) with (reads w + S i) by lia. exact Hnext.
Qed.

(** X11: on a page whose height is different at every read the scroll
    loop never stops: however many turns it is given, it is still
    running. *)
Theorem scroll_to_end_never_stops (fuel : nat) (h : page) (w : world) :
  (forall i, h (reads w + S i) <> h (reads w + i)) ->
  scroll_to_end fuel h w = None.
Proof.
  intros Hnext. unfold scroll_to_end, read_height.
  rewrite scroll_loop_endless; [reflexivity| |]; cbn [emit reads].
  - specialize (Hnext 0). rewrite Nat.add_0_r in Hnext.
    replace (S (reads w)) with (reads w + 1) by lia. exact Hnext.
  - intros i. specialize (Hnext (S i)).
    replace (S (reads w) + S i) with (reads w + S (S i)) by lia.
    replace (S (reads w) + i) with (reads w + S i) by lia. exact Hnext.
Qed.

Lemma scroll_to_end_never_stops_witness :
  (forall i, page_endless (reads world0 + S i) <> page_endless (reads world0 + i)) /\
  scroll_to_end 1000 page_endless world0 = None.
Proof.
  assert (H : forall i, page_endless (reads world0 + S i)
                        <> page_endless (reads world0 + i))
    by (intros i; unfold page_endless; simpl; lia).
  split; [exact H|].
  exact (scroll_to_end_never_stops 1000 page_endless world0 H).
Defined.

(** ** Names that collide, and failures that differ *)

Lemma download_image_first_try (sv : server) (url folder filename : str)
  (w : world) (content : bytes) :
  sv (sent w) url = Responds 200 content IoOk ->
  exists w', download_image sv url folder filename w = (true, w') /\
             sent w' = S (sent w) /\
             files w' = <[os_path_join folder filename := content]> (files w).
Proof.
  intros Ho. unfold download_image, RETRY_ATTEMPTS. simpl.
  destruct (attempt_success sv url folder filename w content Ho)
    as (w' & -> & Hsent & Hfiles).
  eauto.
Qed.

(** X12: the file name of a tag with an [alt] text depends on that text
    alone, so two tags with the same text are saved to the same path:
    when both downloads succeed the count is 2, yet only one file has
    been written, and it holds the second image. *)
Theorem same_alt_overwrites (U : unicode_db) (sv : server) (max_images : Z)
  (img1 img2 : img_tag) (w : world) (c : N) (title : str) (b1 b2 : bytes) :
  (2 <= max_images)%Z ->
  has_http_src img1 = true ->
  has_http_src img2 = true ->
  alt img1 = Some (c :: title) ->
  alt img2 = Some (c :: title) ->
  sv (sent w) (full_src img1) = Responds 200 b1 IoOk ->
  sv (S (sent w)) (full_src img2) = Responds 200 b2 IoOk ->
  (download_loop U sv max_images [img1; img2] 0%Z w).1 = 2%Z /\
  files (download_loop U sv max_images [img1; img2] 0%Z w).2
  = <[os_path_join DOWNLOAD_FOLDER (clean_filename U ((c :: title) ++ py ".jpg"))
      := b2]> (files w).
Proof.
  intros Hmax Hsrc1 Hsrc2 Halt1 Halt2 Hb1 Hb2.
  cbn [download_loop]. unfold loop_body, download_tag.
  rewrite Hsrc1, Halt1. cbn [negb py_or].
  destruct (Z.geb_spec 0 max_images) as [Hge|_]; [lia|].
  destruct (download_image_first_try sv (full_src img1) DOWNLOAD_FOLDER
              (clean_filename U ((c :: title) ++ py ".jpg")) w b1 Hb1)
    as (w1 & -> & Hsent1 & Hfiles1).
  rewrite Hsrc2, Halt2. cbn [negb py_or].
  destruct (Z.geb_spec (0 + 1) max_images) as [Hge|_]; [lia|].
  rewrite <- Hsent1 in Hb2.
  destruct (download_image_first_try sv (full_src img2) DOWNLOAD_FOLDER
              (clean_filename U ((c :: title) ++ py ".jpg")) w1 b2 Hb2)
    as (w2 & -> & Hsent2 & Hfiles2).
  cbn [fst snd]. split; [reflexivity|].
  rewrite Hfiles2, Hfiles1. apply insert_insert_eq.
Qed.

(** X13: over a whole call of [download_image], which failures the
    attempts meet makes no difference beyond the log: with two servers
    whose answers are the same or, where they differ, both failures
    met before the destination is opened, the two calls return the
    same value and leave the same files, the same number of requests
    and the same effects other than log lines. *)
Theorem download_image_ignores_failure_class (sv1 sv2 : server)
  (url folder filename : str) (w : world) :
  (forall i, sv1 i url = sv2 i url \/
             (fails_before_writing (sv1 i url) = true /\
              fails_before_writing (sv2 i url) = true)) ->
  (download_image sv1 url folder filename w).1
  = (download_image sv2 url folder filename w).1 /\
  alike (download_image sv1 url folder filename w).2
        (download_image sv2 url folder filename w).2.
Proof.
  intros Hsv. apply download_attempts_alike; [repeat split|exact Hsv].
Qed.

Lemma download_image_ignores_failure_class_witness :
  (forall i, sv_404_404_200 i some_url = sv_timeout_refused_200 i some_url \/
             (fails_before_writing (sv_404_404_200 i some_url) = true /\
              fails_before_writing (sv_timeout_refused_200 i some_url) = true)) /\
  (download_image sv_404_404_200 some_url DOWNLOAD_FOLDER (py "car.jpg") world0).1
  = (download_image sv_timeout_refused_200 some_url DOWNLOAD_FOLDER (py "car.jpg")
       world0).1 /\
  alike (download_image sv_404_404_200 some_url DOWNLOAD_FOLDER (py "car.jpg")
           world0).2
        (download_image sv_timeout_refused_200 some_url DOWNLOAD_FOLDER
           (py "car.jpg") world0).2.
Proof.
  assert (H : forall i,
             sv_404_404_200 i some_url = sv_timeout_refused_200 i some_url \/
             (fails_before_writing (sv_404_404_200 i some_url) = true /\
              fails_before_writing (sv_timeout_refused_200 i some_url) = true)).
  { intros [|[|i]]; [right; split; reflexivity..|left; reflexivity]. }
  split; [exact H|].
  exact (download_image_ignores_failure_class sv_404_404_200
           sv_timeout_refused_200 some_url DOWNLOAD_FOLDER (py "car.jpg") world0 H).
Defined.

Lemma same_alt_overwrites_witness :
  (2 <= 5)%Z /\
  has_http_src tag_car = true /\
  has_http_src tag_car_again = true /\
  alt tag_car = Some (py "Red Car!! 2024") /\
  alt tag_car_again = Some (py "Red Car!! 2024") /\
  sv_ok (sent world0) (full_src tag_car) = Responds 200 jpg IoOk /\
  sv_ok (S (sent world0)) (full_src tag_car_again) = Responds 200 jpg IoOk /\
  (download_loop py_ucd sv_ok 5 [tag_car; tag_car_again] 0%Z world0).1 = 2%Z /\
  files (download_loop py_ucd sv_ok 5 [tag_car; tag_car_again] 0%Z world0).2
  = <[py "lummi_images/red_car_2024.jpg" := jpg]> (files world0).
Proof.
  assert (H1 : (2 <= 5)%Z) by lia.
  split; [exact H1|]. do 6 (split; [reflexivity|]).
  exact (same_alt_overwrites py_ucd sv_ok 5 tag_car tag_car_again world0
           0x52%N (py "ed Car!! 2024") jpg jpg H1 eq_refl eq_refl eq_refl eq_refl
           eq_refl eq_refl).
Defined.

(** ** Names made from the counter *)

Lemma py_injective (s t : string) : py s = py t -> s = t.
Proof.
  unfold py. intros H.
  rewrite <- (string_of_list_ascii_of_string s), <- (string_of_list_ascii_of_string t).
  f_equal. revert H.
  generalize (list_ascii_of_string s) (list_ascii_of_string t).
  induction l as [|a l IH]; intros [|b l'] H; try discriminate; [reflexivity|].
  simpl in H. injection H as Hab Hl. f_equal; [|now apply IH].
  rewrite <- (ascii_N_embedding a), <- (ascii_N_embedding b). now rewrite Hab.
Qed.

Lemma to_int_is_normal (z : Z) :
  Z.to_int z <> Decimal.Pos Decimal.Nil /\ Z.to_int z <> Decimal.Neg Decimal.Nil.
Proof.
  assert (E : Z.to_int z = Decimal.norm (Z.to_int z)).
  { rewrite <- DecimalZ.to_of. now rewrite DecimalZ.of_to. }
  rewrite E. unfold Decimal.norm, Decimal.unorm.
  destruct (Z.to_int z) as [d|d]; destruct (Decimal.nzhead d);
    split; discriminate.
Qed.

Lemma str_of_int_injective (z1 z2 : Z) : str_of_int z1 = str_of_int z2 -> z1 = z2.
Proof.
  unfold str_of_int. intros H. apply py_injective in H.
  destruct (to_int_is_normal z1) as [Hp1 Hn1].
  destruct (to_int_is_normal z2) as [Hp2 Hn2].
  pose proof (NilZero.isi _ Hp1 Hn1) as H1.
  pose proof (NilZero.isi _ Hp2 Hn2) as H2.
  rewrite H, H2 in H1. injection H1 as H1.
  rewrite <- (DecimalZ.of_to z1), <- (DecimalZ.of_to z2). now rewrite H1.
Qed.

Lemma digits_of_uint (d : Decimal.uint) :
  Forall (fun c => in_range 0x30 0x39 c = true) (py (NilEmpty.string_of_uint d)).
Proof. induction d; simpl; constructor; auto. Qed.

Lemma digits_of_counter (z : Z) :
  (0 <= z)%Z -> Forall (fun c => in_range 0x30 0x39 c = true) (str_of_int z).
Proof.
  intros Hz. unfold str_of_int. destruct z as [|p|p]; [repeat constructor| |lia].
  simpl. unfold NilZero.string_of_uint.
  destruct (Pos.to_uint p) eqn:E; try apply digits_of_uint.
  repeat constructor.
Qed.

Lemma clean_filename_of_plain (U : unicode_db) (s : str) :
  Forall (fun c => tolower U c = [c] /\ kept U c = true /\
                   c <> SPACE /\ c <> CAPITAL_SIGMA) s ->
  length s <= 50 ->
  clean_filename U s = s.
Proof.
  intros Hs Hlen. unfold clean_filename, re_sub_strip, lower.
  rewrite replace_char_without.
  2:{ eapply List.Forall_impl; [|exact Hs]. now intros c (_ & _ & Hc & _). }
  rewrite lower_from_fixed.
  2:{ eapply List.Forall_impl; [|exact Hs]. now intros c (Hc & _ & _ & Hs'); split. }
  rewrite filter_all.
  2:{ eapply List.Forall_impl; [|exact Hs]. now intros c (_ & Hc & _). }
  now apply firstn_all2.
Qed.

(** X14: for a character table in which the digits, the letters a to
    z, the underscore and the dot are kept by the pattern and
    unchanged by lowercasing, the names given to images without [alt]
    text, "image_<count>.jpg", differ when the counts differ (counts of
    at most 40 digits, which the cut at 50 leaves whole). *)
Theorem untitled_names_differ (U : unicode_db) (d1 d2 : Z) :
  (forall c, in_range 0x30 0x39 c || in_range 0x61 0x7A c
             || (c =? UNDERSCORE)%N || (c =? DOT)%N = true ->
             tolower U c = [c] /\ kept U c = true) ->
  (0 <= d1)%Z -> (0 <= d2)%Z -> d1 <> d2 ->
  length (str_of_int d1) <= 40 -> length (str_of_int d2) <= 40 ->
  clean_filename U ((py "image_" ++ str_of_int d1) ++ py ".jpg")
  <> clean_filename U ((py "image_" ++ str_of_int d2) ++ py ".jpg").
Proof.
  intros HU H1 H2 Hne Hl1 Hl2.
  assert (Hplain : forall d, (0 <= d)%Z ->
            Forall (fun c => tolower U c = [c] /\ kept U c = true /\
                             c <> SPACE /\ c <> CAPITAL_SIGMA)
                   ((py "image_" ++ str_of_int d) ++ py ".jpg")).
  { intros d Hd.
    assert (Hclass : Forall (fun c => in_range 0x30 0x39 c || in_range 0x61 0x7A c
                                      || (c =? UNDERSCORE)%N || (c =? DOT)%N = true)
                            ((py "image_" ++ str_of_int d) ++ py ".jpg")).
    { apply List.Forall_app; split; [apply List.Forall_app; split|].
      - repeat constructor.
      - eapply List.Forall_impl; [|exact (digits_of_counter d Hd)].
        intros c Hc. now rewrite Hc.
      - repeat constructor. }
    eapply List.Forall_impl; [|exact Hclass]. intros c Hc.
    destruct (HU c Hc) as [Hlow Hkept]. repeat split; auto.
    - intros ->. discriminate Hc.
    - intros ->. discriminate Hc. }
  rewrite !clean_filename_of_plain;
    [|apply Hplain; assumption|rewrite !length_app; simpl; lia
     |apply Hplain; assumption|rewrite !length_app; simpl; lia].
  intros Heq. apply app_inv_tail, app_inv_head in Heq.
  apply Hne. now apply str_of_int_injective.
Qed.

Lemma untitled_names_differ_witness :
  (forall c, in_range 0x30 0x39 c || in_range 0x61 0x7A c
             || (c =? UNDERSCORE)%N || (c =? DOT)%N = true ->
             tolower py_ucd c = [c] /\ kept py_ucd c = true) /\
  (0 <= 0)%Z /\ (0 <= 1)%Z /\ 0%Z <> 1%Z /\
  length (str_of_int 0) <= 40 /\ length (str_of_int 1) <= 40 /\
  clean_filename py_ucd ((py "image_" ++ str_of_int 0) ++ py ".jpg")
  <> clean_filename py_ucd ((py "image_" ++ str_of_int 1) ++ py ".jpg").
Proof.
  assert (HU : forall c, in_range 0x30 0x39 c || in_range 0x61 0x7A c
                         || (c =? UNDERSCORE)%N || (c =? DOT)%N = true ->
                         tolower py_ucd c = [c] /\ kept py_ucd c = true).
  { intros c Hc. split.
    - destruct (py_tolower_cases c) as [[E R]|[E R]]; [|exact E].
      unfold UNDERSCORE, DOT in Hc. ranges; lia.
    - unfold kept, is_word. simpl. unfold py_isalnum, UNDERSCORE, DOT in *.
      apply orb_true_iff in Hc as [Hc|Hc]; [|now rewrite Hc, !orb_true_r].
      apply orb_true_iff in Hc as [Hc|Hc]; [|now rewrite Hc, !orb_true_r].
      apply orb_true_iff in Hc as [Hc|Hc]; now rewrite Hc, ?orb_true_r. }
  assert (H1 : (0 <= 0)%Z) by lia. assert (H2 : (0 <= 1)%Z) by lia.
  assert (H3 : 0%Z <> 1%Z) by lia.
  assert (H4 : length (str_of_int 0) <= 40) by (simpl; lia).
  assert (H5 : length (str_of_int 1) <= 40) by (simpl; lia).
  split; [exact HU|]. split; [exact H1|]. split; [exact H2|].
  split; [exact H3|]. split; [exact H4|]. split; [exact H5|].
  exact (untitled_names_differ py_ucd 0 1 HU H1 H2 H3 H4 H5).
Defined.

(** ** [setup_driver], [main] and the script *)

Lemma str_eqb_eq (a b : str) : str_eqb a b = true <-> a = b.
Proof.
  revert b. induction a as [|x a IH]; intros [|y b]; simpl;
    try (split; [discriminate|discriminate]); [tauto|].
  rewrite andb_true_iff, N.eqb_eq, IH. split.
  - intros [-> ->]. reflexivity.
  - intros H. injection H as -> ->. auto.
Qed.

Lemma adds_ret (P : program_event -> Prop) {A} (a : A) : adds P (ret a).
Proof.
  intros ex r ex' H. injection H as <- <-. exists []. now rewrite app_nil_r.
Qed.

Lemma adds_raise (P : program_event -> Prop) {A} (e : str) : adds P (@raise A e).
Proof.
  intros ex r ex' H. injection H as <- <-. exists []. now rewrite app_nil_r.
Qed.

Lemma adds_bind (P : program_event -> Prop) {A B} (m : step A) (k : A -> step B) :
  adds P m -> (forall a, adds P (k a)) -> adds P (bind m k).
Proof.
  intros Hm Hk ex r ex' H. unfold bind in H.
  destruct (m ex) as [[a|e|] ex1] eqn:E; apply Hm in E as (evs & Hs & HP).
  - apply Hk in H as (evs' & Hs' & HP'). exists (evs ++ evs').
    rewrite Hs', Hs, app_assoc. split; [reflexivity|]. now apply List.Forall_app.
  - injection H as <- <-. eauto.
  - injection H as <- <-. eauto.
Qed.

Lemma adds_note (P : program_event -> Prop) (ev : program_event) :
  P ev -> adds P (note ev).
Proof.
  intros HP ex r ex' H. injection H as <- <-. exists [ev]. unfold story. simpl.
  rewrite List.map_app. split; [reflexivity|]. now constructor.
Qed.

Lemma adds_call (P : program_event -> Prop) (env : environment) (c : driver_call) :
  P (Driver c) -> adds P (call env c).
Proof.
  intros HP ex r ex' H. unfold call in H. exists [Driver c].
  split; [|now constructor].
  destruct (driver_raises env (driver_calls ex)); injection H as <- <-;
    unfold story; simpl; now rewrite List.map_app.
Qed.

Lemma adds_on_world (P : program_event -> Prop) (f : world -> world) :
  adds P (on_world f).
Proof.
  intros ex r ex' H. injection H as <- <-. exists []. now rewrite app_nil_r.
Qed.

Lemma adds_try_except (P : program_event -> Prop) {A} (body : step A)
  (handler : str -> step A) :
  adds P body -> (forall e, adds P (handler e)) -> adds P (try_except body handler).
Proof.
  intros Hb Hh ex r ex' H. unfold try_except in H.
  destruct (body ex) as [[a|e|] ex1] eqn:E; apply Hb in E as (evs & Hs & HP).
  - injection H as <- <-. eauto.
  - apply Hh in H as (evs' & Hs' & HP'). exists (evs ++ evs').
    rewrite Hs', Hs, app_assoc. split; [reflexivity|]. now apply List.Forall_app.
  - injection H as <- <-. eauto.
Qed.

Lemma adds_measure (P : program_event -> Prop) (env : environment) :
  P (Driver (ExecuteScript HEIGHT_SCRIPT)) -> adds P (measure env).
Proof.
  intros HP. unfold measure. apply adds_bind; [now apply adds_call|].
  intros _ ex r ex' H. injection H as <- <-. exists []. now rewrite app_nil_r.
Qed.

Lemma adds_scroll (P : program_event -> Prop) (env : environment) (fuel : nat) :
  (forall script, P (Driver (ExecuteScript script))) -> adds P (scroll fuel env).
Proof.
  intros HP. unfold scroll. apply adds_bind; [now apply adds_measure|].
  intros last_height. apply adds_bind; [|intros; apply adds_on_world].
  revert last_height. induction fuel as [|fuel IH]; intros last_height; simpl.
  - intros ex r ex' H. injection H as <- <-. exists []. now rewrite app_nil_r.
  - apply adds_bind; [now apply adds_call|]. intros _.
    apply adds_bind; [apply adds_on_world|]. intros _.
    apply adds_bind; [apply adds_on_world|]. intros _.
    apply adds_bind; [now apply adds_measure|]. intros new_height.
    destruct (new_height =? last_height)%Z; [apply adds_ret|apply IH].
Qed.

Lemma adds_search (P : program_event -> Prop) (env : environment) (prompt : str) :
  (forall c, c <> DriverQuit -> P (Driver c)) ->
  (forall lv message, P (Logged lv message)) ->
  adds P (search env prompt).
Proof.
  intros Hc Hl. unfold search, logging. apply adds_try_except.
  - repeat (apply adds_bind; [|intros _]);
      first [apply adds_call; apply Hc; discriminate
            |apply adds_note; apply Hl
            |apply adds_on_world
            |apply adds_ret].
  - intros e. repeat (apply adds_bind; [|intros _]);
      first [apply adds_note; apply Hl|apply adds_on_world|apply adds_ret].
Qed.

Lemma try_of_main_has_no_ending (U : unicode_db) (env : environment) (fuel : nat)
  (prompt : str) (max_images : Z) :
  adds not_an_ending (try_of_main U env fuel prompt max_images).
Proof.
  assert (Hc : forall c, c <> DriverQuit -> not_an_ending (Driver c))
    by (intros c Hc; split; congruence).
  assert (Hl : forall lv message, not_an_ending (Logged lv message))
    by (intros; split; discriminate).
  unfold try_of_main, logging.
  apply adds_bind; [apply adds_call, Hc; discriminate|]. intros _.
  apply adds_bind; [apply adds_note, Hl|]. intros _.
  apply adds_bind; [apply adds_on_world|]. intros _.
  apply adds_bind; [now apply adds_search|]. intros [|]; [|apply adds_ret].
  apply adds_bind; [apply adds_scroll; intros; apply Hc; discriminate|]. intros _.
  apply adds_bind; [apply adds_call, Hc; discriminate|]. intros _.
  apply adds_on_world.
Qed.

(** How a run gets to the [try] of [main], or fails to. *)
Lemma main_from_boot (U : unicode_db) (env : environment) (fuel : nat) (w : world) :
  (exists e ex',
     main U env fuel (boot env w) = (Raise e, ex') /\
     outside ex' = w /\ driver_calls ex' = 0 /\
     Forall (fun ev => not_an_ending ev /\ forall c, ev <> Driver c) (story ex')) \/
  (exists e rest kind arguments,
     driver_raises env 0 = Some e /\
     main U env fuel (boot env w) = (Raise e, at_try w rest kind arguments)) \/
  (exists prompt max_answer browser_answer rest kind arguments max_images,
     stdin env = prompt :: max_answer :: browser_answer :: rest /\
     driver_raises env 0 = None /\
     match max_answer with
     | [] => max_images = MAX_IMAGES
     | _ :: _ => int_of env max_answer = inl max_images
     end /\
     main U env fuel (boot env w)
     = try_finally (try_of_main U env fuel prompt max_images) (finally_of_main env)
         (at_try w rest kind arguments)).
Proof.
  assert (Hev : forall evs : list program_event,
             Forall (fun ev => match ev with
                               | Asked _ | MakeDirs _ | NewSession _ => True
                               | _ => False
                               end) evs ->
             Forall (fun ev => not_an_ending ev /\ forall c, ev <> Driver c) evs).
  { intros evs H. eapply List.Forall_impl; [|exact H].
    intros [q|p|u|c|lv m|] HP; try contradiction;
      repeat split; intros; discriminate. }
  unfold main, boot, read_max_images, input, makedirs, setup_driver, call, bind,
    note, ret, raise. simpl.
  destruct (stdin env) as [|prompt [|max_answer [|browser_answer rest]]] eqn:Hin;
    simpl; [left..|].
  1-3: try (destruct max_answer as [|c s]; simpl;
            [|destruct (int_of env (c :: s)) as [z|e]; simpl]);
       do 2 eexists; (split; [reflexivity|]); repeat split;
       apply Hev; repeat constructor.
  destruct max_answer as [|c s];
    repeat (first
      [ progress simpl
      | match goal with
        | |- context [int_of env ?x] => destruct (int_of env x) eqn:?
        | |- context [makedirs_raises env] => destruct (makedirs_raises env) eqn:?
        | |- context [str_eqb ?a ?b] => destruct (str_eqb a b) eqn:?
        | |- context [driver_raises env 0] => destruct (driver_raises env 0) eqn:?
        end ]);
    first
      [ left; do 2 eexists; (split; [reflexivity|]); repeat split;
        apply Hev; repeat constructor
      | right; left; do 4 eexists; split; first [eassumption|reflexivity]
      | right; right; do 7 eexists; split; [reflexivity|];
        split; [first [eassumption|reflexivity]|];
        split; first [eassumption|reflexivity] ].
Qed.

Lemma story_at_try (w : world) (rest : list str) (kind : browser_kind)
  (arguments : list str) :
  story (at_try w rest kind arguments)
  = [Asked (py "Enter your search prompt: ");
     Asked (py "Enter max number of images to download (default 50): ");
     Asked (py "Enter browser (chrome/firefox, default chrome): ");
     MakeDirs DOWNLOAD_FOLDER;
     NewSession USER_AGENT;
     Driver (StartDriver kind arguments)].
Proof. reflexivity. Qed.

Lemma at_try_has_no_ending (w : world) (rest : list str) (kind : browser_kind)
  (arguments : list str) :
  Forall not_an_ending (story (at_try w rest kind arguments)).
Proof. rewrite story_at_try. repeat constructor; discriminate. Qed.

(** What the [finally] of [main] adds to a run that ended. *)
Lemma finally_of_main_runs (env : environment) (ex : execution) :
  match driver_raises env (driver_calls ex) with
  | None => (finally_of_main env ex).1 = Ok tt /\
            story (finally_of_main env ex).2 = story ex ++ [Driver DriverQuit; SessionClose]
  | Some e => (finally_of_main env ex).1 = Raise e /\
              story (finally_of_main env ex).2 = story ex ++ [Driver DriverQuit]
  end /\
  driver_calls (finally_of_main env ex).2 = S (driver_calls ex) /\
  outside (finally_of_main env ex).2 = outside ex.
Proof.
  unfold finally_of_main, bind, call, note, story.
  destruct (driver_raises env (driver_calls ex)); simpl;
    rewrite !List.map_app, <- ?app_assoc; auto.
Qed.

Lemma try_finally_of_main (U : unicode_db) (env : environment) (fuel : nat)
  (prompt : str) (max_images : Z) (ex ex' : execution) (r : result unit) :
  try_finally (try_of_main U env fuel prompt max_images) (finally_of_main env) ex
  = (r, ex') ->
  exists evs,
    Forall not_an_ending evs /\
    match r with
    | Running => story ex' = story ex ++ evs
    | _ =>
        0 < driver_calls ex' /\
        match driver_raises env (driver_calls ex' - 1) with
        | None =>
            story ex' = story ex ++ evs ++ [Driver DriverQuit; SessionClose] /\
            (try_of_main U env fuel prompt max_images ex).1 = r
        | Some e =>
            story ex' = story ex ++ evs ++ [Driver DriverQuit] /\ r = Raise e
        end
    end.
Proof.
  unfold try_finally. intros H.
  destruct (try_of_main U env fuel prompt max_images ex) as [ending ex1] eqn:Hbody.
  destruct (try_of_main_has_no_ending U env fuel prompt max_images ex ending ex1 Hbody)
    as (evs & Hstory & Hevs).
  exists evs. split; [exact Hevs|].
  destruct (finally_of_main_runs env ex1) as (Hfin & Hcalls & _).
  destruct (finally_of_main env ex1) as [rf ex2] eqn:Hf. cbn [fst snd] in *.
  assert (Hidx : driver_calls ex2 - 1 = driver_calls ex1) by lia.
  destruct ending as [[]|e|].
  - destruct (driver_raises env (driver_calls ex1)) as [e'|] eqn:Hq;
      destruct Hfin as [-> Hs]; injection H as <- <-;
      (split; [lia|]); rewrite Hidx, Hq, Hs, Hstory, <- app_assoc; auto.
  - destruct (driver_raises env (driver_calls ex1)) as [e'|] eqn:Hq;
      destruct Hfin as [-> Hs]; injection H as <- <-;
      (split; [lia|]); rewrite Hidx, Hq, Hs, Hstory, <- app_assoc; auto.
  - injection H as <- <-. exact Hstory.
Qed.

(** X15: once the browser has been started, [main] cannot end without
    quitting it: whether its [try] ends normally, returns early or
    raises, the last driver call is [quit], made once, and the session
    is closed right after it, unless [quit] itself raises; then the
    session stays open and the exception of [quit] is the one that
    [main] raises. *)
Theorem main_quits_the_browser (U : unicode_db) (env : environment) (fuel : nat)
  (w : world) (r : result unit) (ex' : execution) (kind : browser_kind)
  (arguments : list str) :
  main U env fuel (boot env w) = (r, ex') ->
  r <> Running ->
  driver_raises env 0 = None ->
  In (Driver (StartDriver kind arguments)) (story ex') ->
  exists before,
    Forall not_an_ending before /\
    match driver_raises env (driver_calls ex' - 1) with
    | None => story ex' = before ++ [Driver DriverQuit; SessionClose]
    | Some e => story ex' = before ++ [Driver DriverQuit] /\ r = Raise e
    end.
Proof.
  intros Hrun Hend Hstart Hin.
  destruct (main_from_boot U env fuel w) as
    [(e & ex1 & Hmain & _ & _ & Hev)
    |[(e & rest & k & a & Hraise & _)
     |(prompt & ma & ba & rest & k & a & mx & _ & _ & _ & Hmain)]].
  - rewrite Hmain in Hrun. injection Hrun as <- <-.
    rewrite List.Forall_forall in Hev. apply Hev in Hin as [_ Hin].
    exfalso. eapply Hin. reflexivity.
  - congruence.
  - rewrite Hmain in Hrun.
    apply try_finally_of_main in Hrun as (evs & Hevs & Hr).
    exists (story (at_try w rest k a) ++ evs).
    split; [apply List.Forall_app; split; [apply at_try_has_no_ending|exact Hevs]|].
    destruct r as [[]|e|]; [| |contradiction];
      destruct Hr as [_ Hr];
      destruct (driver_raises env (driver_calls ex' - 1));
      destruct Hr as [Hs Hr]; rewrite Hs, <- ?app_assoc; auto.
Qed.

Lemma main_quits_the_browser_witness :
  main py_ucd env_window_lost 5 (boot env_window_lost world0)
  = ((main py_ucd env_window_lost 5 (boot env_window_lost world0)).1,
     (main py_ucd env_window_lost 5 (boot env_window_lost world0)).2) /\
  (main py_ucd env_window_lost 5 (boot env_window_lost world0)).1 <> Running /\
  driver_raises env_window_lost 0 = None /\
  In (Driver (StartDriver Chrome HEADLESS_CHROME))
     (story (main py_ucd env_window_lost 5 (boot env_window_lost world0)).2) /\
  exists before,
    Forall not_an_ending before /\
    match driver_raises env_window_lost
            (driver_calls (main py_ucd env_window_lost 5
                             (boot env_window_lost world0)).2 - 1) with
    | None => story (main py_ucd env_window_lost 5 (boot env_window_lost world0)).2
              = before ++ [Driver DriverQuit; SessionClose]
    | Some e => story (main py_ucd env_window_lost 5 (boot env_window_lost world0)).2
                = before ++ [Driver DriverQuit] /\
                (main py_ucd env_window_lost 5 (boot env_window_lost world0)).1
                = Raise e
    end.
Proof.
  assert (H0 : main py_ucd env_window_lost 5 (boot env_window_lost world0)
               = ((main py_ucd env_window_lost 5 (boot env_window_lost world0)).1,
                  (main py_ucd env_window_lost 5 (boot env_window_lost world0)).2))
    by (destruct (main py_ucd env_window_lost 5 (boot env_window_lost world0));
        reflexivity).
  assert (H1 : (main py_ucd env_window_lost 5 (boot env_window_lost world0)).1
               <> Running) by (vm_compute; discriminate).
  assert (H2 : driver_raises env_window_lost 0 = None) by reflexivity.
  assert (H3 : In (Driver (StartDriver Chrome HEADLESS_CHROME))
                 (story (main py_ucd env_window_lost 5
                           (boot env_window_lost world0)).2))
    by (vm_compute; tauto).
  split; [exact H0|]. split; [exact H1|]. split; [exact H2|]. split; [exact H3|].
  exact (main_quits_the_browser py_ucd env_window_lost 5 world0 _ _ Chrome
           HEADLESS_CHROME H0 H1 H2 H3).
Defined.

Lemma adds_try_finally (P : program_event -> Prop) {A} (body : step A)
  (final : step unit) :
  adds P body -> adds P final -> adds P (try_finally body final).
Proof.
  intros Hb Hf ex r ex' H. unfold try_finally in H.
  destruct (body ex) as [ending ex1] eqn:E. apply Hb in E as (evs & Hs & HP).
  assert (Hthen : forall r' ex2, final ex1 = (r', ex2) ->
            exists evs', story ex2 = story ex ++ evs' /\ Forall P evs').
  { intros r' ex2 Hfin. apply Hf in Hfin as (evs' & Hs' & HP').
    exists (evs ++ evs'). rewrite Hs', Hs, app_assoc.
    split; [reflexivity|]. now apply List.Forall_app. }
  destruct ending as [a|e|]; [| |injection H as <- <-; eauto];
    destruct (final ex1) as [[[]|e'|] ex2] eqn:Hfin;
    injection H as <- <-; eapply Hthen; reflexivity.
Qed.

(** X16: when the browser is not started (its name is not supported,
    or starting it raises), [main] raises with the session that it
    opened still open: nothing is quit and nothing is closed, and the
    world is as it was. *)
Theorem main_leaves_session_open (U : unicode_db) (env : environment) (fuel : nat)
  (w : world) (r : result unit) (ex' : execution) :
  main U env fuel (boot env w) = (r, ex') ->
  In (NewSession USER_AGENT) (story ex') ->
  (forall kind arguments, ~ In (Driver (StartDriver kind arguments)) (story ex')) \/
  driver_raises env 0 <> None ->
  (exists e, r = Raise e) /\
  ~ In SessionClose (story ex') /\
  ~ In (Driver DriverQuit) (story ex') /\
  outside ex' = w.
Proof.
  intros Hrun Hsession Hnot.
  destruct (main_from_boot U env fuel w) as
    [(e & ex1 & Hmain & Hw & _ & Hev)
    |[(e & rest & k & a & Hraise & Hmain)
     |(prompt & ma & ba & rest & k & a & mx & _ & Hstart & _ & Hmain)]];
    rewrite Hmain in Hrun.
  - injection Hrun as <- <-. split; [eauto|].
    rewrite List.Forall_forall in Hev.
    repeat split; [intros Hin|intros Hin|exact Hw];
      apply Hev in Hin as [[H1 H2] _]; congruence.
  - injection Hrun as <- <-. split; [eauto|].
    pose proof (at_try_has_no_ending w rest k a) as Hev.
    rewrite List.Forall_forall in Hev.
    repeat split; [intros Hin|intros Hin];
      apply Hev in Hin as [H1 H2]; congruence.
  - exfalso. destruct Hnot as [Hnot|Hnot]; [|contradiction].
    assert (Hadds : adds (fun _ => True)
                      (try_finally (try_of_main U env fuel prompt mx)
                         (finally_of_main env))).
    { apply adds_try_finally.
      - intros ex0 r0 ex1 H0.
        apply try_of_main_has_no_ending in H0 as (evs & Hs & _).
        exists evs. split; [exact Hs|]. apply List.Forall_forall. auto.
      - unfold finally_of_main. apply adds_bind; [now apply adds_call|].
        intros _. now apply adds_note. }
    apply Hadds in Hrun as (evs & Hs & _).
    apply (Hnot k a). rewrite Hs, story_at_try. apply in_or_app. left.
    simpl. auto 10.
Qed.

Lemma main_leaves_session_open_witness :
  main py_ucd env_safari 5 (boot env_safari world0)
  = ((main py_ucd env_safari 5 (boot env_safari world0)).1,
     (main py_ucd env_safari 5 (boot env_safari world0)).2) /\
  In (NewSession USER_AGENT)
     (story (main py_ucd env_safari 5 (boot env_safari world0)).2) /\
  (forall kind arguments,
     ~ In (Driver (StartDriver kind arguments))
          (story (main py_ucd env_safari 5 (boot env_safari world0)).2)) /\
  (exists e, (main py_ucd env_safari 5 (boot env_safari world0)).1 = Raise e) /\
  ~ In SessionClose (story (main py_ucd env_safari 5 (boot env_safari world0)).2) /\
  ~ In (Driver DriverQuit)
       (story (main py_ucd env_safari 5 (boot env_safari world0)).2) /\
  outside (main py_ucd env_safari 5 (boot env_safari world0)).2 = world0.
Proof.
  assert (H0 : main py_ucd env_safari 5 (boot env_safari world0)
               = ((main py_ucd env_safari 5 (boot env_safari world0)).1,
                  (main py_ucd env_safari 5 (boot env_safari world0)).2))
    by (destruct (main py_ucd env_safari 5 (boot env_safari world0)); reflexivity).
  assert (H1 : In (NewSession USER_AGENT)
                 (story (main py_ucd env_safari 5 (boot env_safari world0)).2))
    by (vm_compute; tauto).
  assert (H2 : forall kind arguments,
             ~ In (Driver (StartDriver kind arguments))
                  (story (main py_ucd env_safari 5 (boot env_safari world0)).2))
    by (intros kind arguments; vm_compute; intuition discriminate).
  split; [exact H0|]. split; [exact H1|]. split; [exact H2|].
  exact (main_leaves_session_open py_ucd env_safari 5 world0 _ _ H0 H1
           (or_introl H2)).
Defined.

(** *** Runs in which no driver call raises *)

Section NoRaise.

Context (env : environment).
Hypothesis never_raises : forall i, driver_raises env i = None.

Ltac run_on :=
  repeat (cbv beta iota zeta delta
            [bind call out on_world measure ret note logging try_except
             outside driver_calls journal unread];
          rewrite ?never_raises).

Lemma scroll_turns_without_raise (fuel : nat) :
  forall (last_height : Z) (ex : execution),
  exists ex2 scripts,
    scroll_turns fuel env last_height ex
    = (match scroll_loop fuel (heights env) last_height (outside ex) with
       | Some _ => Ok tt
       | None => Running
       end, ex2) /\
    (forall w2, scroll_loop fuel (heights env) last_height (outside ex) = Some w2 ->
                outside ex2 = w2) /\
    story ex2 = story ex ++ List.map (fun s => Driver (ExecuteScript s)) scripts.
Proof.
  induction fuel as [|fuel IH]; intros last_height ex.
  - exists ex, []. simpl. rewrite app_nil_r. repeat split. discriminate.
  - cbn [scroll_turns scroll_loop].
    run_on. unfold read_height. cbn [emit reads effects fst snd].
    run_on. fold (outside ex) (journal ex) (driver_calls ex) (unread ex).
    destruct (heights env (reads (outside ex)) =? last_height)%Z.
    + do 2 eexists. split; [reflexivity|]. split.
      * intros w2 H. injection H as <-. reflexivity.
      * instantiate (1 := [SCROLL_SCRIPT; HEIGHT_SCRIPT]).
        unfold story. cbn [journal].
        rewrite !List.map_app, <- !app_assoc. reflexivity.
    + match goal with
      | |- context [scroll_turns fuel env ?l ?x] =>
          destruct (IH l x) as (ex2 & scripts & Hrun & Hout & Hstory)
      end.
      exists ex2, (SCROLL_SCRIPT :: HEIGHT_SCRIPT :: scripts).
      split; [exact Hrun|]. split; [exact Hout|].
      rewrite Hstory. unfold story. cbn [journal].
      rewrite !List.map_app, <- !app_assoc. reflexivity.
Qed.

Lemma scroll_without_raise (fuel : nat) (ex : execution) :
  exists ex2 scripts,
    scroll fuel env ex
    = (match scroll_to_end fuel (heights env) (outside ex) with
       | Some _ => Ok tt
       | None => Running
       end, ex2) /\
    (forall w2, scroll_to_end fuel (heights env) (outside ex) = Some w2 ->
                outside ex2 = w2) /\
    story ex2 = story ex ++ List.map (fun s => Driver (ExecuteScript s)) scripts.
Proof.
  unfold scroll, scroll_to_end. run_on. unfold read_height.
  cbn [emit reads effects fst snd]. run_on.
  fold (outside ex) (journal ex) (driver_calls ex) (unread ex).
  match goal with
  | |- context [scroll_turns fuel env ?l ?x] =>
      destruct (scroll_turns_without_raise fuel l x)
        as (ex2 & scripts & Hrun & Hout & Hstory)
  end.
  rewrite Hrun. cbn [outside] in Hout |- *.
  match goal with
  | |- context [scroll_loop fuel (heights env) ?l ?x] =>
      destruct (scroll_loop fuel (heights env) l x) as [w2|] eqn:Hloop
  end.
  - do 2 eexists. split; [reflexivity|]. split.
    + intros w3 H. injection H as <-.
      change (emit (Log INFO FinishedScrolling) (outside ex2)
              = emit (Log INFO FinishedScrolling) w2).
      f_equal. exact (Hout w2 eq_refl).
    + instantiate (1 := HEIGHT_SCRIPT :: scripts).
      transitivity (story ex2); [reflexivity|]. rewrite Hstory.
      unfold story. cbn [journal].
      rewrite !List.map_app, <- !app_assoc. reflexivity.
  - exists ex2, (HEIGHT_SCRIPT :: scripts). split; [reflexivity|]. split.
    + discriminate.
    + rewrite Hstory. unfold story. cbn [journal].
      rewrite !List.map_app, <- !app_assoc. reflexivity.
Qed.

End NoRaise.

Lemma driver_story_scripts (scripts : list str) :
  omap (fun ev => match ev with Driver c => Some c | _ => None end)
    (List.map (fun s => Driver (ExecuteScript s)) scripts)
  = List.map ExecuteScript scripts.
Proof.
  induction scripts as [|s scripts IH]; [reflexivity|].
  cbn [List.map omap]. fold (@omap list _). now rewrite <- IH.
Qed.

Ltac run_with H :=
  repeat (cbv beta iota zeta delta
            [bind call out on_world measure ret note logging try_except
             try_finally try_of_main finally_of_main search
             outside driver_calls journal unread];
          rewrite ?H).

(** X17: when no driver call raises and the page settles, the [try] of
    [main] is the scroll loop followed by the download loop: after its
    two waits of 2 and 3 seconds the world is the one that
    [scroll_to_end] and then [download_all] make, the driver has been
    asked for the page, the search, the scripts of the scroll loop and
    the page source, in this order, and the run ends with the driver
    quit and the session closed. *)
Theorem main_scrolls_then_downloads (U : unicode_db) (env : environment)
  (fuel : nat) (prompt : str) (max_images : Z) (ex : execution) (w2 : world) :
  (forall i, driver_raises env i = None) ->
  scroll_to_end fuel (heights env)
    (emit (Sleep 3000) (emit (Sleep 2000) (outside ex))) = Some w2 ->
  exists ex' scripts,
    try_finally (try_of_main U env fuel prompt max_images) (finally_of_main env) ex
    = (Ok tt, ex') /\
    outside ex'
    = (download_all U (answers env) max_images (page_tags env) w2).2 /\
    driver_story ex'
    = driver_story ex
      ++ [DriverGet LUMMI; FindElement SEARCH_BAR; SendKeys prompt; SendReturn]
      ++ List.map ExecuteScript scripts ++ [PageSource; DriverQuit] /\
    last (story ex') = Some SessionClose.
Proof.
  intros Hno Hscroll. run_with Hno.
  fold (outside ex) (journal ex) (driver_calls ex) (unread ex).
  match goal with
  | |- context [scroll fuel env ?x] =>
      destruct (scroll_without_raise env Hno fuel x)
        as (ex2 & scripts & Hrun & Hout & Hstory);
      cbn [outside] in Hrun, Hout
  end.
  rewrite Hscroll in Hrun. specialize (Hout w2 Hscroll). rewrite Hrun.
  run_with Hno. fold (outside ex2) (journal ex2) (driver_calls ex2) (unread ex2).
  rewrite Hout. eexists. exists scripts.
  split; [reflexivity|]. split; [reflexivity|].
  unfold driver_story, story in *. cbn [journal] in *.
  rewrite !List.map_app, Hstory, !List.map_app. cbn [List.map snd].
  split.
  - rewrite !omap_app, driver_story_scripts. cbn [omap list_omap].
    rewrite <- !app_assoc. reflexivity.
  - apply last_snoc.
Qed.

Lemma main_scrolls_then_downloads_witness :
  (forall i, driver_raises env_fine i = None) /\
  exists w2,
    scroll_to_end 5 (heights env_fine)
      (emit (Sleep 3000) (emit (Sleep 2000)
         (outside (at_try world0 [] Chrome HEADLESS_CHROME)))) = Some w2 /\
    exists ex' scripts,
      try_finally (try_of_main py_ucd env_fine 5 (py "red car") 5)
        (finally_of_main env_fine) (at_try world0 [] Chrome HEADLESS_CHROME)
      = (Ok tt, ex') /\
      outside ex'
      = (download_all py_ucd (answers env_fine) 5 (page_tags env_fine) w2).2 /\
      driver_story ex'
      = driver_story (at_try world0 [] Chrome HEADLESS_CHROME)
        ++ [DriverGet LUMMI; FindElement SEARCH_BAR; SendKeys (py "red car");
            SendReturn]
        ++ List.map ExecuteScript scripts ++ [PageSource; DriverQuit] /\
      last (story ex') = Some SessionClose.
Proof.
  assert (H1 : forall i, driver_raises env_fine i = None) by reflexivity.
  split; [exact H1|].
  destruct (scroll_to_end 5 (heights env_fine)
              (emit (Sleep 3000) (emit (Sleep 2000)
                 (outside (at_try world0 [] Chrome HEADLESS_CHROME)))))
    as [w2|] eqn:H2; [|vm_compute in H2; discriminate H2].
  exists w2. split; [reflexivity|].
  exact (main_scrolls_then_downloads py_ucd env_fine 5 (py "red car") 5
           (at_try world0 [] Chrome HEADLESS_CHROME) w2 H1 H2).
Defined.

(** X18: when no driver call raises and the height of the page is
    different at every read, [main] never ends: however many turns the
    scroll loop is given, the run is still scrolling, and the browser
    has not been quit nor the session closed. *)
Theorem main_hangs_on_endless_page (U : unicode_db) (env : environment)
  (fuel : nat) (prompt : str) (max_images : Z) (ex : execution) :
  (forall i, driver_raises env i = None) ->
  (forall i, heights env (reads (outside ex) + S i)
             <> heights env (reads (outside ex) + i)) ->
  exists ex' evs,
    try_finally (try_of_main U env fuel prompt max_images) (finally_of_main env) ex
    = (Running, ex') /\
    story ex' = story ex ++ evs /\ Forall not_an_ending evs.
Proof.
  intros Hno Hnext.
  assert (Hbody : (try_of_main U env fuel prompt max_images ex).1 = Running).
  { run_with Hno.
    fold (outside ex) (journal ex) (driver_calls ex) (unread ex).
    match goal with
    | |- context [scroll fuel env ?x] =>
        destruct (scroll_without_raise env Hno fuel x)
          as (ex2 & scripts & Hrun & _ & _);
        cbn [outside] in Hrun
    end.
    assert (Hnone : scroll_to_end fuel (heights env)
                      (emit (Sleep 3000) (emit (Sleep 2000) (outside ex))) = None).
    { unfold scroll_to_end, read_height. cbn [emit reads].
      rewrite scroll_loop_endless; [reflexivity| |]; cbn [emit reads].
      - specialize (Hnext 0). rewrite Nat.add_0_r in Hnext.
        replace (S (reads (outside ex))) with (reads (outside ex) + 1) by lia.
        exact Hnext.
      - intros i. specialize (Hnext (S i)).
        replace (S (reads (outside ex)) + S i)
          with (reads (outside ex) + S (S i)) by lia.
        replace (S (reads (outside ex)) + i)
          with (reads (outside ex) + S i) by lia.
        exact Hnext. }
    rewrite Hnone in Hrun. rewrite Hrun. reflexivity. }
  destruct (try_finally (try_of_main U env fuel prompt max_images)
              (finally_of_main env) ex) as [r ex'] eqn:Hrun.
  assert (Hr : r = Running).
  { unfold try_finally in Hrun.
    destruct (try_of_main U env fuel prompt max_images ex) as [ending ex1].
    cbn [fst] in Hbody. subst ending. now injection Hrun as <- _. }
  subst r. apply try_finally_of_main in Hrun as (evs & Hevs & Hstory).
  exists ex', evs. auto.
Qed.

Lemma main_hangs_on_endless_page_witness :
  (forall i, driver_raises env_endless i = None) /\
  (forall i,
     heights env_endless
       (reads (outside (at_try world0 [] Chrome HEADLESS_CHROME)) + S i)
     <> heights env_endless
          (reads (outside (at_try world0 [] Chrome HEADLESS_CHROME)) + i)) /\
  exists ex' evs,
    try_finally (try_of_main py_ucd env_endless 1000 (py "red car") 5)
      (finally_of_main env_endless) (at_try world0 [] Chrome HEADLESS_CHROME)
    = (Running, ex') /\
    story ex' = story (at_try world0 [] Chrome HEADLESS_CHROME) ++ evs /\
    Forall not_an_ending evs.
Proof.
  assert (H1 : forall i, driver_raises env_endless i = None) by reflexivity.
  assert (H2 : forall i,
             heights env_endless
               (reads (outside (at_try world0 [] Chrome HEADLESS_CHROME)) + S i)
             <> heights env_endless
                  (reads (outside (at_try world0 [] Chrome HEADLESS_CHROME)) + i))
    by (intros i; unfold env_endless, page_endless; simpl; lia).
  split; [exact H1|]. split; [exact H2|].
  exact (main_hangs_on_endless_page py_ucd env_endless 1000 (py "red car") 5
           (at_try world0 [] Chrome HEADLESS_CHROME) H1 H2).
Defined.

(** X19: when the page is fetched but the search fails (finding the
    search bar, typing the prompt or pressing return raises), [main]
    gives up: it logs the error, prints that the search bar could not
    be found, and goes to its [finally] without scrolling, reading the
    page or requesting an image; the world has only slept 2 seconds
    and printed that line, and the run ends normally unless [quit]
    raises. *)
Theorem main_gives_up_without_search (U : unicode_db) (env : environment)
  (fuel : nat) (prompt : str) (max_images : Z) (ex : execution) (j : nat)
  (e : str) :
  driver_raises env (driver_calls ex) = None ->
  j < 3 ->
  (forall i, i < j -> driver_raises env (i + S (driver_calls ex)) = None) ->
  driver_raises env (j + S (driver_calls ex)) = Some e ->
  exists ex',
    try_finally (try_of_main U env fuel prompt max_images) (finally_of_main env) ex
    = (match driver_raises env (S j + S (driver_calls ex)) with
       | None => Ok tt
       | Some e' => Raise e'
       end, ex') /\
    outside ex' = emit (Print NO_SEARCH_BAR) (emit (Sleep 2000) (outside ex)) /\
    driver_story ex'
    = driver_story ex
      ++ DriverGet LUMMI
         :: firstn (S j) [FindElement SEARCH_BAR; SendKeys prompt; SendReturn]
      ++ [DriverQuit] /\
    In (Logged ERROR (py "Search bar error: " ++ e)) (story ex').
Proof.
  intros Hget Hj Hbefore Hraise.
  assert (H0 : 0 < j -> driver_raises env (S (driver_calls ex)) = None)
    by (intros H; exact (Hbefore 0 H)).
  assert (H1 : 1 < j -> driver_raises env (S (S (driver_calls ex))) = None)
    by (intros H; exact (Hbefore 1 H)).
  assert (Hfind : j = 0 -> driver_raises env (S (driver_calls ex)) = Some e)
    by (intros ->; exact Hraise).
  assert (Hkeys : j = 1 -> driver_raises env (S (S (driver_calls ex))) = Some e)
    by (intros ->; exact Hraise).
  assert (Hret : j = 2 -> driver_raises env (S (S (S (driver_calls ex)))) = Some e)
    by (intros ->; exact Hraise).
  clear Hbefore Hraise.
  destruct j as [|[|[|j]]]; [| | |lia];
    repeat match goal with
           | H : ?a < ?b -> _ |- _ =>
               first [specialize (H ltac:(lia)) | clear H]
           | H : ?a = ?b -> _ |- _ =>
               first [specialize (H eq_refl) | clear H]
           end;
    cbn [Nat.add];
    cbv beta iota zeta delta
      [bind call out on_world measure ret note logging try_except
       try_finally try_of_main finally_of_main search
       outside driver_calls journal unread];
    fold (outside ex) (journal ex) (driver_calls ex) (unread ex);
    rewrite Hget; cbv beta iota zeta;
    repeat match goal with
           | H : driver_raises env _ = _ |- _ =>
               rewrite H; cbv beta iota zeta; clear H
           end;
    match goal with
    | |- context [driver_raises env ?n] =>
        destruct (driver_raises env n) as [e'|]
    end;
    (eexists; split; [reflexivity|]; split; [reflexivity|];
     unfold driver_story, story; cbn [journal];
     rewrite !List.map_app; cbn [List.map snd];
     split;
     [rewrite !omap_app; cbn [omap list_omap]; rewrite <- !app_assoc; reflexivity
     |rewrite !in_app_iff; simpl; tauto]).
Qed.

Lemma main_gives_up_without_search_witness :
  driver_raises env_no_search_bar
    (driver_calls (at_try world0 [] Chrome HEADLESS_CHROME)) = None /\
  0 < 3 /\
  (forall i, i < 0 ->
     driver_raises env_no_search_bar
       (i + S (driver_calls (at_try world0 [] Chrome HEADLESS_CHROME))) = None) /\
  driver_raises env_no_search_bar
    (0 + S (driver_calls (at_try world0 [] Chrome HEADLESS_CHROME)))
  = Some (py "no such element") /\
  exists ex',
    try_finally (try_of_main py_ucd env_no_search_bar 5 (py "red car") 5)
      (finally_of_main env_no_search_bar) (at_try world0 [] Chrome HEADLESS_CHROME)
    = (Ok tt, ex') /\
    outside ex' = emit (Print NO_SEARCH_BAR) (emit (Sleep 2000) world0) /\
    driver_story ex'
    = [StartDriver Chrome HEADLESS_CHROME; DriverGet LUMMI;
       FindElement SEARCH_BAR; DriverQuit] /\
    In (Logged ERROR (py "Search bar error: no such element")) (story ex').
Proof.
  assert (H1 : driver_raises env_no_search_bar
                 (driver_calls (at_try world0 [] Chrome HEADLESS_CHROME)) = None)
    by reflexivity.
  assert (H2 : 0 < 3) by lia.
  assert (H3 : forall i, i < 0 ->
             driver_raises env_no_search_bar
               (i + S (driver_calls (at_try world0 [] Chrome HEADLESS_CHROME)))
             = None) by (intros i Hi; lia).
  assert (H4 : driver_raises env_no_search_bar
                 (0 + S (driver_calls (at_try world0 [] Chrome HEADLESS_CHROME)))
               = Some (py "no such element")) by reflexivity.
  split; [exact H1|]. split; [exact H2|]. split; [exact H3|]. split; [exact H4|].
  exact (main_gives_up_without_search py_ucd env_no_search_bar 5 (py "red car") 5
           (at_try world0 [] Chrome HEADLESS_CHROME) 0 (py "no such element")
           H1 H2 H3 H4).
Defined.

Lemma str_eqb_neq (a b : str) : a <> b -> str_eqb a b = false.
Proof.
  intros Hne. destruct (str_eqb a b) eqn:E; [|reflexivity].
  apply str_eqb_eq in E. contradiction.
Qed.

(** X20: when the browser that is asked for is neither chrome nor
    firefox (after lowercasing), the script ends normally, having
    created the folder and opened the session, started no browser,
    logged the failure and printed "An error occurred: Unsupported
    browser. Use 'chrome' or 'firefox'.. Check lummi_scraper.log for
    details." (the message of the exception ends with a full stop and
    the line adds its own); the session is not closed. *)
Theorem script_reports_unsupported_browser (U : unicode_db) (env : environment)
  (fuel : nat) (w : world) (prompt max_answer browser : str) (rest : list str) :
  stdin env = prompt :: max_answer :: browser :: rest ->
  max_answer = [] \/ (exists z, int_of env max_answer = inl z) ->
  makedirs_raises env = None ->
  lower U (py_or (Some browser) (py "chrome")) <> py "chrome" ->
  lower U (py_or (Some browser) (py "chrome")) <> py "firefox" ->
  exists ex',
    script U env fuel (boot env w) = (Ok tt, ex') /\
    outside ex'
    = emit (Print (py "An error occurred: Unsupported browser. Use 'chrome' or 'firefox'.. Check lummi_scraper.log for details.")) w /\
    story ex'
    = [Asked (py "Enter your search prompt: ");
       Asked (py "Enter max number of images to download (default 50): ");
       Asked (py "Enter browser (chrome/firefox, default chrome): ");
       MakeDirs DOWNLOAD_FOLDER;
       NewSession USER_AGENT;
       Logged ERROR (py "Script failed: Unsupported browser. Use 'chrome' or 'firefox'.")] /\
    driver_calls ex' = 0.
Proof.
  intros Hin Hmax Hdirs Hchrome Hfirefox.
  apply str_eqb_neq in Hchrome, Hfirefox.
  unfold script, try_except, main, boot, read_max_images, input, makedirs,
    setup_driver, logging, out, on_world, bind, note, ret, raise.
  rewrite Hin. cbn [unread outside journal driver_calls].
  destruct Hmax as [->|[z Hz]].
  - rewrite Hdirs. cbn [unread outside journal driver_calls].
    rewrite Hchrome, Hfirefox.
    eexists. split; [reflexivity|].
    split; [|split]; reflexivity.
  - destruct max_answer as [|c s].
    + rewrite Hdirs. cbn [unread outside journal driver_calls].
      rewrite Hchrome, Hfirefox.
      eexists. split; [reflexivity|].
    split; [|split]; reflexivity.
    + rewrite Hz, Hdirs. cbn [unread outside journal driver_calls].
      rewrite Hchrome, Hfirefox.
      eexists. split; [reflexivity|].
    split; [|split]; reflexivity.
Qed.

Lemma script_reports_unsupported_browser_witness :
  stdin env_safari = [py "red car"; py "5"; py "Safari"] /\
  (py "5" = [] \/ (exists z, int_of env_safari (py "5") = inl z)) /\
  makedirs_raises env_safari = None /\
  lower py_ucd (py_or (Some (py "Safari")) (py "chrome")) <> py "chrome" /\
  lower py_ucd (py_or (Some (py "Safari")) (py "chrome")) <> py "firefox" /\
  exists ex',
    script py_ucd env_safari 5 (boot env_safari world0) = (Ok tt, ex') /\
    outside ex'
    = emit (Print (py "An error occurred: Unsupported browser. Use 'chrome' or 'firefox'.. Check lummi_scraper.log for details.")) world0 /\
    story ex'
    = [Asked (py "Enter your search prompt: ");
       Asked (py "Enter max number of images to download (default 50): ");
       Asked (py "Enter browser (chrome/firefox, default chrome): ");
       MakeDirs DOWNLOAD_FOLDER;
       NewSession USER_AGENT;
       Logged ERROR (py "Script failed: Unsupported browser. Use 'chrome' or 'firefox'.")] /\
    driver_calls ex' = 0.
Proof.
  assert (H1 : stdin env_safari = [py "red car"; py "5"; py "Safari"])
    by reflexivity.
  assert (H2 : py "5" = [] \/ (exists z, int_of env_safari (py "5") = inl z))
    by (right; exists 5%Z; reflexivity).
  assert (H3 : makedirs_raises env_safari = None) by reflexivity.
  assert (H4 : lower py_ucd (py_or (Some (py "Safari")) (py "chrome"))
               <> py "chrome") by (vm_compute; discriminate).
  assert (H5 : lower py_ucd (py_or (Some (py "Safari")) (py "chrome"))
               <> py "firefox") by (vm_compute; discriminate).
  split; [exact H1|]. split; [exact H2|]. split; [exact H3|].
  split; [exact H4|]. split; [exact H5|].
  exact (script_reports_unsupported_browser py_ucd env_safari 5 world0
           (py "red car") (py "5") (py "Safari") [] H1 H2 H3 H4 H5).
Defined.

Lemma lower_of_ascii_letters (U : unicode_db) (s before : str) :
  (forall c, in_range 0x41 0x5A c = true -> tolower U c = [(c + 0x20)%N]) ->
  (forall c, in_range 0x61 0x7A c = true -> tolower U c = [c]) ->
  Forall (fun c => in_range 0x61 0x7A (ascii_fold c) = true) s ->
  lower_from U before s = List.map ascii_fold s.
Proof.
  intros Hup Hlow Hs. revert before.
  induction Hs as [|c s Hc _ IH]; intros before; [reflexivity|].
  cbn [lower_from List.map]. rewrite IH.
  assert (Hsigma : (c =? CAPITAL_SIGMA)%N = false).
  { apply N.eqb_neq. intros ->. vm_compute in Hc. discriminate Hc. }
  rewrite Hsigma. unfold ascii_fold in *.
  destruct (in_range 0x41 0x5A c) eqn:E.
  - rewrite (Hup c E). reflexivity.
  - rewrite (Hlow c Hc). reflexivity.
Qed.

(** X21: for a character table in which the letters A to Z lowercase
    to a to z and a to z to themselves, [setup_driver] takes the name
    of the browser in any mix of upper and lower case ("Chrome",
    "FIREFOX", ...), and the browser that it starts is headless. *)
Theorem setup_driver_ignores_case (U : unicode_db) (env : environment)
  (browser : str) (ex : execution) (kind : browser_kind) :
  (forall c, in_range 0x41 0x5A c = true -> tolower U c = [(c + 0x20)%N]) ->
  (forall c, in_range 0x61 0x7A c = true -> tolower U c = [c]) ->
  List.map ascii_fold browser
  = match kind with Chrome => py "chrome" | Firefox => py "firefox" end ->
  driver_raises env (driver_calls ex) = None ->
  exists ex' arguments,
    setup_driver U env browser ex = (Ok kind, ex') /\
    story ex' = story ex ++ [Driver (StartDriver kind arguments)] /\
    In (py "--headless") arguments /\
    driver_calls ex' = S (driver_calls ex).
Proof.
  intros Hup Hlow Hname Hstart.
  assert (Hletters : Forall (fun c => in_range 0x61 0x7A (ascii_fold c) = true)
                       browser).
  { apply (proj1 (List.Forall_map ascii_fold
                      (fun c => in_range 0x61 0x7A c = true) browser)).
    rewrite Hname. destruct kind; repeat constructor. }
  unfold setup_driver, lower.
  rewrite (lower_of_ascii_letters U browser [] Hup Hlow Hletters), Hname.
  destruct kind.
  - change (str_eqb (py "chrome") (py "chrome")) with true. cbv iota.
    unfold bind, call, ret. rewrite Hstart.
    do 2 eexists. split; [reflexivity|]. split.
    + unfold story. cbn [journal]. rewrite List.map_app. reflexivity.
    + split; [simpl; auto|reflexivity].
  - change (str_eqb (py "firefox") (py "chrome")) with false.
    change (str_eqb (py "firefox") (py "firefox")) with true. cbv iota.
    unfold bind, call, ret. rewrite Hstart.
    do 2 eexists. split; [reflexivity|]. split.
    + unfold story. cbn [journal]. rewrite List.map_app. reflexivity.
    + split; [simpl; auto|reflexivity].
Qed.

Lemma setup_driver_ignores_case_witness :
  (forall c, in_range 0x41 0x5A c = true -> tolower py_ucd c = [(c + 0x20)%N]) /\
  (forall c, in_range 0x61 0x7A c = true -> tolower py_ucd c = [c]) /\
  List.map ascii_fold (py "FireFox") = py "firefox" /\
  driver_raises env_fine (driver_calls (boot env_fine world0)) = None /\
  exists ex' arguments,
    setup_driver py_ucd env_fine (py "FireFox") (boot env_fine world0)
    = (Ok Firefox, ex') /\
    story ex' = story (boot env_fine world0)
                ++ [Driver (StartDriver Firefox arguments)] /\
    In (py "--headless") arguments /\
    driver_calls ex' = S (driver_calls (boot env_fine world0)).
Proof.
  assert (H1 : forall c, in_range 0x41 0x5A c = true ->
                         tolower py_ucd c = [(c + 0x20)%N])
    by exact (tolower_ascii py_ucd py_ucd_laws).
  assert (H2 : forall c, in_range 0x61 0x7A c = true -> tolower py_ucd c = [c]).
  { intros c Hc. destruct (py_tolower_cases c) as [[E R]|[E R]]; [|exact E].
    ranges. lia. }
  assert (H3 : List.map ascii_fold (py "FireFox") = py "firefox") by reflexivity.
  assert (H4 : driver_raises env_fine (driver_calls (boot env_fine world0)) = None)
    by reflexivity.
  split; [exact H1|]. split; [exact H2|]. split; [exact H3|]. split; [exact H4|].
  exact (setup_driver_ignores_case py_ucd env_fine (py "FireFox")
           (boot env_fine world0) Firefox H1 H2 H3 H4).
Defined.

(** ** Runs on concrete inputs *)

Example run_of_env_fine :
  (script py_ucd env_fine 5 (boot env_fine world0)).1 = Ok tt /\
  printed (outside (script py_ucd env_fine 5 (boot env_fine world0)).2)
  = Some (py "Downloaded 3 images to lummi_images") /\
  List.length (driver_story (script py_ucd env_fine 5 (boot env_fine world0)).2) = 14 /\
  naps (outside (script py_ucd env_fine 5 (boot env_fine world0)).2)
  = [2000; 3000; 2000; 2000; 2000]%N.
Proof. vm_compute. repeat split; reflexivity. Qed.

Example run_of_env_window_lost :
  (main py_ucd env_window_lost 5 (boot env_window_lost world0)).1
  = Raise (py "no such window") /\
  driver_story (main py_ucd env_window_lost 5 (boot env_window_lost world0)).2
  = [StartDriver Chrome HEADLESS_CHROME; DriverGet LUMMI; FindElement SEARCH_BAR;
     SendKeys (py "red car"); SendReturn;
     ExecuteScript HEIGHT_SCRIPT;
     ExecuteScript SCROLL_SCRIPT; ExecuteScript HEIGHT_SCRIPT;
     ExecuteScript SCROLL_SCRIPT; DriverQuit].
Proof. vm_compute. split; reflexivity. Qed.
